(** * Calculadora de Cálculo Multivariable: the symbolic evaluation engine

    A shallow embedding of [CALCULO/calculadora.py]: the triple-integral
    solver [resolver_integral_triple], the three theorem evaluators
    [aplicar_green], [aplicar_divergencia], [aplicar_stokes], the helper
    [_verificar_green] and the validation of [DialogoEntrada.aceptar].

    The program is a client of SymPy.  The operations it calls are collected
    in the interface [SymPy]; the engine is written once over that interface,
    statement by statement as in the Python file, and most results hold for
    every implementation of it.  [MiniSymPy] is an executable implementation
    on which the concrete runs are evaluated.

    The methods of [str] and the conversions [int], [float] and [repr] are
    those of Python 3.11, on every text and not on ASCII alone: [Unicode]
    holds the tables they consult. *)

From Stdlib Require Import ZArith QArith Qround Qabs PrimFloat Uint63 FloatOps SpecFloat Ascii.
From stdpp Require Import gmap strings list pretty.

Open Scope string_scope.

(** ** Text

    A Python [str] is a sequence of Unicode code points.  Here a text is a
    Rocq [string] holding its UTF-8 encoding, and the string methods the
    program calls decode it, work on the code points and encode the result.
    The tables are those of the Unicode database of Python 3.11 (Unicode
    14.0), the values [str.isspace], [int], [str.lower] and
    [str.isprintable] give. *)

Module Unicode.

Local Open Scope N_scope.

Definition byte (c : ascii) : N := N_of_ascii c.

Definition es_continuacion (b : N) : bool := (128 <=? b) && (b <? 192).

(** A byte that is not part of a well-formed sequence, kept apart from
    every code point of a [str] so that encoding restores it. *)
Definition suelto (b : N) : N := 56320 + b.

(** UTF-8 to code points. *)
Fixpoint decodificar (s : string) : list N :=
  match s with
  | EmptyString => []
  | String c0 s1 =>
      let b0 := byte c0 in
      if b0 <? 128 then b0 :: decodificar s1
      else
        match s1 with
        | String c1 s2 =>
            let b1 := byte c1 in
            if (194 <=? b0) && (b0 <? 224) && es_continuacion b1 then
              ((b0 - 192) * 64 + (b1 - 128)) :: decodificar s2
            else
              match s2 with
              | String c2 s3 =>
                  let b2 := byte c2 in
                  let p3 := (b0 - 224) * 4096 + (b1 - 128) * 64 + (b2 - 128) in
                  if (224 <=? b0) && (b0 <? 240) && es_continuacion b1
                     && es_continuacion b2 && (2048 <=? p3)
                     && negb ((55296 <=? p3) && (p3 <? 57344)) then
                    p3 :: decodificar s3
                  else
                    match s3 with
                    | String c3 s4 =>
                        let b3 := byte c3 in
                        let p4 := (b0 - 240) * 262144 + (b1 - 128) * 4096
                                  + (b2 - 128) * 64 + (b3 - 128) in
                        if (240 <=? b0) && (b0 <? 245) && es_continuacion b1
                           && es_continuacion b2 && es_continuacion b3
                           && (65536 <=? p4) && (p4 <? 1114112) then
                          p4 :: decodificar s4
                        else suelto b0 :: decodificar s1
                    | EmptyString => suelto b0 :: decodificar s1
                    end
              | EmptyString => suelto b0 :: decodificar s1
              end
        | EmptyString => [suelto b0]
        end
  end.

Definition de_byte (b : N) : string := String (ascii_of_N b) EmptyString.

(** One code point to UTF-8. *)
Definition codificar_punto (p : N) : string :=
  if p <? 128 then de_byte p
  else if p <? 2048 then
    String.append (de_byte (192 + p / 64)) (de_byte (128 + p mod 64))
  else if (56448 <=? p) && (p <? 56576) then de_byte (p - 56320)
  else if p <? 65536 then
    String.append (de_byte (224 + p / 4096))
      (String.append (de_byte (128 + (p / 64) mod 64))
         (de_byte (128 + p mod 64)))
  else
    String.append (de_byte (240 + p / 262144))
      (String.append (de_byte (128 + (p / 4096) mod 64))
         (String.append (de_byte (128 + (p / 64) mod 64))
            (de_byte (128 + p mod 64)))).

Fixpoint codificar (ps : list N) : string :=
  match ps with
  | [] => EmptyString
  | p :: resto => String.append (codificar_punto p) (codificar resto)
  end.

Definition en_rangos (p : N) (rangos : list (N * N)) : bool :=
  existsb (λ r, (fst r <=? p) && (p <=? snd r)) rangos.

Definition espacios : list N :=
  [
   9; 10; 11; 12; 13; 28; 29; 30; 31; 32; 133; 160;
   5760; 8192; 8193; 8194; 8195; 8196; 8197; 8198; 8199; 8200; 8201; 8202;
   8232; 8233; 8239; 8287; 12288
  ].

Definition ceros_decimales : list N :=
  [
   48; 1632; 1776; 1984; 2406; 2534; 2662; 2790; 2918; 3046;
   3174; 3302; 3430; 3558; 3664; 3792; 3872; 4160; 4240; 6112;
   6160; 6470; 6608; 6784; 6800; 6992; 7088; 7232; 7248; 42528;
   43216; 43264; 43472; 43504; 43600; 44016; 65296; 66720; 68912; 69734;
   69872; 69942; 70096; 70384; 70736; 70864; 71248; 71360; 71472; 71904;
   72016; 72784; 73040; 73120; 92768; 92864; 93008; 120782; 120792; 120802;
   120812; 120822; 123200; 123632; 125264; 130032
  ].

Definition tabla_minusculas : list (N * list N) :=
  [
   (65, [97]); (66, [98]); (67, [99]); (68, [100]); (69, [101]);
   (70, [102]); (71, [103]); (72, [104]); (73, [105]); (74, [106]);
   (75, [107]); (76, [108]); (77, [109]); (78, [110]); (79, [111]);
   (80, [112]); (81, [113]); (82, [114]); (83, [115]); (84, [116]);
   (85, [117]); (86, [118]); (87, [119]); (88, [120]); (89, [121]);
   (90, [122]); (192, [224]); (193, [225]); (194, [226]); (195, [227]);
   (196, [228]); (197, [229]); (198, [230]); (199, [231]); (200, [232]);
   (201, [233]); (202, [234]); (203, [235]); (204, [236]); (205, [237]);
   (206, [238]); (207, [239]); (208, [240]); (209, [241]); (210, [242]);
   (211, [243]); (212, [244]); (213, [245]); (214, [246]); (216, [248]);
   (217, [249]); (218, [250]); (219, [251]); (220, [252]); (221, [253]);
   (222, [254]); (256, [257]); (258, [259]); (260, [261]); (262, [263]);
   (264, [265]); (266, [267]); (268, [269]); (270, [271]); (272, [273]);
   (274, [275]); (276, [277]); (278, [279]); (280, [281]); (282, [283]);
   (284, [285]); (286, [287]); (288, [289]); (290, [291]); (292, [293]);
   (294, [295]); (296, [297]); (298, [299]); (300, [301]); (302, [303]);
   (304, [105; 775]); (306, [307]); (308, [309]); (310, [311]); (313, [314]);
   (315, [316]); (317, [318]); (319, [320]); (321, [322]); (323, [324]);
   (325, [326]); (327, [328]); (330, [331]); (332, [333]); (334, [335]);
   (336, [337]); (338, [339]); (340, [341]); (342, [343]); (344, [345]);
   (346, [347]); (348, [349]); (350, [351]); (352, [353]); (354, [355]);
   (356, [357]); (358, [359]); (360, [361]); (362, [363]); (364, [365]);
   (366, [367]); (368, [369]); (370, [371]); (372, [373]); (374, [375]);
   (376, [255]); (377, [378]); (379, [380]); (381, [382]); (385, [595]);
   (386, [387]); (388, [389]); (390, [596]); (391, [392]); (393, [598]);
   (394, [599]); (395, [396]); (398, [477]); (399, [601]); (400, [603]);
   (401, [402]); (403, [608]); (404, [611]); (406, [617]); (407, [616]);
   (408, [409]); (412, [623]); (413, [626]); (415, [629]); (416, [417]);
   (418, [419]); (420, [421]); (422, [640]); (423, [424]); (425, [643]);
   (428, [429]); (430, [648]); (431, [432]); (433, [650]); (434, [651]);
   (435, [436]); (437, [438]); (439, [658]); (440, [441]); (444, [445]);
   (452, [454]); (453, [454]); (455, [457]); (456, [457]); (458, [460]);
   (459, [460]); (461, [462]); (463, [464]); (465, [466]); (467, [468]);
   (469, [470]); (471, [472]); (473, [474]); (475, [476]); (478, [479]);
   (480, [481]); (482, [483]); (484, [485]); (486, [487]); (488, [489]);
   (490, [491]); (492, [493]); (494, [495]); (497, [499]); (498, [499]);
   (500, [501]); (502, [405]); (503, [447]); (504, [505]); (506, [507]);
   (508, [509]); (510, [511]); (512, [513]); (514, [515]); (516, [517]);
   (518, [519]); (520, [521]); (522, [523]); (524, [525]); (526, [527]);
   (528, [529]); (530, [531]); (532, [533]); (534, [535]); (536, [537]);
   (538, [539]); (540, [541]); (542, [543]); (544, [414]); (546, [547]);
   (548, [549]); (550, [551]); (552, [553]); (554, [555]); (556, [557]);
   (558, [559]); (560, [561]); (562, [563]); (570, [11365]); (571, [572]);
   (573, [410]); (574, [11366]); (577, [578]); (579, [384]); (580, [649]);
   (581, [652]); (582, [583]); (584, [585]); (586, [587]); (588, [589]);
   (590, [591]); (880, [881]); (882, [883]); (886, [887]); (895, [1011]);
   (902, [940]); (904, [941]); (905, [942]); (906, [943]); (908, [972]);
   (910, [973]); (911, [974]); (913, [945]); (914, [946]); (915, [947]);
   (916, [948]); (917, [949]); (918, [950]); (919, [951]); (920, [952]);
   (921, [953]); (922, [954]); (923, [955]); (924, [956]); (925, [957]);
   (926, [958]); (927, [959]); (928, [960]); (929, [961]); (931, [963]);
   (932, [964]); (933, [965]); (934, [966]); (935, [967]); (936, [968]);
   (937, [969]); (938, [970]); (939, [971]); (975, [983]); (984, [985]);
   (986, [987]); (988, [989]); (990, [991]); (992, [993]); (994, [995]);
   (996, [997]); (998, [999]); (1000, [1001]); (1002, [1003]); (1004, [1005]);
   (1006, [1007]); (1012, [952]); (1015, [1016]); (1017, [1010]); (1018, [1019]);
   (1021, [891]); (1022, [892]); (1023, [893]); (1024, [1104]); (1025, [1105]);
   (1026, [1106]); (1027, [1107]); (1028, [1108]); (1029, [1109]); (1030, [1110]);
   (1031, [1111]); (1032, [1112]); (1033, [1113]); (1034, [1114]); (1035, [1115]);
   (1036, [1116]); (1037, [1117]); (1038, [1118]); (1039, [1119]); (1040, [1072]);
   (1041, [1073]); (1042, [1074]); (1043, [1075]); (1044, [1076]); (1045, [1077]);
   (1046, [1078]); (1047, [1079]); (1048, [1080]); (1049, [1081]); (1050, [1082]);
   (1051, [1083]); (1052, [1084]); (1053, [1085]); (1054, [1086]); (1055, [1087]);
   (1056, [1088]); (1057, [1089]); (1058, [1090]); (1059, [1091]); (1060, [1092]);
   (1061, [1093]); (1062, [1094]); (1063, [1095]); (1064, [1096]); (1065, [1097]);
   (1066, [1098]); (1067, [1099]); (1068, [1100]); (1069, [1101]); (1070, [1102]);
   (1071, [1103]); (1120, [1121]); (1122, [1123]); (1124, [1125]); (1126, [1127]);
   (1128, [1129]); (1130, [1131]); (1132, [1133]); (1134, [1135]); (1136, [1137]);
   (1138, [1139]); (1140, [1141]); (1142, [1143]); (1144, [1145]); (1146, [1147]);
   (1148, [1149]); (1150, [1151]); (1152, [1153]); (1162, [1163]); (1164, [1165]);
   (1166, [1167]); (1168, [1169]); (1170, [1171]); (1172, [1173]); (1174, [1175]);
   (1176, [1177]); (1178, [1179]); (1180, [1181]); (1182, [1183]); (1184, [1185]);
   (1186, [1187]); (1188, [1189]); (1190, [1191]); (1192, [1193]); (1194, [1195]);
   (1196, [1197]); (1198, [1199]); (1200, [1201]); (1202, [1203]); (1204, [1205]);
   (1206, [1207]); (1208, [1209]); (1210, [1211]); (1212, [1213]); (1214, [1215]);
   (1216, [1231]); (1217, [1218]); (1219, [1220]); (1221, [1222]); (1223, [1224]);
   (1225, [1226]); (1227, [1228]); (1229, [1230]); (1232, [1233]); (1234, [1235]);
   (1236, [1237]); (1238, [1239]); (1240, [1241]); (1242, [1243]); (1244, [1245]);
   (1246, [1247]); (1248, [1249]); (1250, [1251]); (1252, [1253]); (1254, [1255]);
   (1256, [1257]); (1258, [1259]); (1260, [1261]); (1262, [1263]); (1264, [1265]);
   (1266, [1267]); (1268, [1269]); (1270, [1271]); (1272, [1273]); (1274, [1275]);
   (1276, [1277]); (1278, [1279]); (1280, [1281]); (1282, [1283]); (1284, [1285]);
   (1286, [1287]); (1288, [1289]); (1290, [1291]); (1292, [1293]); (1294, [1295]);
   (1296, [1297]); (1298, [1299]); (1300, [1301]); (1302, [1303]); (1304, [1305]);
   (1306, [1307]); (1308, [1309]); (1310, [1311]); (1312, [1313]); (1314, [1315]);
   (1316, [1317]); (1318, [1319]); (1320, [1321]); (1322, [1323]); (1324, [1325]);
   (1326, [1327]); (1329, [1377]); (1330, [1378]); (1331, [1379]); (1332, [1380]);
   (1333, [1381]); (1334, [1382]); (1335, [1383]); (1336, [1384]); (1337, [1385]);
   (1338, [1386]); (1339, [1387]); (1340, [1388]); (1341, [1389]); (1342, [1390]);
   (1343, [1391]); (1344, [1392]); (1345, [1393]); (1346, [1394]); (1347, [1395]);
   (1348, [1396]); (1349, [1397]); (1350, [1398]); (1351, [1399]); (1352, [1400]);
   (1353, [1401]); (1354, [1402]); (1355, [1403]); (1356, [1404]); (1357, [1405]);
   (1358, [1406]); (1359, [1407]); (1360, [1408]); (1361, [1409]); (1362, [1410]);
   (1363, [1411]); (1364, [1412]); (1365, [1413]); (1366, [1414]); (4256, [11520]);
   (4257, [11521]); (4258, [11522]); (4259, [11523]); (4260, [11524]); (4261, [11525]);
   (4262, [11526]); (4263, [11527]); (4264, [11528]); (4265, [11529]); (4266, [11530]);
   (4267, [11531]); (4268, [11532]); (4269, [11533]); (4270, [11534]); (4271, [11535]);
   (4272, [11536]); (4273, [11537]); (4274, [11538]); (4275, [11539]); (4276, [11540]);
   (4277, [11541]); (4278, [11542]); (4279, [11543]); (4280, [11544]); (4281, [11545]);
   (4282, [11546]); (4283, [11547]); (4284, [11548]); (4285, [11549]); (4286, [11550]);
   (4287, [11551]); (4288, [11552]); (4289, [11553]); (4290, [11554]); (4291, [11555]);
   (4292, [11556]); (4293, [11557]); (4295, [11559]); (4301, [11565]); (5024, [43888]);
   (5025, [43889]); (5026, [43890]); (5027, [43891]); (5028, [43892]); (5029, [43893]);
   (5030, [43894]); (5031, [43895]); (5032, [43896]); (5033, [43897]); (5034, [43898]);
   (5035, [43899]); (5036, [43900]); (5037, [43901]); (5038, [43902]); (5039, [43903]);
   (5040, [43904]); (5041, [43905]); (5042, [43906]); (5043, [43907]); (5044, [43908]);
   (5045, [43909]); (5046, [43910]); (5047, [43911]); (5048, [43912]); (5049, [43913]);
   (5050, [43914]); (5051, [43915]); (5052, [43916]); (5053, [43917]); (5054, [43918]);
   (5055, [43919]); (5056, [43920]); (5057, [43921]); (5058, [43922]); (5059, [43923]);
   (5060, [43924]); (5061, [43925]); (5062, [43926]); (5063, [43927]); (5064, [43928]);
   (5065, [43929]); (5066, [43930]); (5067, [43931]); (5068, [43932]); (5069, [43933]);
   (5070, [43934]); (5071, [43935]); (5072, [43936]); (5073, [43937]); (5074, [43938]);
   (5075, [43939]); (5076, [43940]); (5077, [43941]); (5078, [43942]); (5079, [43943]);
   (5080, [43944]); (5081, [43945]); (5082, [43946]); (5083, [43947]); (5084, [43948]);
   (5085, [43949]); (5086, [43950]); (5087, [43951]); (5088, [43952]); (5089, [43953]);
   (5090, [43954]); (5091, [43955]); (5092, [43956]); (5093, [43957]); (5094, [43958]);
   (5095, [43959]); (5096, [43960]); (5097, [43961]); (5098, [43962]); (5099, [43963]);
   (5100, [43964]); (5101, [43965]); (5102, [43966]); (5103, [43967]); (5104, [5112]);
   (5105, [5113]); (5106, [5114]); (5107, [5115]); (5108, [5116]); (5109, [5117]);
   (7312, [4304]); (7313, [4305]); (7314, [4306]); (7315, [4307]); (7316, [4308]);
   (7317, [4309]); (7318, [4310]); (7319, [4311]); (7320, [4312]); (7321, [4313]);
   (7322, [4314]); (7323, [4315]); (7324, [4316]); (7325, [4317]); (7326, [4318]);
   (7327, [4319]); (7328, [4320]); (7329, [4321]); (7330, [4322]); (7331, [4323]);
   (7332, [4324]); (7333, [4325]); (7334, [4326]); (7335, [4327]); (7336, [4328]);
   (7337, [4329]); (7338, [4330]); (7339, [4331]); (7340, [4332]); (7341, [4333]);
   (7342, [4334]); (7343, [4335]); (7344, [4336]); (7345, [4337]); (7346, [4338]);
   (7347, [4339]); (7348, [4340]); (7349, [4341]); (7350, [4342]); (7351, [4343]);
   (7352, [4344]); (7353, [4345]); (7354, [4346]); (7357, [4349]); (7358, [4350]);
   (7359, [4351]); (7680, [7681]); (7682, [7683]); (7684, [7685]); (7686, [7687]);
   (7688, [7689]); (7690, [7691]); (7692, [7693]); (7694, [7695]); (7696, [7697]);
   (7698, [7699]); (7700, [7701]); (7702, [7703]); (7704, [7705]); (7706, [7707]);
   (7708, [7709]); (7710, [7711]); (7712, [7713]); (7714, [7715]); (7716, [7717]);
   (7718, [7719]); (7720, [7721]); (7722, [7723]); (7724, [7725]); (7726, [7727]);
   (7728, [7729]); (7730, [7731]); (7732, [7733]); (7734, [7735]); (7736, [7737]);
   (7738, [7739]); (7740, [7741]); (7742, [7743]); (7744, [7745]); (7746, [7747]);
   (7748, [7749]); (7750, [7751]); (7752, [7753]); (7754, [7755]); (7756, [7757]);
   (7758, [7759]); (7760, [7761]); (7762, [7763]); (7764, [7765]); (7766, [7767]);
   (7768, [7769]); (7770, [7771]); (7772, [7773]); (7774, [7775]); (7776, [7777]);
   (7778, [7779]); (7780, [7781]); (7782, [7783]); (7784, [7785]); (7786, [7787]);
   (7788, [7789]); (7790, [7791]); (7792, [7793]); (7794, [7795]); (7796, [7797]);
   (7798, [7799]); (7800, [7801]); (7802, [7803]); (7804, [7805]); (7806, [7807]);
   (7808, [7809]); (7810, [7811]); (7812, [7813]); (7814, [7815]); (7816, [7817]);
   (7818, [7819]); (7820, [7821]); (7822, [7823]); (7824, [7825]); (7826, [7827]);
   (7828, [7829]); (7838, [223]); (7840, [7841]); (7842, [7843]); (7844, [7845]);
   (7846, [7847]); (7848, [7849]); (7850, [7851]); (7852, [7853]); (7854, [7855]);
   (7856, [7857]); (7858, [7859]); (7860, [7861]); (7862, [7863]); (7864, [7865]);
   (7866, [7867]); (7868, [7869]); (7870, [7871]); (7872, [7873]); (7874, [7875]);
   (7876, [7877]); (7878, [7879]); (7880, [7881]); (7882, [7883]); (7884, [7885]);
   (7886, [7887]); (7888, [7889]); (7890, [7891]); (7892, [7893]); (7894, [7895]);
   (7896, [7897]); (7898, [7899]); (7900, [7901]); (7902, [7903]); (7904, [7905]);
   (7906, [7907]); (7908, [7909]); (7910, [7911]); (7912, [7913]); (7914, [7915]);
   (7916, [7917]); (7918, [7919]); (7920, [7921]); (7922, [7923]); (7924, [7925]);
   (7926, [7927]); (7928, [7929]); (7930, [7931]); (7932, [7933]); (7934, [7935]);
   (7944, [7936]); (7945, [7937]); (7946, [7938]); (7947, [7939]); (7948, [7940]);
   (7949, [7941]); (7950, [7942]); (7951, [7943]); (7960, [7952]); (7961, [7953]);
   (7962, [7954]); (7963, [7955]); (7964, [7956]); (7965, [7957]); (7976, [7968]);
   (7977, [7969]); (7978, [7970]); (7979, [7971]); (7980, [7972]); (7981, [7973]);
   (7982, [7974]); (7983, [7975]); (7992, [7984]); (7993, [7985]); (7994, [7986]);
   (7995, [7987]); (7996, [7988]); (7997, [7989]); (7998, [7990]); (7999, [7991]);
   (8008, [8000]); (8009, [8001]); (8010, [8002]); (8011, [8003]); (8012, [8004]);
   (8013, [8005]); (8025, [8017]); (8027, [8019]); (8029, [8021]); (8031, [8023]);
   (8040, [8032]); (8041, [8033]); (8042, [8034]); (8043, [8035]); (8044, [8036]);
   (8045, [8037]); (8046, [8038]); (8047, [8039]); (8072, [8064]); (8073, [8065]);
   (8074, [8066]); (8075, [8067]); (8076, [8068]); (8077, [8069]); (8078, [8070]);
   (8079, [8071]); (8088, [8080]); (8089, [8081]); (8090, [8082]); (8091, [8083]);
   (8092, [8084]); (8093, [8085]); (8094, [8086]); (8095, [8087]); (8104, [8096]);
   (8105, [8097]); (8106, [8098]); (8107, [8099]); (8108, [8100]); (8109, [8101]);
   (8110, [8102]); (8111, [8103]); (8120, [8112]); (8121, [8113]); (8122, [8048]);
   (8123, [8049]); (8124, [8115]); (8136, [8050]); (8137, [8051]); (8138, [8052]);
   (8139, [8053]); (8140, [8131]); (8152, [8144]); (8153, [8145]); (8154, [8054]);
   (8155, [8055]); (8168, [8160]); (8169, [8161]); (8170, [8058]); (8171, [8059]);
   (8172, [8165]); (8184, [8056]); (8185, [8057]); (8186, [8060]); (8187, [8061]);
   (8188, [8179]); (8486, [969]); (8490, [107]); (8491, [229]); (8498, [8526]);
   (8544, [8560]); (8545, [8561]); (8546, [8562]); (8547, [8563]); (8548, [8564]);
   (8549, [8565]); (8550, [8566]); (8551, [8567]); (8552, [8568]); (8553, [8569]);
   (8554, [8570]); (8555, [8571]); (8556, [8572]); (8557, [8573]); (8558, [8574]);
   (8559, [8575]); (8579, [8580]); (9398, [9424]); (9399, [9425]); (9400, [9426]);
   (9401, [9427]); (9402, [9428]); (9403, [9429]); (9404, [9430]); (9405, [9431]);
   (9406, [9432]); (9407, [9433]); (9408, [9434]); (9409, [9435]); (9410, [9436]);
   (9411, [9437]); (9412, [9438]); (9413, [9439]); (9414, [9440]); (9415, [9441]);
   (9416, [9442]); (9417, [9443]); (9418, [9444]); (9419, [9445]); (9420, [9446]);
   (9421, [9447]); (9422, [9448]); (9423, [9449]); (11264, [11312]); (11265, [11313]);
   (11266, [11314]); (11267, [11315]); (11268, [11316]); (11269, [11317]); (11270, [11318]);
   (11271, [11319]); (11272, [11320]); (11273, [11321]); (11274, [11322]); (11275, [11323]);
   (11276, [11324]); (11277, [11325]); (11278, [11326]); (11279, [11327]); (11280, [11328]);
   (11281, [11329]); (11282, [11330]); (11283, [11331]); (11284, [11332]); (11285, [11333]);
   (11286, [11334]); (11287, [11335]); (11288, [11336]); (11289, [11337]); (11290, [11338]);
   (11291, [11339]); (11292, [11340]); (11293, [11341]); (11294, [11342]); (11295, [11343]);
   (11296, [11344]); (11297, [11345]); (11298, [11346]); (11299, [11347]); (11300, [11348]);
   (11301, [11349]); (11302, [11350]); (11303, [11351]); (11304, [11352]); (11305, [11353]);
   (11306, [11354]); (11307, [11355]); (11308, [11356]); (11309, [11357]); (11310, [11358]);
   (11311, [11359]); (11360, [11361]); (11362, [619]); (11363, [7549]); (11364, [637]);
   (11367, [11368]); (11369, [11370]); (11371, [11372]); (11373, [593]); (11374, [625]);
   (11375, [592]); (11376, [594]); (11378, [11379]); (11381, [11382]); (11390, [575]);
   (11391, [576]); (11392, [11393]); (11394, [11395]); (11396, [11397]); (11398, [11399]);
   (11400, [11401]); (11402, [11403]); (11404, [11405]); (11406, [11407]); (11408, [11409]);
   (11410, [11411]); (11412, [11413]); (11414, [11415]); (11416, [11417]); (11418, [11419]);
   (11420, [11421]); (11422, [11423]); (11424, [11425]); (11426, [11427]); (11428, [11429]);
   (11430, [11431]); (11432, [11433]); (11434, [11435]); (11436, [11437]); (11438, [11439]);
   (11440, [11441]); (11442, [11443]); (11444, [11445]); (11446, [11447]); (11448, [11449]);
   (11450, [11451]); (11452, [11453]); (11454, [11455]); (11456, [11457]); (11458, [11459]);
   (11460, [11461]); (11462, [11463]); (11464, [11465]); (11466, [11467]); (11468, [11469]);
   (11470, [11471]); (11472, [11473]); (11474, [11475]); (11476, [11477]); (11478, [11479]);
   (11480, [11481]); (11482, [11483]); (11484, [11485]); (11486, [11487]); (11488, [11489]);
   (11490, [11491]); (11499, [11500]); (11501, [11502]); (11506, [11507]); (42560, [42561]);
   (42562, [42563]); (42564, [42565]); (42566, [42567]); (42568, [42569]); (42570, [42571]);
   (42572, [42573]); (42574, [42575]); (42576, [42577]); (42578, [42579]); (42580, [42581]);
   (42582, [42583]); (42584, [42585]); (42586, [42587]); (42588, [42589]); (42590, [42591]);
   (42592, [42593]); (42594, [42595]); (42596, [42597]); (42598, [42599]); (42600, [42601]);
   (42602, [42603]); (42604, [42605]); (42624, [42625]); (42626, [42627]); (42628, [42629]);
   (42630, [42631]); (42632, [42633]); (42634, [42635]); (42636, [42637]); (42638, [42639]);
   (42640, [42641]); (42642, [42643]); (42644, [42645]); (42646, [42647]); (42648, [42649]);
   (42650, [42651]); (42786, [42787]); (42788, [42789]); (42790, [42791]); (42792, [42793]);
   (42794, [42795]); (42796, [42797]); (42798, [42799]); (42802, [42803]); (42804, [42805]);
   (42806, [42807]); (42808, [42809]); (42810, [42811]); (42812, [42813]); (42814, [42815]);
   (42816, [42817]); (42818, [42819]); (42820, [42821]); (42822, [42823]); (42824, [42825]);
   (42826, [42827]); (42828, [42829]); (42830, [42831]); (42832, [42833]); (42834, [42835]);
   (42836, [42837]); (42838, [42839]); (42840, [42841]); (42842, [42843]); (42844, [42845]);
   (42846, [42847]); (42848, [42849]); (42850, [42851]); (42852, [42853]); (42854, [42855]);
   (42856, [42857]); (42858, [42859]); (42860, [42861]); (42862, [42863]); (42873, [42874]);
   (42875, [42876]); (42877, [7545]); (42878, [42879]); (42880, [42881]); (42882, [42883]);
   (42884, [42885]); (42886, [42887]); (42891, [42892]); (42893, [613]); (42896, [42897]);
   (42898, [42899]); (42902, [42903]); (42904, [42905]); (42906, [42907]); (42908, [42909]);
   (42910, [42911]); (42912, [42913]); (42914, [42915]); (42916, [42917]); (42918, [42919]);
   (42920, [42921]); (42922, [614]); (42923, [604]); (42924, [609]); (42925, [620]);
   (42926, [618]); (42928, [670]); (42929, [647]); (42930, [669]); (42931, [43859]);
   (42932, [42933]); (42934, [42935]); (42936, [42937]); (42938, [42939]); (42940, [42941]);
   (42942, [42943]); (42944, [42945]); (42946, [42947]); (42948, [42900]); (42949, [642]);
   (42950, [7566]); (42951, [42952]); (42953, [42954]); (42960, [42961]); (42966, [42967]);
   (42968, [42969]); (42997, [42998]); (65313, [65345]); (65314, [65346]); (65315, [65347]);
   (65316, [65348]); (65317, [65349]); (65318, [65350]); (65319, [65351]); (65320, [65352]);
   (65321, [65353]); (65322, [65354]); (65323, [65355]); (65324, [65356]); (65325, [65357]);
   (65326, [65358]); (65327, [65359]); (65328, [65360]); (65329, [65361]); (65330, [65362]);
   (65331, [65363]); (65332, [65364]); (65333, [65365]); (65334, [65366]); (65335, [65367]);
   (65336, [65368]); (65337, [65369]); (65338, [65370]); (66560, [66600]); (66561, [66601]);
   (66562, [66602]); (66563, [66603]); (66564, [66604]); (66565, [66605]); (66566, [66606]);
   (66567, [66607]); (66568, [66608]); (66569, [66609]); (66570, [66610]); (66571, [66611]);
   (66572, [66612]); (66573, [66613]); (66574, [66614]); (66575, [66615]); (66576, [66616]);
   (66577, [66617]); (66578, [66618]); (66579, [66619]); (66580, [66620]); (66581, [66621]);
   (66582, [66622]); (66583, [66623]); (66584, [66624]); (66585, [66625]); (66586, [66626]);
   (66587, [66627]); (66588, [66628]); (66589, [66629]); (66590, [66630]); (66591, [66631]);
   (66592, [66632]); (66593, [66633]); (66594, [66634]); (66595, [66635]); (66596, [66636]);
   (66597, [66637]); (66598, [66638]); (66599, [66639]); (66736, [66776]); (66737, [66777]);
   (66738, [66778]); (66739, [66779]); (66740, [66780]); (66741, [66781]); (66742, [66782]);
   (66743, [66783]); (66744, [66784]); (66745, [66785]); (66746, [66786]); (66747, [66787]);
   (66748, [66788]); (66749, [66789]); (66750, [66790]); (66751, [66791]); (66752, [66792]);
   (66753, [66793]); (66754, [66794]); (66755, [66795]); (66756, [66796]); (66757, [66797]);
   (66758, [66798]); (66759, [66799]); (66760, [66800]); (66761, [66801]); (66762, [66802]);
   (66763, [66803]); (66764, [66804]); (66765, [66805]); (66766, [66806]); (66767, [66807]);
   (66768, [66808]); (66769, [66809]); (66770, [66810]); (66771, [66811]); (66928, [66967]);
   (66929, [66968]); (66930, [66969]); (66931, [66970]); (66932, [66971]); (66933, [66972]);
   (66934, [66973]); (66935, [66974]); (66936, [66975]); (66937, [66976]); (66938, [66977]);
   (66940, [66979]); (66941, [66980]); (66942, [66981]); (66943, [66982]); (66944, [66983]);
   (66945, [66984]); (66946, [66985]); (66947, [66986]); (66948, [66987]); (66949, [66988]);
   (66950, [66989]); (66951, [66990]); (66952, [66991]); (66953, [66992]); (66954, [66993]);
   (66956, [66995]); (66957, [66996]); (66958, [66997]); (66959, [66998]); (66960, [66999]);
   (66961, [67000]); (66962, [67001]); (66964, [67003]); (66965, [67004]); (68736, [68800]);
   (68737, [68801]); (68738, [68802]); (68739, [68803]); (68740, [68804]); (68741, [68805]);
   (68742, [68806]); (68743, [68807]); (68744, [68808]); (68745, [68809]); (68746, [68810]);
   (68747, [68811]); (68748, [68812]); (68749, [68813]); (68750, [68814]); (68751, [68815]);
   (68752, [68816]); (68753, [68817]); (68754, [68818]); (68755, [68819]); (68756, [68820]);
   (68757, [68821]); (68758, [68822]); (68759, [68823]); (68760, [68824]); (68761, [68825]);
   (68762, [68826]); (68763, [68827]); (68764, [68828]); (68765, [68829]); (68766, [68830]);
   (68767, [68831]); (68768, [68832]); (68769, [68833]); (68770, [68834]); (68771, [68835]);
   (68772, [68836]); (68773, [68837]); (68774, [68838]); (68775, [68839]); (68776, [68840]);
   (68777, [68841]); (68778, [68842]); (68779, [68843]); (68780, [68844]); (68781, [68845]);
   (68782, [68846]); (68783, [68847]); (68784, [68848]); (68785, [68849]); (68786, [68850]);
   (71840, [71872]); (71841, [71873]); (71842, [71874]); (71843, [71875]); (71844, [71876]);
   (71845, [71877]); (71846, [71878]); (71847, [71879]); (71848, [71880]); (71849, [71881]);
   (71850, [71882]); (71851, [71883]); (71852, [71884]); (71853, [71885]); (71854, [71886]);
   (71855, [71887]); (71856, [71888]); (71857, [71889]); (71858, [71890]); (71859, [71891]);
   (71860, [71892]); (71861, [71893]); (71862, [71894]); (71863, [71895]); (71864, [71896]);
   (71865, [71897]); (71866, [71898]); (71867, [71899]); (71868, [71900]); (71869, [71901]);
   (71870, [71902]); (71871, [71903]); (93760, [93792]); (93761, [93793]); (93762, [93794]);
   (93763, [93795]); (93764, [93796]); (93765, [93797]); (93766, [93798]); (93767, [93799]);
   (93768, [93800]); (93769, [93801]); (93770, [93802]); (93771, [93803]); (93772, [93804]);
   (93773, [93805]); (93774, [93806]); (93775, [93807]); (93776, [93808]); (93777, [93809]);
   (93778, [93810]); (93779, [93811]); (93780, [93812]); (93781, [93813]); (93782, [93814]);
   (93783, [93815]); (93784, [93816]); (93785, [93817]); (93786, [93818]); (93787, [93819]);
   (93788, [93820]); (93789, [93821]); (93790, [93822]); (93791, [93823]); (125184, [125218]);
   (125185, [125219]); (125186, [125220]); (125187, [125221]); (125188, [125222]); (125189, [125223]);
   (125190, [125224]); (125191, [125225]); (125192, [125226]); (125193, [125227]); (125194, [125228]);
   (125195, [125229]); (125196, [125230]); (125197, [125231]); (125198, [125232]); (125199, [125233]);
   (125200, [125234]); (125201, [125235]); (125202, [125236]); (125203, [125237]); (125204, [125238]);
   (125205, [125239]); (125206, [125240]); (125207, [125241]); (125208, [125242]); (125209, [125243]);
   (125210, [125244]); (125211, [125245]); (125212, [125246]); (125213, [125247]); (125214, [125248]);
   (125215, [125249]); (125216, [125250]); (125217, [125251])
  ].

Definition con_caja : list (N * N) :=
  [
   (65, 90); (97, 122); (170, 170); (181, 181); (186, 186); (192, 214);
   (216, 246); (248, 442); (444, 447); (452, 659); (661, 687); (880, 883);
   (886, 887); (891, 893); (895, 895); (902, 902); (904, 906); (908, 908);
   (910, 929); (931, 1013); (1015, 1153); (1162, 1327); (1329, 1366); (1376, 1416);
   (4256, 4293); (4295, 4295); (4301, 4301); (4304, 4346); (4349, 4351); (5024, 5109);
   (5112, 5117); (7296, 7304); (7312, 7354); (7357, 7359); (7424, 7467); (7531, 7543);
   (7545, 7578); (7680, 7957); (7960, 7965); (7968, 8005); (8008, 8013); (8016, 8023);
   (8025, 8025); (8027, 8027); (8029, 8029); (8031, 8061); (8064, 8116); (8118, 8124);
   (8126, 8126); (8130, 8132); (8134, 8140); (8144, 8147); (8150, 8155); (8160, 8172);
   (8178, 8180); (8182, 8188); (8450, 8450); (8455, 8455); (8458, 8467); (8469, 8469);
   (8473, 8477); (8484, 8484); (8486, 8486); (8488, 8488); (8490, 8493); (8495, 8500);
   (8505, 8505); (8508, 8511); (8517, 8521); (8526, 8526); (8544, 8575); (8579, 8580);
   (9398, 9449); (11264, 11387); (11390, 11492); (11499, 11502); (11506, 11507); (11520, 11557);
   (11559, 11559); (11565, 11565); (42560, 42605); (42624, 42651); (42786, 42863); (42865, 42887);
   (42891, 42894); (42896, 42954); (42960, 42961); (42963, 42963); (42965, 42969); (42997, 42998);
   (43002, 43002); (43824, 43866); (43872, 43880); (43888, 43967); (64256, 64262); (64275, 64279);
   (65313, 65338); (65345, 65370); (66560, 66639); (66736, 66771); (66776, 66811); (66928, 66938);
   (66940, 66954); (66956, 66962); (66964, 66965); (66967, 66977); (66979, 66993); (66995, 67001);
   (67003, 67004); (68736, 68786); (68800, 68850); (71840, 71903); (93760, 93823); (119808, 119892);
   (119894, 119964); (119966, 119967); (119970, 119970); (119973, 119974); (119977, 119980); (119982, 119993);
   (119995, 119995); (119997, 120003); (120005, 120069); (120071, 120074); (120077, 120084); (120086, 120092);
   (120094, 120121); (120123, 120126); (120128, 120132); (120134, 120134); (120138, 120144); (120146, 120485);
   (120488, 120512); (120514, 120538); (120540, 120570); (120572, 120596); (120598, 120628); (120630, 120654);
   (120656, 120686); (120688, 120712); (120714, 120744); (120746, 120770); (120772, 120779); (122624, 122633);
   (122635, 122654); (125184, 125251); (127280, 127305); (127312, 127337); (127344, 127369)
  ].

Definition ignorables : list (N * N) :=
  [
   (39, 39); (46, 46); (58, 58); (94, 94); (96, 96); (168, 168);
   (173, 173); (175, 175); (180, 180); (183, 184); (688, 879); (884, 885);
   (890, 890); (900, 901); (903, 903); (1155, 1161); (1369, 1369); (1375, 1375);
   (1425, 1469); (1471, 1471); (1473, 1474); (1476, 1477); (1479, 1479); (1524, 1524);
   (1536, 1541); (1552, 1562); (1564, 1564); (1600, 1600); (1611, 1631); (1648, 1648);
   (1750, 1757); (1759, 1768); (1770, 1773); (1807, 1807); (1809, 1809); (1840, 1866);
   (1958, 1968); (2027, 2037); (2042, 2042); (2045, 2045); (2070, 2093); (2137, 2139);
   (2184, 2184); (2192, 2193); (2200, 2207); (2249, 2306); (2362, 2362); (2364, 2364);
   (2369, 2376); (2381, 2381); (2385, 2391); (2402, 2403); (2417, 2417); (2433, 2433);
   (2492, 2492); (2497, 2500); (2509, 2509); (2530, 2531); (2558, 2558); (2561, 2562);
   (2620, 2620); (2625, 2626); (2631, 2632); (2635, 2637); (2641, 2641); (2672, 2673);
   (2677, 2677); (2689, 2690); (2748, 2748); (2753, 2757); (2759, 2760); (2765, 2765);
   (2786, 2787); (2810, 2815); (2817, 2817); (2876, 2876); (2879, 2879); (2881, 2884);
   (2893, 2893); (2901, 2902); (2914, 2915); (2946, 2946); (3008, 3008); (3021, 3021);
   (3072, 3072); (3076, 3076); (3132, 3132); (3134, 3136); (3142, 3144); (3146, 3149);
   (3157, 3158); (3170, 3171); (3201, 3201); (3260, 3260); (3263, 3263); (3270, 3270);
   (3276, 3277); (3298, 3299); (3328, 3329); (3387, 3388); (3393, 3396); (3405, 3405);
   (3426, 3427); (3457, 3457); (3530, 3530); (3538, 3540); (3542, 3542); (3633, 3633);
   (3636, 3642); (3654, 3662); (3761, 3761); (3764, 3772); (3782, 3782); (3784, 3789);
   (3864, 3865); (3893, 3893); (3895, 3895); (3897, 3897); (3953, 3966); (3968, 3972);
   (3974, 3975); (3981, 3991); (3993, 4028); (4038, 4038); (4141, 4144); (4146, 4151);
   (4153, 4154); (4157, 4158); (4184, 4185); (4190, 4192); (4209, 4212); (4226, 4226);
   (4229, 4230); (4237, 4237); (4253, 4253); (4348, 4348); (4957, 4959); (5906, 5908);
   (5938, 5939); (5970, 5971); (6002, 6003); (6068, 6069); (6071, 6077); (6086, 6086);
   (6089, 6099); (6103, 6103); (6109, 6109); (6155, 6159); (6211, 6211); (6277, 6278);
   (6313, 6313); (6432, 6434); (6439, 6440); (6450, 6450); (6457, 6459); (6679, 6680);
   (6683, 6683); (6742, 6742); (6744, 6750); (6752, 6752); (6754, 6754); (6757, 6764);
   (6771, 6780); (6783, 6783); (6823, 6823); (6832, 6862); (6912, 6915); (6964, 6964);
   (6966, 6970); (6972, 6972); (6978, 6978); (7019, 7027); (7040, 7041); (7074, 7077);
   (7080, 7081); (7083, 7085); (7142, 7142); (7144, 7145); (7149, 7149); (7151, 7153);
   (7212, 7219); (7222, 7223); (7288, 7293); (7376, 7378); (7380, 7392); (7394, 7400);
   (7405, 7405); (7412, 7412); (7416, 7417); (7468, 7530); (7544, 7544); (7579, 7679);
   (8125, 8125); (8127, 8129); (8141, 8143); (8157, 8159); (8173, 8175); (8189, 8190);
   (8203, 8207); (8216, 8217); (8228, 8228); (8231, 8231); (8234, 8238); (8288, 8292);
   (8294, 8303); (8305, 8305); (8319, 8319); (8336, 8348); (8400, 8432); (11388, 11389);
   (11503, 11505); (11631, 11631); (11647, 11647); (11744, 11775); (11823, 11823); (12293, 12293);
   (12330, 12333); (12337, 12341); (12347, 12347); (12441, 12446); (12540, 12542); (40981, 40981);
   (42232, 42237); (42508, 42508); (42607, 42610); (42612, 42621); (42623, 42623); (42652, 42655);
   (42736, 42737); (42752, 42785); (42864, 42864); (42888, 42890); (42994, 42996); (43000, 43001);
   (43010, 43010); (43014, 43014); (43019, 43019); (43045, 43046); (43052, 43052); (43204, 43205);
   (43232, 43249); (43263, 43263); (43302, 43309); (43335, 43345); (43392, 43394); (43443, 43443);
   (43446, 43449); (43452, 43453); (43471, 43471); (43493, 43494); (43561, 43566); (43569, 43570);
   (43573, 43574); (43587, 43587); (43596, 43596); (43632, 43632); (43644, 43644); (43696, 43696);
   (43698, 43700); (43703, 43704); (43710, 43711); (43713, 43713); (43741, 43741); (43756, 43757);
   (43763, 43764); (43766, 43766); (43867, 43871); (43881, 43883); (44005, 44005); (44008, 44008);
   (44013, 44013); (64286, 64286); (64434, 64450); (65024, 65039); (65043, 65043); (65056, 65071);
   (65106, 65106); (65109, 65109); (65279, 65279); (65287, 65287); (65294, 65294); (65306, 65306);
   (65342, 65342); (65344, 65344); (65392, 65392); (65438, 65439); (65507, 65507); (65529, 65531);
   (66045, 66045); (66272, 66272); (66422, 66426); (67456, 67461); (67463, 67504); (67506, 67514);
   (68097, 68099); (68101, 68102); (68108, 68111); (68152, 68154); (68159, 68159); (68325, 68326);
   (68900, 68903); (69291, 69292); (69446, 69456); (69506, 69509); (69633, 69633); (69688, 69702);
   (69744, 69744); (69747, 69748); (69759, 69761); (69811, 69814); (69817, 69818); (69821, 69821);
   (69826, 69826); (69837, 69837); (69888, 69890); (69927, 69931); (69933, 69940); (70003, 70003);
   (70016, 70017); (70070, 70078); (70089, 70092); (70095, 70095); (70191, 70193); (70196, 70196);
   (70198, 70199); (70206, 70206); (70367, 70367); (70371, 70378); (70400, 70401); (70459, 70460);
   (70464, 70464); (70502, 70508); (70512, 70516); (70712, 70719); (70722, 70724); (70726, 70726);
   (70750, 70750); (70835, 70840); (70842, 70842); (70847, 70848); (70850, 70851); (71090, 71093);
   (71100, 71101); (71103, 71104); (71132, 71133); (71219, 71226); (71229, 71229); (71231, 71232);
   (71339, 71339); (71341, 71341); (71344, 71349); (71351, 71351); (71453, 71455); (71458, 71461);
   (71463, 71467); (71727, 71735); (71737, 71738); (71995, 71996); (71998, 71998); (72003, 72003);
   (72148, 72151); (72154, 72155); (72160, 72160); (72193, 72202); (72243, 72248); (72251, 72254);
   (72263, 72263); (72273, 72278); (72281, 72283); (72330, 72342); (72344, 72345); (72752, 72758);
   (72760, 72765); (72767, 72767); (72850, 72871); (72874, 72880); (72882, 72883); (72885, 72886);
   (73009, 73014); (73018, 73018); (73020, 73021); (73023, 73029); (73031, 73031); (73104, 73105);
   (73109, 73109); (73111, 73111); (73459, 73460); (78896, 78904); (92912, 92916); (92976, 92982);
   (92992, 92995); (94031, 94031); (94095, 94111); (94176, 94177); (94179, 94180); (110576, 110579);
   (110581, 110587); (110589, 110590); (113821, 113822); (113824, 113827); (118528, 118573); (118576, 118598);
   (119143, 119145); (119155, 119170); (119173, 119179); (119210, 119213); (119362, 119364); (121344, 121398);
   (121403, 121452); (121461, 121461); (121476, 121476); (121499, 121503); (121505, 121519); (122880, 122886);
   (122888, 122904); (122907, 122913); (122915, 122916); (122918, 122922); (123184, 123197); (123566, 123566);
   (123628, 123631); (125136, 125142); (125252, 125259); (127995, 127999); (917505, 917505); (917536, 917631);
   (917760, 917999)
  ].

Definition no_imprimibles : list (N * N) :=
  [
   (0, 31); (127, 160); (173, 173); (888, 889); (896, 899); (907, 907);
   (909, 909); (930, 930); (1328, 1328); (1367, 1368); (1419, 1420); (1424, 1424);
   (1480, 1487); (1515, 1518); (1525, 1541); (1564, 1564); (1757, 1757); (1806, 1807);
   (1867, 1868); (1970, 1983); (2043, 2044); (2094, 2095); (2111, 2111); (2140, 2141);
   (2143, 2143); (2155, 2159); (2191, 2199); (2274, 2274); (2436, 2436); (2445, 2446);
   (2449, 2450); (2473, 2473); (2481, 2481); (2483, 2485); (2490, 2491); (2501, 2502);
   (2505, 2506); (2511, 2518); (2520, 2523); (2526, 2526); (2532, 2533); (2559, 2560);
   (2564, 2564); (2571, 2574); (2577, 2578); (2601, 2601); (2609, 2609); (2612, 2612);
   (2615, 2615); (2618, 2619); (2621, 2621); (2627, 2630); (2633, 2634); (2638, 2640);
   (2642, 2648); (2653, 2653); (2655, 2661); (2679, 2688); (2692, 2692); (2702, 2702);
   (2706, 2706); (2729, 2729); (2737, 2737); (2740, 2740); (2746, 2747); (2758, 2758);
   (2762, 2762); (2766, 2767); (2769, 2783); (2788, 2789); (2802, 2808); (2816, 2816);
   (2820, 2820); (2829, 2830); (2833, 2834); (2857, 2857); (2865, 2865); (2868, 2868);
   (2874, 2875); (2885, 2886); (2889, 2890); (2894, 2900); (2904, 2907); (2910, 2910);
   (2916, 2917); (2936, 2945); (2948, 2948); (2955, 2957); (2961, 2961); (2966, 2968);
   (2971, 2971); (2973, 2973); (2976, 2978); (2981, 2983); (2987, 2989); (3002, 3005);
   (3011, 3013); (3017, 3017); (3022, 3023); (3025, 3030); (3032, 3045); (3067, 3071);
   (3085, 3085); (3089, 3089); (3113, 3113); (3130, 3131); (3141, 3141); (3145, 3145);
   (3150, 3156); (3159, 3159); (3163, 3164); (3166, 3167); (3172, 3173); (3184, 3190);
   (3213, 3213); (3217, 3217); (3241, 3241); (3252, 3252); (3258, 3259); (3269, 3269);
   (3273, 3273); (3278, 3284); (3287, 3292); (3295, 3295); (3300, 3301); (3312, 3312);
   (3315, 3327); (3341, 3341); (3345, 3345); (3397, 3397); (3401, 3401); (3408, 3411);
   (3428, 3429); (3456, 3456); (3460, 3460); (3479, 3481); (3506, 3506); (3516, 3516);
   (3518, 3519); (3527, 3529); (3531, 3534); (3541, 3541); (3543, 3543); (3552, 3557);
   (3568, 3569); (3573, 3584); (3643, 3646); (3676, 3712); (3715, 3715); (3717, 3717);
   (3723, 3723); (3748, 3748); (3750, 3750); (3774, 3775); (3781, 3781); (3783, 3783);
   (3790, 3791); (3802, 3803); (3808, 3839); (3912, 3912); (3949, 3952); (3992, 3992);
   (4029, 4029); (4045, 4045); (4059, 4095); (4294, 4294); (4296, 4300); (4302, 4303);
   (4681, 4681); (4686, 4687); (4695, 4695); (4697, 4697); (4702, 4703); (4745, 4745);
   (4750, 4751); (4785, 4785); (4790, 4791); (4799, 4799); (4801, 4801); (4806, 4807);
   (4823, 4823); (4881, 4881); (4886, 4887); (4955, 4956); (4989, 4991); (5018, 5023);
   (5110, 5111); (5118, 5119); (5760, 5760); (5789, 5791); (5881, 5887); (5910, 5918);
   (5943, 5951); (5972, 5983); (5997, 5997); (6001, 6001); (6004, 6015); (6110, 6111);
   (6122, 6127); (6138, 6143); (6158, 6158); (6170, 6175); (6265, 6271); (6315, 6319);
   (6390, 6399); (6431, 6431); (6444, 6447); (6460, 6463); (6465, 6467); (6510, 6511);
   (6517, 6527); (6572, 6575); (6602, 6607); (6619, 6621); (6684, 6685); (6751, 6751);
   (6781, 6782); (6794, 6799); (6810, 6815); (6830, 6831); (6863, 6911); (6989, 6991);
   (7039, 7039); (7156, 7163); (7224, 7226); (7242, 7244); (7305, 7311); (7355, 7356);
   (7368, 7375); (7419, 7423); (7958, 7959); (7966, 7967); (8006, 8007); (8014, 8015);
   (8024, 8024); (8026, 8026); (8028, 8028); (8030, 8030); (8062, 8063); (8117, 8117);
   (8133, 8133); (8148, 8149); (8156, 8156); (8176, 8177); (8181, 8181); (8191, 8207);
   (8232, 8239); (8287, 8303); (8306, 8307); (8335, 8335); (8349, 8351); (8385, 8399);
   (8433, 8447); (8588, 8591); (9255, 9279); (9291, 9311); (11124, 11125); (11158, 11158);
   (11508, 11512); (11558, 11558); (11560, 11564); (11566, 11567); (11624, 11630); (11633, 11646);
   (11671, 11679); (11687, 11687); (11695, 11695); (11703, 11703); (11711, 11711); (11719, 11719);
   (11727, 11727); (11735, 11735); (11743, 11743); (11870, 11903); (11930, 11930); (12020, 12031);
   (12246, 12271); (12284, 12288); (12352, 12352); (12439, 12440); (12544, 12548); (12592, 12592);
   (12687, 12687); (12772, 12783); (12831, 12831); (42125, 42127); (42183, 42191); (42540, 42559);
   (42744, 42751); (42955, 42959); (42962, 42962); (42964, 42964); (42970, 42993); (43053, 43055);
   (43066, 43071); (43128, 43135); (43206, 43213); (43226, 43231); (43348, 43358); (43389, 43391);
   (43470, 43470); (43482, 43485); (43519, 43519); (43575, 43583); (43598, 43599); (43610, 43611);
   (43715, 43738); (43767, 43776); (43783, 43784); (43791, 43792); (43799, 43807); (43815, 43815);
   (43823, 43823); (43884, 43887); (44014, 44015); (44026, 44031); (55204, 55215); (55239, 55242);
   (55292, 63743); (64110, 64111); (64218, 64255); (64263, 64274); (64280, 64284); (64311, 64311);
   (64317, 64317); (64319, 64319); (64322, 64322); (64325, 64325); (64451, 64466); (64912, 64913);
   (64968, 64974); (64976, 65007); (65050, 65055); (65107, 65107); (65127, 65127); (65132, 65135);
   (65141, 65141); (65277, 65280); (65471, 65473); (65480, 65481); (65488, 65489); (65496, 65497);
   (65501, 65503); (65511, 65511); (65519, 65531); (65534, 65535); (65548, 65548); (65575, 65575);
   (65595, 65595); (65598, 65598); (65614, 65615); (65630, 65663); (65787, 65791); (65795, 65798);
   (65844, 65846); (65935, 65935); (65949, 65951); (65953, 65999); (66046, 66175); (66205, 66207);
   (66257, 66271); (66300, 66303); (66340, 66348); (66379, 66383); (66427, 66431); (66462, 66462);
   (66500, 66503); (66518, 66559); (66718, 66719); (66730, 66735); (66772, 66775); (66812, 66815);
   (66856, 66863); (66916, 66926); (66939, 66939); (66955, 66955); (66963, 66963); (66966, 66966);
   (66978, 66978); (66994, 66994); (67002, 67002); (67005, 67071); (67383, 67391); (67414, 67423);
   (67432, 67455); (67462, 67462); (67505, 67505); (67515, 67583); (67590, 67591); (67593, 67593);
   (67638, 67638); (67641, 67643); (67645, 67646); (67670, 67670); (67743, 67750); (67760, 67807);
   (67827, 67827); (67830, 67834); (67868, 67870); (67898, 67902); (67904, 67967); (68024, 68027);
   (68048, 68049); (68100, 68100); (68103, 68107); (68116, 68116); (68120, 68120); (68150, 68151);
   (68155, 68158); (68169, 68175); (68185, 68191); (68256, 68287); (68327, 68330); (68343, 68351);
   (68406, 68408); (68438, 68439); (68467, 68471); (68498, 68504); (68509, 68520); (68528, 68607);
   (68681, 68735); (68787, 68799); (68851, 68857); (68904, 68911); (68922, 69215); (69247, 69247);
   (69290, 69290); (69294, 69295); (69298, 69375); (69416, 69423); (69466, 69487); (69514, 69551);
   (69580, 69599); (69623, 69631); (69710, 69713); (69750, 69758); (69821, 69821); (69827, 69839);
   (69865, 69871); (69882, 69887); (69941, 69941); (69960, 69967); (70007, 70015); (70112, 70112);
   (70133, 70143); (70162, 70162); (70207, 70271); (70279, 70279); (70281, 70281); (70286, 70286);
   (70302, 70302); (70314, 70319); (70379, 70383); (70394, 70399); (70404, 70404); (70413, 70414);
   (70417, 70418); (70441, 70441); (70449, 70449); (70452, 70452); (70458, 70458); (70469, 70470);
   (70473, 70474); (70478, 70479); (70481, 70486); (70488, 70492); (70500, 70501); (70509, 70511);
   (70517, 70655); (70748, 70748); (70754, 70783); (70856, 70863); (70874, 71039); (71094, 71095);
   (71134, 71167); (71237, 71247); (71258, 71263); (71277, 71295); (71354, 71359); (71370, 71423);
   (71451, 71452); (71468, 71471); (71495, 71679); (71740, 71839); (71923, 71934); (71943, 71944);
   (71946, 71947); (71956, 71956); (71959, 71959); (71990, 71990); (71993, 71994); (72007, 72015);
   (72026, 72095); (72104, 72105); (72152, 72153); (72165, 72191); (72264, 72271); (72355, 72367);
   (72441, 72703); (72713, 72713); (72759, 72759); (72774, 72783); (72813, 72815); (72848, 72849);
   (72872, 72872); (72887, 72959); (72967, 72967); (72970, 72970); (73015, 73017); (73019, 73019);
   (73022, 73022); (73032, 73039); (73050, 73055); (73062, 73062); (73065, 73065); (73103, 73103);
   (73106, 73106); (73113, 73119); (73130, 73439); (73465, 73647); (73649, 73663); (73714, 73726);
   (74650, 74751); (74863, 74863); (74869, 74879); (75076, 77711); (77811, 77823); (78895, 82943);
   (83527, 92159); (92729, 92735); (92767, 92767); (92778, 92781); (92863, 92863); (92874, 92879);
   (92910, 92911); (92918, 92927); (92998, 93007); (93018, 93018); (93026, 93026); (93048, 93052);
   (93072, 93759); (93851, 93951); (94027, 94030); (94088, 94094); (94112, 94175); (94181, 94191);
   (94194, 94207); (100344, 100351); (101590, 101631); (101641, 110575); (110580, 110580); (110588, 110588);
   (110591, 110591); (110883, 110927); (110931, 110947); (110952, 110959); (111356, 113663); (113771, 113775);
   (113789, 113791); (113801, 113807); (113818, 113819); (113824, 118527); (118574, 118575); (118599, 118607);
   (118724, 118783); (119030, 119039); (119079, 119080); (119155, 119162); (119275, 119295); (119366, 119519);
   (119540, 119551); (119639, 119647); (119673, 119807); (119893, 119893); (119965, 119965); (119968, 119969);
   (119971, 119972); (119975, 119976); (119981, 119981); (119994, 119994); (119996, 119996); (120004, 120004);
   (120070, 120070); (120075, 120076); (120085, 120085); (120093, 120093); (120122, 120122); (120127, 120127);
   (120133, 120133); (120135, 120137); (120145, 120145); (120486, 120487); (120780, 120781); (121484, 121498);
   (121504, 121504); (121520, 122623); (122655, 122879); (122887, 122887); (122905, 122906); (122914, 122914);
   (122917, 122917); (122923, 123135); (123181, 123183); (123198, 123199); (123210, 123213); (123216, 123535);
   (123567, 123583); (123642, 123646); (123648, 124895); (124903, 124903); (124908, 124908); (124911, 124911);
   (124927, 124927); (125125, 125126); (125143, 125183); (125260, 125263); (125274, 125277); (125280, 126064);
   (126133, 126208); (126270, 126463); (126468, 126468); (126496, 126496); (126499, 126499); (126501, 126502);
   (126504, 126504); (126515, 126515); (126520, 126520); (126522, 126522); (126524, 126529); (126531, 126534);
   (126536, 126536); (126538, 126538); (126540, 126540); (126544, 126544); (126547, 126547); (126549, 126550);
   (126552, 126552); (126554, 126554); (126556, 126556); (126558, 126558); (126560, 126560); (126563, 126563);
   (126565, 126566); (126571, 126571); (126579, 126579); (126584, 126584); (126589, 126589); (126591, 126591);
   (126602, 126602); (126620, 126624); (126628, 126628); (126634, 126634); (126652, 126703); (126706, 126975);
   (127020, 127023); (127124, 127135); (127151, 127152); (127168, 127168); (127184, 127184); (127222, 127231);
   (127406, 127461); (127491, 127503); (127548, 127551); (127561, 127567); (127570, 127583); (127590, 127743);
   (128728, 128732); (128749, 128751); (128765, 128767); (128884, 128895); (128985, 128991); (129004, 129007);
   (129009, 129023); (129036, 129039); (129096, 129103); (129114, 129119); (129160, 129167); (129198, 129199);
   (129202, 129279); (129620, 129631); (129646, 129647); (129653, 129655); (129661, 129663); (129671, 129679);
   (129709, 129711); (129723, 129727); (129734, 129743); (129754, 129759); (129768, 129775); (129783, 129791);
   (129939, 129939); (129995, 130031); (130042, 131071); (173792, 173823); (177977, 177983); (178206, 178207);
   (183970, 183983); (191457, 194559); (195102, 196607); (201547, 917759); (918000, 1114111)
  ].

(** [c.isspace()] *)
Definition espacio (p : N) : bool := existsb (N.eqb p) espacios.

(** The value of a decimal digit of any script, as [int(c)] gives it. *)
Definition decimal (p : N) : option N :=
  match filter (λ z, (z <=? p) && (p <? z + 10)) ceros_decimales with
  | z :: _ => Some (p - z)
  | [] => None
  end.

(** [c.lower()], which may be more than one code point. *)
Definition minuscula (p : N) : list N :=
  match filter (λ e, fst e =? p) tabla_minusculas with
  | e :: _ => snd e
  | [] => [p]
  end.

(** [c.isprintable()] *)
Definition imprimible (p : N) : bool := negb (en_rangos p no_imprimibles).

(** The first code point that is not case-ignorable has a case. *)
Fixpoint sigue_con_caja (ps : list N) : bool :=
  match ps with
  | [] => false
  | p :: resto =>
      if en_rangos p ignorables then sigue_con_caja resto
      else en_rangos p con_caja
  end.

(** A capital sigma is lowered to the final sigma when a cased letter comes
    before it and none comes after it, case-ignorable code points apart;
    [antes] holds the code points before it, the nearest first. *)
Definition sigma (antes despues : list N) : N :=
  if sigue_con_caja antes && negb (sigue_con_caja despues) then 962 else 963.

Fixpoint minusculas (antes ps : list N) : list N :=
  match ps with
  | [] => []
  | p :: resto =>
      ((if p =? 931 then [sigma antes resto] else minuscula p)
       ++ minusculas (p :: antes) resto)%list
  end.

Fixpoint quitar_al_inicio (ps : list N) : list N :=
  match ps with
  | [] => []
  | p :: resto => if espacio p then quitar_al_inicio resto else ps
  end.

Definition quitar_al_final (ps : list N) : list N :=
  rev (quitar_al_inicio (rev ps)).

Definition hex_digito (d : N) : string :=
  de_byte (if d <? 10 then 48 + d else 87 + d).

Fixpoint hex (cifras : nat) (p : N) : string :=
  match cifras with
  | O => EmptyString
  | S k => String.append (hex k (p / 16)) (hex_digito (p mod 16))
  end.

End Unicode.

(** ** Python values the engine manipulates *)

Module Py.

(** A raised exception: its class and the text [str(e)] gives. *)
Inductive exn := Exc (clase mensaje : string).

Definition exn_str (e : exn) : string :=
  match e with Exc _ m => m end.

Definition exn_clase (e : exn) : string :=
  match e with Exc c _ => c end.

(** The result of running a piece of Python: a value, or an exception that
    propagates to the caller. *)
Inductive outcome (A : Type) :=
| Ok (a : A)
| Raise (e : exn).
Arguments Ok {A} a.
Arguments Raise {A} e.

#[export] Instance outcome_ret : MRet outcome := fun A a => Ok a.
#[export] Instance outcome_bind : MBind outcome := fun A B f m =>
  match m with
  | Ok a => f a
  | Raise e => Raise e
  end.

#[export] Instance outcome_fmap : FMap outcome := fun A B f m =>
  match m with
  | Ok a => Ok (f a)
  | Raise e => Raise e
  end.

(** [try: m except Exception as e: h e] *)
Definition try_except {A} (m : outcome A) (h : exn → outcome A) : outcome A :=
  match m with
  | Ok a => Ok a
  | Raise e => h e
  end.

Definition raised {A} (m : outcome A) : bool :=
  match m with Ok _ => false | Raise _ => true end.

Definition nl : string := String (ascii_of_nat 10) "".

(** [c * n] for a one-character string. *)
Fixpoint repetir (c : ascii) (n : nat) : string :=
  match n with
  | O => ""
  | S n' => String c (repetir c n')
  end.

(** [s.replace(" ", "")] *)
Fixpoint quitar_espacios (s : string) : string :=
  match s with
  | "" => ""
  | String c s' =>
      if Ascii.eqb c " " then quitar_espacios s'
      else String c (quitar_espacios s')
  end.

(** [Py_TOLOWER]: the ASCII letters only. *)
Definition lower_ascii (c : ascii) : ascii :=
  let n := nat_of_ascii c in
  if (65 <=? n)%nat && (n <=? 90)%nat then ascii_of_nat (n + 32) else c.

(** The same over a text, as [float] compares the names [inf] and [nan]. *)
Fixpoint lower_c (s : string) : string :=
  match s with
  | "" => ""
  | String c s' => String (lower_ascii c) (lower_c s')
  end.

(** [s.lower()] *)
Definition lower (s : string) : string :=
  Unicode.codificar (Unicode.minusculas [] (Unicode.decodificar s)).

(** [s.startswith(p)] *)
Definition startswith (s p : string) : bool := String.prefix p s.

(** [s.startswith((p1, ..., pn))] *)
Definition startswith_any (s : string) (ps : list string) : bool :=
  existsb (startswith s) ps.

(** [sub in s] *)
Fixpoint contiene (s sub : string) : bool :=
  String.prefix sub s ||
  match s with
  | "" => false
  | String _ s' => contiene s' sub
  end.

(** [s in [v1, ..., vn]] *)
Definition en_lista (s : string) (vs : list string) : bool :=
  existsb (String.eqb s) vs.

(** [Py_ISSPACE]: the white space of C, which [int] and [float] skip around
    a number. *)
Definition es_espacio (c : ascii) : bool :=
  let n := nat_of_ascii c in
  (n =? 32)%nat || ((9 <=? n)%nat && (n <=? 13)%nat).

Fixpoint saltar_espacios (s : string) : string :=
  match s with
  | "" => ""
  | String c s' => if es_espacio c then saltar_espacios s' else s
  end.

Fixpoint recortar_espacios (s : string) : string :=
  match s with
  | "" => ""
  | String c s' =>
      match recortar_espacios s' with
      | "" => if es_espacio c then "" else String c ""
      | r => String c r
      end
  end.

(** [s.lstrip()], [s.rstrip()] and [s.strip()]: every code point that
    [str.isspace] holds of is white space. *)
Definition lstrip (s : string) : string :=
  Unicode.codificar (Unicode.quitar_al_inicio (Unicode.decodificar s)).

Definition rstrip (s : string) : string :=
  Unicode.codificar (Unicode.quitar_al_final (Unicode.decodificar s)).

Definition strip (s : string) : string :=
  Unicode.codificar
    (Unicode.quitar_al_final
       (Unicode.quitar_al_inicio (Unicode.decodificar s))).

(** The double quote. *)
Definition comillas : ascii := ascii_of_nat 34.

(** The backslash. *)
Definition barra : string := String (ascii_of_nat 92) "".

(** One code point of [repr(s)], between quotes [q]: the quote and the
    backslash are escaped, what cannot be printed is written in
    hexadecimal. *)
Definition repr_punto (q : N) (p : N) : string :=
  if (p =? q)%N || (p =? 92)%N then barra ++ Unicode.de_byte p
  else if (p =? 9)%N then barra ++ "t"
  else if (p =? 10)%N then barra ++ "n"
  else if (p =? 13)%N then barra ++ "r"
  else if (p <? 32)%N || (p =? 127)%N then barra ++ "x" ++ Unicode.hex 2 p
  else if (p <? 127)%N then Unicode.de_byte p
  else if Unicode.imprimible p then Unicode.codificar_punto p
  else if (p <? 256)%N then barra ++ "x" ++ Unicode.hex 2 p
  else if (p <? 65536)%N then barra ++ "u" ++ Unicode.hex 4 p
  else barra ++ "U" ++ Unicode.hex 8 p.

(** [repr(s)]: single quotes, unless the text has a single quote and no
    double quote. *)
Definition repr (s : string) : string :=
  let ps := Unicode.decodificar s in
  let q : N :=
    if existsb (N.eqb 39) ps && negb (existsb (N.eqb 34) ps) then 34%N
    else 39%N in
  Unicode.de_byte q ++ String.concat "" (map (repr_punto q) ps)
  ++ Unicode.de_byte q.

(** The first [n] code points of a text: [%.nR] in an error message. *)
Definition primeros (n : nat) (s : string) : string :=
  Unicode.codificar (take n (Unicode.decodificar s)).

(** What [int] and [float] read instead of the text: white space of any
    script becomes a space, a decimal digit of any script the ASCII digit
    of its value, and any other code point from 127 on a question mark. *)
Definition a_ascii (s : string) : string :=
  Unicode.codificar
    (map (λ p, if (p <? 127)%N then p
               else if Unicode.espacio p then 32%N
               else match Unicode.decimal p with
                    | Some d => (48 + d)%N
                    | None => 63%N
                    end)
       (Unicode.decodificar s)).

Definition es_digito (c : ascii) : bool :=
  let n := nat_of_ascii c in (48 <=? n)%nat && (n <=? 57)%nat.

Definition valor_digito (c : ascii) : Z := Z.of_nat (nat_of_ascii c) - 48.

(** Decimal digits, most significant first, onto an accumulator; [None] on
    a character that is not a digit. *)
Fixpoint leer_digitos (s : string) (acc : Z) : option Z :=
  match s with
  | "" => Some acc
  | String c s' =>
      if es_digito c then leer_digitos s' (10 * acc + valor_digito c)
      else None
  end.

Definition error_int (s : string) : exn :=
  Exc "ValueError"
    ("invalid literal for int() with base 10: " ++ primeros 200 (repr s)).

(** The default of [sys.get_int_max_str_digits()]. *)
Definition max_str_digits : nat := 4300.

Definition error_limite (cifras : nat) : exn :=
  Exc "ValueError"
    ("Exceeds the limit (" ++ pretty max_str_digits
     ++ " digits) for integer string conversion: value has "
     ++ pretty cifras
     ++ " digits; use sys.set_int_max_str_digits() to increase the limit").

(** The run of digits and underscores at the head of a text: the digits and
    what follows the run, or [None] when two underscores meet or the run
    ends with one; [prev] is the character before. *)
Fixpoint leer_cifras (prev : ascii) (s : string) : option (string * string) :=
  match s with
  | "" => if Ascii.eqb prev "_" then None else Some ("", "")
  | String c s' =>
      if es_digito c then
        match leer_cifras c s' with
        | Some (cifras, resto) => Some (String c cifras, resto)
        | None => None
        end
      else if Ascii.eqb c "_" then
        if Ascii.eqb prev "_" then None else leer_cifras c s'
      else if Ascii.eqb prev "_" then None
      else Some ("", s)
  end.

(** [int(s)] for a text: white space, an optional sign, decimal digits
    with single underscores between them, white space.  More than 4300
    digits are refused. *)
Definition int (s : string) : outcome Z :=
  let t := saltar_espacios (a_ascii s) in
  let '(signo, cuerpo) :=
    match t with
    | String "-" r => ((-1)%Z, r)
    | String "+" r => (1%Z, r)
    | _ => (1%Z, t)
    end in
  if startswith cuerpo "_" then Raise (error_int s)
  else
    match leer_cifras Ascii.zero cuerpo with
    | None => Raise (error_int s)
    | Some (cifras, resto) =>
        if (max_str_digits <? String.length cifras)%nat then
          Raise (error_limite (String.length cifras))
        else
          match cifras, saltar_espacios resto with
          | String _ _, "" =>
              Ok (signo * default 0%Z (leer_digitos cifras 0))%Z
          | _, _ => Raise (error_int s)
          end
    end.

Fixpoint solo_digitos (s : string) : bool :=
  match s with
  | "" => true
  | String c s' => es_digito c && solo_digitos s'
  end.

Fixpoint partir_en (es_corte : ascii → bool) (s : string) : string * option string :=
  match s with
  | "" => ("", None)
  | String c s' =>
      if es_corte c then ("", Some s')
      else let '(a, b) := partir_en es_corte s' in (String c a, b)
  end.

Definition sin_signo (s : string) : string :=
  match s with
  | String "-" r => r
  | String "+" r => r
  | _ => s
  end.

Definition exponente_valido (s : string) : bool :=
  let d := sin_signo s in
  negb (String.eqb d "") && solo_digitos d.

Definition mantisa_valida (s : string) : bool :=
  let '(entera, fraccion) := partir_en (Ascii.eqb ".") s in
  let f := default "" fraccion in
  solo_digitos entera && solo_digitos f
  && negb (String.eqb entera "" && String.eqb f "").

(** Every underscore stands between two digits. *)
Fixpoint guiones_validos (prev : ascii) (s : string) : bool :=
  match s with
  | "" => negb (Ascii.eqb prev "_")
  | String c s' =>
      (if Ascii.eqb c "_" then es_digito prev
       else if Ascii.eqb prev "_" then es_digito c
       else true)
      && guiones_validos c s'
  end.

Fixpoint quitar_guiones (s : string) : string :=
  match s with
  | "" => ""
  | String c s' =>
      if Ascii.eqb c "_" then quitar_guiones s'
      else String c (quitar_guiones s')
  end.

(** Whether [float(s)] accepts the text: white space around an optional
    sign followed by [inf], [infinity], [nan] in any case or by a decimal
    literal with an optional fraction and exponent, single underscores
    allowed between digits. *)
Definition float_valido (s : string) : bool :=
  let t := a_ascii s in
  guiones_validos Ascii.zero t &&
  let t := lower_c (sin_signo
             (recortar_espacios (saltar_espacios (quitar_guiones t)))) in
  en_lista t ["inf"; "infinity"; "nan"] ||
  let '(mantisa, exponente) := partir_en (Ascii.eqb "e") t in
  mantisa_valida mantisa &&
  match exponente with
  | None => true
  | Some e => exponente_valido e
  end.

Definition error_float (s : string) : exn :=
  Exc "ValueError" ("could not convert string to float: " ++ repr s).

(** [str(n)] for an integer. *)
Definition str_int (n : Z) : string := pretty n.

(** [lista.append(x)] and [lista.extend(otra)], as new lists. *)
Definition append {A} (lista : list A) (x : A) : list A := (lista ++ [x])%list.
Definition extend {A} (lista otra : list A) : list A := (lista ++ otra)%list.

(** [d[k]] on a dictionary; [str] of a [KeyError] is the [repr] of the key. *)
Definition getitem {V} (d : gmap string V) (k : string) : outcome V :=
  match d !! k with
  | Some v => Ok v
  | None => Raise (Exc "KeyError" (repr k))
  end.

(** [d.get(k, v)] where [d] may be [None] (the default of the parameter
    [parametros_region]). *)
Definition get (d : option (gmap string string)) (k v : string)
  : outcome string :=
  match d with
  | None =>
      Raise (Exc "AttributeError" "'NoneType' object has no attribute 'get'")
  | Some m => Ok (default v (m !! k))
  end.

End Py.
Import Py.

(** ** The SymPy operations the engine calls *)

(** Assumptions given to [sp.symbols]: none, [real=True], [positive=True]. *)
Inductive supuesto := sin_supuesto | real | positive.

(** The functions that appear in the [locals] tables and in the formulas. *)
Inductive func := f_sin | f_cos | f_tan | f_exp | f_log.

(** An entry of a [locals] table: an expression or a function. *)
Inductive local (E : Type) :=
| LExpr (e : E)
| LFunc (f : func).
Arguments LExpr {E} e.
Arguments LFunc {E} f.

Class SymPy := {
  Expr : Type;
  (** [sp.Symbol(name, **assumptions)] *)
  Symbol : string → supuesto → Expr;
  (** a Python [int] and a Python [float] taken into SymPy *)
  Integer : Z → Expr;
  Float : float → Expr;
  pi : Expr;
  (** [a + b], [a * b], [a ** b] *)
  add : Expr → Expr → Expr;
  mul : Expr → Expr → Expr;
  pow : Expr → Expr → Expr;
  (** [sp.sin(a)], [sp.cos(a)], ...; [sp.sqrt(a)] *)
  fn : func → Expr → Expr;
  sqrt : Expr → Expr;
  (** [a == b] on expressions *)
  expr_eqb : Expr → Expr → bool;
  (** [sp.sympify(text, locals=tabla)]; raises on text it cannot parse *)
  sympify : string → gmap string (local Expr) → outcome Expr;
  (** [sp.diff(e, v)] *)
  diff : Expr → Expr → Expr;
  (** [sp.integrate(e, (v1, a1, b1), ..., (vn, an, bn))] *)
  integrate : Expr → list (Expr * Expr * Expr) → outcome Expr;
  (** [sp.simplify(e)] *)
  simplify : Expr → Expr;
  (** [e.subs({v1: e1, ..., vn: en})] *)
  subs : Expr → list (Expr * Expr) → Expr;
  (** the truth value of [e.is_constant()] *)
  is_constant : Expr → bool;
  (** [str(e)] and [sp.pretty(e)]; [sp.pretty(sp.Matrix([...]))] *)
  str : Expr → string;
  sp_pretty : Expr → string;
  pretty_matrix : list Expr → string;
  (** [float(sp.N(e))]: [None] when the conversion raises *)
  N_float : Expr → option float;
  (** [str(f)] for a Python float *)
  str_float : float → string
}.

Declare Scope sympy_scope.
Delimit Scope sympy_scope with sp.
Infix "+" := add : sympy_scope.
Infix "*" := mul : sympy_scope.
Infix "**" := pow (at level 30, right associativity) : sympy_scope.

(** ** The records the evaluators return *)

(** An evaluator that fails returns the dictionary [{'error': mensaje}];
    otherwise it returns its record of results. *)
Inductive respuesta (R : Type) :=
| error (mensaje : string)
| datos (r : R).
Arguments error {R} mensaje.
Arguments datos {R} r.

(** [{'resultado': ..., 'pasos': ...}] *)
Module Triple.
Record t (E : Type) := {
  resultado : E;
  pasos : list string
}.
Arguments resultado {E} _.
Arguments pasos {E} _.
End Triple.

(** [{'doble': ..., 'linea': ..., 'pasos': ..., 'info': ...}] *)
Module Green.
Record t (E : Type) := {
  doble : E;
  linea : E;
  pasos : list string;
  info : list string
}.
Arguments doble {E} _.
Arguments linea {E} _.
Arguments pasos {E} _.
Arguments info {E} _.
End Green.

(** [{'divergencia': ..., 'volumen': ..., 'pasos': ..., 'info': ...}] *)
Module Divergencia.
Record t (E : Type) := {
  divergencia : E;
  volumen : E;
  pasos : list string;
  info : list string
}.
Arguments divergencia {E} _.
Arguments volumen {E} _.
Arguments pasos {E} _.
Arguments info {E} _.
End Divergencia.

(** [{'superficie': ..., 'linea': ..., 'pasos': ..., 'info': ...}] *)
Module Stokes.
Record t (E : Type) := {
  superficie : E;
  linea : E;
  pasos : list string;
  info : list string
}.
Arguments superficie {E} _.
Arguments linea {E} _.
Arguments pasos {E} _.
Arguments info {E} _.
End Stokes.

(** [sp.Matrix([m0, m1, m2])], the column the curl is kept in. *)
Record Matrix3 (E : Type) := {
  m0 : E;
  m1 : E;
  m2 : E
}.
Arguments m0 {E} _.
Arguments m1 {E} _.
Arguments m2 {E} _.

Section Engine.

Context `{SymPy}.

(** [-a], [a - b] and [a / b] as SymPy's [Expr] class defines them. *)
Definition neg (a : Expr) : Expr := (Integer (-1) * a)%sp.
Definition sub (a b : Expr) : Expr := (a + neg b)%sp.
Definition div (a b : Expr) : Expr := (a * b ** Integer (-1))%sp.

Notation "a - b" := (sub a b) : sympy_scope.
Notation "a / b" := (div a b) : sympy_scope.
Notation "- a" := (neg a) : sympy_scope.

(** [sp.sympify(text)] without a [locals] table. *)
Definition sympify0 (text : string) : outcome Expr := sympify text ∅.

(** ** [resolver_integral_triple] *)

(** What the solver holds when the integration loop starts: the [locals]
    table, the integrand the loop will integrate, and the trace so far. *)
Record integrando_preparado := {
  vars_locales : gmap string (local Expr);
  expr_inicial : Expr;
  pasos_previos : list string
}.

Definition sistema_no_reconocido : exn :=
  Exc "ValueError"
    "Sistema de coordenadas no reconocido. Use 'rectangular', 'cilindrica' o 'esferica'.".

(** The heuristic of the cylindrical branch, on the raw integrand text. *)
Definition jacobiano_incluido_cilindricas (integrando : string) : bool :=
  let integrando_limpio := lower (quitar_espacios integrando) in
  existsb id [
    String.eqb integrando_limpio "r";
    startswith_any integrando_limpio ["r+"; "r-"; "r*"; "r/"; "r**"];
    contiene integrando_limpio "r*z";
    contiene integrando_limpio "r*theta";
    en_lista integrando_limpio ["r+z"; "r-z"; "r+theta"; "r-theta"]
  ].

(** The heuristic of the spherical branch. *)
Definition jacobiano_incluido_esfericas (integrando : string) : bool :=
  let integrando_limpio := lower (quitar_espacios integrando) in
  let jacobiano_completo := existsb id [
    contiene integrando_limpio "rho**2*sin(phi)";
    contiene integrando_limpio "r**2*sin(phi)";
    contiene integrando_limpio "ρ²*sin(φ)";
    String.eqb integrando_limpio "rho**2";
    String.eqb integrando_limpio "r**2"
  ] in
  let jacobiano_parcial := existsb id [
    contiene integrando_limpio "rho**2*" && contiene integrando_limpio "sin(phi)";
    contiene integrando_limpio "r**2*" && contiene integrando_limpio "sin(phi)"
  ] in
  jacobiano_completo || jacobiano_parcial.

(** Lines 60-139: choice of the variables and of the Jacobian, parsing of
    the integrand, detection of a Jacobian already written by the user. *)
Definition preparar_integrando (integrando sistema_coordenadas : string)
  : outcome integrando_preparado :=
  let x := Symbol "x" sin_supuesto in
  let y := Symbol "y" sin_supuesto in
  let z := Symbol "z" sin_supuesto in
  let r := Symbol "r" sin_supuesto in
  let theta := Symbol "theta" sin_supuesto in
  let phi := Symbol "phi" sin_supuesto in
  let pasos : list string := [] in
  if en_lista sistema_coordenadas ["rectangular"; "rectangulares"] then
    let vars_locales : gmap string (local Expr) :=
      {[ "x" := LExpr x; "y" := LExpr y; "z" := LExpr z ]} in
    let pasos := append pasos "=== INTEGRAL TRIPLE - RECTANGULARES (X,Y,Z) ===" in
    let pasos := append pasos "Fórmula: ∭ f(x,y,z) dx dy dz" in
    expr ← sympify integrando vars_locales;
    let pasos := append pasos (nl ++ "Integrando inicial: " ++ integrando) in
    mret {| vars_locales := vars_locales; expr_inicial := expr;
            pasos_previos := pasos |}
  else if en_lista sistema_coordenadas ["cilindrica"; "cilindricas"] then
    let vars_locales : gmap string (local Expr) :=
      {[ "r" := LExpr r; "theta" := LExpr theta; "z" := LExpr z;
         "pi" := LExpr pi ]} in
    let pasos := append pasos "=== INTEGRAL TRIPLE - CILÍNDRICAS (R,Θ,Z) ===" in
    let pasos := append pasos "Fórmula: ∭ f(r,θ,z)·r dr dθ dz" in
    expr ← sympify integrando vars_locales;
    let pasos := append pasos (nl ++ "Integrando inicial: " ++ integrando) in
    let pasos :=
      if jacobiano_incluido_cilindricas integrando then
        let pasos := append pasos
          "NOTA: El integrando contiene 'r' (jacobiano incluido por el usuario)" in
        append pasos ("Integrando final: " ++ str expr)
      else pasos in
    mret {| vars_locales := vars_locales; expr_inicial := expr;
            pasos_previos := pasos |}
  else if en_lista sistema_coordenadas ["esferica"; "esfericas"] then
    let rho := Symbol "rho" sin_supuesto in
    let vars_locales : gmap string (local Expr) :=
      {[ "rho" := LExpr rho; "theta" := LExpr theta; "phi" := LExpr phi;
         "pi" := LExpr pi ]} in
    let jacobiano := (rho ** Integer 2 * fn f_sin phi)%sp in
    let pasos := append pasos "=== INTEGRAL TRIPLE - ESFÉRICAS (Ρ,Θ,Φ) ===" in
    let pasos := append pasos "Fórmula: ∭ f(ρ,θ,φ)·ρ²·sin(φ) dρ dθ dφ" in
    expr ← sympify integrando vars_locales;
    let pasos := append pasos (nl ++ "Integrando inicial: " ++ integrando) in
    if jacobiano_incluido_esfericas integrando then
      let pasos := append pasos
        "NOTA: El integrando contiene términos del jacobiano esférico" in
      let pasos := append pasos ("Integrando final: " ++ str expr) in
      mret {| vars_locales := vars_locales; expr_inicial := expr;
              pasos_previos := pasos |}
    else
      let pasos := append pasos
        ("Multiplicando por el Jacobiano (" ++ str jacobiano
         ++ "): integrando = " ++ str (simplify (expr * jacobiano)%sp)) in
      let expr := (expr * jacobiano)%sp in
      mret {| vars_locales := vars_locales; expr_inicial := expr;
              pasos_previos := pasos |}
  else
    Raise sistema_no_reconocido.

(** Lines 144-157: the loop [for i, var in enumerate(variables, start=1)]. *)
Fixpoint integrar_paso_a_paso (tabla : gmap string (local Expr))
    (limites : gmap string (string * string)) (i : Z)
    (variables : list string) (expr_actual : Expr) (pasos : list string)
  : outcome (Expr * list string) :=
  match variables with
  | [] => mret (expr_actual, pasos)
  | var :: resto =>
      '(a, b) ← getitem limites var;
      let var_sym := Symbol var sin_supuesto in
      let pasos := append pasos
        (nl ++ "Paso " ++ str_int i ++ ": Integrar respecto de " ++ var) in
      let pasos := append pasos
        ("∫ de " ++ a ++ " a " ++ b ++ " de [" ++ str (simplify expr_actual)
         ++ "] d" ++ var) in
      lim_a ← sympify a tabla;
      lim_b ← sympify b tabla;
      expr_actual ← integrate expr_actual [(var_sym, lim_a, lim_b)];
      let expr_actual := simplify expr_actual in
      let pasos := append pasos ("Resultado parcial = " ++ str expr_actual) in
      integrar_paso_a_paso tabla limites (i + 1) resto expr_actual pasos
  end.

(** Lines 163-168: the numeric value, or the note that there is none. *)
Definition paso_valor_numerico (resultado_final : Expr) : string :=
  match N_float resultado_final with
  | Some valor_num => "Valor numérico aproximado = " ++ str_float valor_num
  | None => "No se pudo calcular el valor numérico (resultado simbólico no evaluable)."
  end.

Definition resolver_integral_triple (integrando : string)
    (variables : list string) (limites : gmap string (string * string))
    (sistema_coordenadas : string) : outcome (Triple.t Expr) :=
  p ← preparar_integrando integrando sistema_coordenadas;
  '(resultado_final, pasos) ←
    integrar_paso_a_paso (vars_locales p) limites 1 variables
      (expr_inicial p) (pasos_previos p);
  let pasos := append pasos (nl ++ "RESULTADO FINAL = " ++ str resultado_final) in
  let pasos := append pasos (paso_valor_numerico resultado_final) in
  mret {| Triple.resultado := resultado_final; Triple.pasos := pasos |}.

(** ** Explanations appended to the trace of [aplicar_green] *)

Definition _explicacion_disco (R : string)
    (valor_doble valor_linea rotacional : Expr) : list string :=
  let explicacion : list string := [] in
  let explicacion := append explicacion "🎯 EXPLICACIÓN PARA REGIÓN CIRCULAR (DISCO):" in
  let explicacion := append explicacion "" in
  let explicacion := append explicacion "1. 📍 VISUALIZA EL ESCENARIO:" in
  let explicacion := append explicacion ("   • Imagina un disco de radio R = " ++ R) in
  let explicacion := append explicacion "   • Las flechas azules representan un campo de fuerzas" in
  let explicacion := append explicacion "   • Como un remolino en un estanque circular" in
  let explicacion := append explicacion "" in
  let explicacion := append explicacion "2. 🔄 INTERPRETACIÓN FÍSICA:" in
  let explicacion := append explicacion ("   • Rotacional: " ++ str rotacional ++ " (rotación local en cada punto)") in
  let explicacion := append explicacion "   • La integral doble suma toda la rotación interna" in
  let explicacion := append explicacion "   • La integral de línea mide la circulación en el borde" in
  let explicacion := append explicacion "" in
  let explicacion := append explicacion "3. 📊 RESULTADO:" in
  let explicacion := append explicacion ("   • Rotación interna total: " ++ str valor_doble) in
  let explicacion := append explicacion ("   • Circulación en el borde: " ++ str valor_linea) in
  let explicacion :=
    if expr_eqb valor_doble valor_linea then
      append explicacion "   • ✅ CONFIRMACIÓN: El flujo interno = Circulación externa"
    else explicacion in
  let explicacion := append explicacion "" in
  let explicacion := append explicacion "💡 CONCLUSIÓN: En un disco, toda la rotación interna se manifiesta" in
  let explicacion := append explicacion "exactamente como circulación alrededor de su circunferencia." in
  explicacion.

Definition _explicacion_entre_curvas (f1 f2 x_min x_max : string)
    (valor_doble valor_linea rotacional : Expr) : list string :=
  let explicacion : list string := [] in
  let explicacion := append explicacion "🎯 EXPLICACIÓN PARA REGIÓN ENTRE CURVAS:" in
  let explicacion := append explicacion "" in
  let explicacion := append explicacion "1. 📍 VISUALIZA EL ESCENARIO:" in
  let explicacion := append explicacion ("   • Región entre y = " ++ f1 ++ " (inferior) y y = " ++ f2 ++ " (superior)") in
  let explicacion := append explicacion ("   • Desde x = " ++ x_min ++ " hasta x = " ++ x_max) in
  let explicacion := append explicacion "   • Las flechas azules muestran el patrón de flujo del campo" in
  let explicacion := append explicacion "   • Como un río entre dos márgenes curvados" in
  let explicacion := append explicacion "" in
  let explicacion := append explicacion "2. 🔄 INTERPRETACIÓN FÍSICA:" in
  let explicacion := append explicacion ("   • Rotacional: " ++ str rotacional ++ " (mide vórtices locales)") in
  let explicacion := append explicacion "   • Integral doble: Suma todos los mini-remolinos internos" in
  let explicacion := append explicacion "   • Integral de línea: Mide flujo neto por los 4 bordes" in
  let explicacion := append explicacion "" in
  let explicacion := append explicacion "3. 📊 ANÁLISIS DE LOS SEGMENTOS:" in
  let explicacion := append explicacion ("   • Curva inferior: Contribuye según el flujo en y = " ++ f1) in
  let explicacion := append explicacion ("   • Curva superior: Contribuye (en sentido inverso) en y = " ++ f2) in
  let explicacion := append explicacion "   • Lados verticales: Completan el camino cerrado" in
  let explicacion := append explicacion "" in
  let explicacion := append explicacion "4. 📈 RESULTADO:" in
  let explicacion := append explicacion ("   • Rotación interna total: " ++ str valor_doble) in
  let explicacion := append explicacion ("   • Circulación neta en el borde: " ++ str valor_linea) in
  let explicacion :=
    if expr_eqb valor_doble valor_linea then
      append explicacion "   • ✅ EL TEOREMA SE VERIFICA: La naturaleza cumple las matemáticas!"
    else explicacion in
  let explicacion := append explicacion "" in
  let explicacion := append explicacion "💡 CONCLUSIÓN: En regiones entre curvas, el balance entre" in
  let explicacion := append explicacion "el flujo superior e inferior determina la circulación total." in
  explicacion.

Definition _explicacion_corona (R_int R_ext : string)
    (valor_doble valor_linea rotacional : Expr) : list string :=
  let explicacion : list string := [] in
  let explicacion := append explicacion "🎯 EXPLICACIÓN PARA CORONA CIRCULAR:" in
  let explicacion := append explicacion "" in
  let explicacion := append explicacion "1. 📍 VISUALIZA EL ESCENARIO:" in
  let explicacion := append explicacion ("   • Anillo entre radio R_int = " ++ R_int ++ " y R_ext = " ++ R_ext) in
  let explicacion := append explicacion "   • Como un anillo de humo o un donut de flujo" in
  let explicacion := append explicacion "   • Campo vectorial fluye entre dos circunferencias" in
  let explicacion := append explicacion "" in
  let explicacion := append explicacion "2. 🔄 INTERPRETACIÓN FÍSICA:" in
  let explicacion := append explicacion ("   • Rotacional: " ++ str rotacional ++ " en cada punto del anillo") in
  let explicacion := append explicacion "   • Integral doble: Suma la rotación en toda el área anular" in
  let explicacion := append explicacion "   • Integral de línea: Circulación exterior MENOS interior" in
  let explicacion := append explicacion "" in
  let explicacion := append explicacion "3. 📊 RESULTADO:" in
  let explicacion := append explicacion ("   • Rotación en el anillo: " ++ str valor_doble) in
  let explicacion := append explicacion ("   • Circulación neta: " ++ str valor_linea) in
  let explicacion :=
    if expr_eqb valor_doble valor_linea then
      append explicacion "   • ✅ CONFIRMACIÓN: Lo que gira dentro = Diferencia de bordes"
    else explicacion in
  let explicacion := append explicacion "" in
  let explicacion := append explicacion "💡 CONCLUSIÓN: En una corona, la rotación interna equivale" in
  let explicacion := append explicacion "a la diferencia entre la circulación exterior e interior." in
  explicacion.

Definition _explicacion_rectangulo (a b : string)
    (valor_doble valor_linea rotacional : Expr) : list string :=
  let explicacion : list string := [] in
  let explicacion := append explicacion "🎯 EXPLICACIÓN PARA REGIÓN RECTANGULAR:" in
  let explicacion := append explicacion "" in
  let explicacion := append explicacion "1. 📍 VISUALIZA EL ESCENARIO:" in
  let explicacion := append explicacion ("   • Rectángulo de " ++ a ++ " × " ++ b ++ " unidades") in
  let explicacion := append explicacion "   • Campo vectorial fluye a través de los 4 lados" in
  let explicacion := append explicacion "   • Como agua fluyendo a través de un canal rectangular" in
  let explicacion := append explicacion "" in
  let explicacion := append explicacion "2. 🔄 INTERPRETACIÓN FÍSICA:" in
  let explicacion := append explicacion ("   • Rotacional: " ++ str rotacional ++ " (vorticidad local)") in
  let explicacion := append explicacion "   • Integral doble: Suma toda la rotación dentro del rectángulo" in
  let explicacion := append explicacion "   • Integral de línea: Flujo por cada lado (4 segmentos)" in
  let explicacion := append explicacion "" in
  let explicacion := append explicacion "3. 📊 RESULTADO:" in
  let explicacion := append explicacion ("   • Rotación interna total: " ++ str valor_doble) in
  let explicacion := append explicacion ("   • Circulación en el perímetro: " ++ str valor_linea) in
  let explicacion :=
    if expr_eqb valor_doble valor_linea then
      append explicacion "   • ✅ CONFIRMACIÓN: Rotación interna = Circulación externa"
    else explicacion in
  let explicacion := append explicacion "" in
  let explicacion := append explicacion "💡 CONCLUSIÓN: En rectángulos, la suma de flujos por los 4 lados" in
  let explicacion := append explicacion "siempre iguala la rotación total en el interior." in
  explicacion.

Definition _explicacion_elipse (a b : string)
    (valor_doble valor_linea rotacional : Expr) : list string :=
  let explicacion : list string := [] in
  let explicacion := append explicacion "🎯 EXPLICACIÓN PARA REGIÓN ELÍPTICA:" in
  let explicacion := append explicacion "" in
  let explicacion := append explicacion "1. 📍 VISUALIZA EL ESCENARIO:" in
  let explicacion := append explicacion ("   • Elipse con semiejes a = " ++ a ++ ", b = " ++ b) in
  let explicacion := append explicacion "   • Campo vectorial fluyendo en patrón elíptico" in
  let explicacion := append explicacion "   • Como un óvalo de carreras con flujo circulante" in
  let explicacion := append explicacion "" in
  let explicacion := append explicacion "2. 🔄 INTERPRETACIÓN FÍSICA:" in
  let explicacion := append explicacion ("   • Rotacional: " ++ str rotacional ++ " en cada punto") in
  let explicacion := append explicacion "   • Integral doble: Usa coordenadas elípticas para sumar rotación" in
  let explicacion := append explicacion "   • Integral de línea: Circulación a lo largo de la elipse" in
  let explicacion := append explicacion "" in
  let explicacion := append explicacion "3. 📊 RESULTADO:" in
  let explicacion := append explicacion ("   • Rotación interna total: " ++ str valor_doble) in
  let explicacion := append explicacion ("   • Circulación en el borde: " ++ str valor_linea) in
  let explicacion :=
    if expr_eqb valor_doble valor_linea then
      append explicacion "   • ✅ CONFIRMACIÓN: La geometría elíptica preserva el teorema"
    else explicacion in
  let explicacion := append explicacion "" in
  let explicacion := append explicacion "💡 CONCLUSIÓN: Las elipses demuestran que el Teorema de Green" in
  let explicacion := append explicacion "funciona para cualquier forma, no solo figuras regulares." in
  explicacion.

Definition _explicacion_triangulo (base altura : string)
    (valor_doble valor_linea rotacional : Expr) : list string :=
  let explicacion : list string := [] in
  let explicacion := append explicacion "🎯 EXPLICACIÓN PARA REGIÓN TRIANGULAR:" in
  let explicacion := append explicacion "" in
  let explicacion := append explicacion "1. 📍 VISUALIZA EL ESCENARIO:" in
  let explicacion := append explicacion ("   • Triángulo con base = " ++ base ++ ", altura = " ++ altura) in
  let explicacion := append explicacion "   • Campo fluyendo a través de 3 lados rectos" in
  let explicacion := append explicacion "   • Como una cometa triangular en el viento" in
  let explicacion := append explicacion "" in
  let explicacion := append explicacion "2. 🔄 INTERPRETACIÓN FÍSICA:" in
  let explicacion := append explicacion ("   • Rotacional: " ++ str rotacional ++ " (patrón de giro local)") in
  let explicacion := append explicacion "   • Integral doble: Suma rotación en área triangular" in
  let explicacion := append explicacion "   • Integral de línea: Flujo por base + lados inclinados" in
  let explicacion := append explicacion "" in
  let explicacion := append explicacion "3. 📊 RESULTADO:" in
  let explicacion := append explicacion ("   • Rotación interna: " ++ str valor_doble) in
  let explicacion := append explicacion ("   • Circulación externa: " ++ str valor_linea) in
  let explicacion :=
    if expr_eqb valor_doble valor_linea then
      append explicacion "   • ✅ CONFIRMACIÓN: Triángulos también obedecen el teorema"
    else explicacion in
  let explicacion := append explicacion "" in
  let explicacion := append explicacion "💡 CONCLUSIÓN: En triángulos, la simplicidad geométrica no" in
  let explicacion := append explicacion "afecta la profunda verdad del Teorema de Green." in
  explicacion.

Definition _explicacion_semicirculo (R tipo : string)
    (valor_doble valor_linea rotacional : Expr) : list string :=
  let explicacion : list string := [] in
  let explicacion := append explicacion "🎯 EXPLICACIÓN PARA SEMICÍRCULO:" in
  let explicacion := append explicacion "" in
  let explicacion := append explicacion "1. 📍 VISUALIZA EL ESCENARIO:" in
  let explicacion := append explicacion ("   • Semicírculo de radio R = " ++ R ++ " (" ++ tipo ++ ")") in
  let explicacion := append explicacion "   • Campo fluye a través del arco y el diámetro" in
  let explicacion := append explicacion "   • Como media rueda giratoria o media luna de flujo" in
  let explicacion := append explicacion "" in
  let explicacion := append explicacion "2. 🔄 INTERPRETACIÓN FÍSICA:" in
  let explicacion := append explicacion ("   • Rotacional: " ++ str rotacional ++ " en medio disco") in
  let explicacion := append explicacion "   • Integral doble: Rotación en media área circular" in
  let explicacion := append explicacion "   • Integral de línea: Flujo por arco + diámetro" in
  let explicacion := append explicacion "" in
  let explicacion := append explicacion "3. 📊 RESULTADO:" in
  let explicacion := append explicacion ("   • Rotación en medio disco: " ++ str valor_doble) in
  let explicacion := append explicacion ("   • Circulación en media frontera: " ++ str valor_linea) in
  let explicacion :=
    if expr_eqb valor_doble valor_linea then
      append explicacion "   • ✅ CONFIRMACIÓN: Mitad de forma, misma verdad matemática"
    else explicacion in
  let explicacion := append explicacion "" in
  let explicacion := append explicacion "💡 CONCLUSIÓN: Los semicírculos muestran que el teorema" in
  let explicacion := append explicacion "funciona incluso para regiones no simplemente conexas." in
  explicacion.

Definition _explicacion_sector_polar (R theta_min theta_max : string)
    (valor_doble valor_linea rotacional : Expr) : list string :=
  let explicacion : list string := [] in
  let explicacion := append explicacion "🎯 EXPLICACIÓN PARA SECTOR POLAR:" in
  let explicacion := append explicacion "" in
  let explicacion := append explicacion "1. 📍 VISUALIZA EL ESCENARIO:" in
  let explicacion := append explicacion ("   • Sector circular R = " ++ R ++ ", θ ∈ [" ++ theta_min ++ ", " ++ theta_max ++ "]") in
  let explicacion := append explicacion "   • Como una rebanada de pizza de flujo vectorial" in
  let explicacion := append explicacion "   • Campo confinado entre dos radios y un arco" in
  let explicacion := append explicacion "" in
  let explicacion := append explicacion "2. 🔄 INTERPRETACIÓN FÍSICA:" in
  let explicacion := append explicacion ("   • Rotacional: " ++ str rotacional ++ " en la rebanada") in
  let explicacion := append explicacion "   • Integral doble: Natural en coordenadas polares" in
  let explicacion := append explicacion "   • Integral de línea: 2 radios + 1 arco circular" in
  let explicacion := append explicacion "" in
  let explicacion := append explicacion "3. 📊 RESULTADO:" in
  let explicacion := append explicacion ("   • Rotación en el sector: " ++ str valor_doble) in
  let explicacion := append explicacion ("   • Circulación en los bordes: " ++ str valor_linea) in
  let explicacion :=
    if expr_eqb valor_doble valor_linea then
      append explicacion "   • ✅ CONFIRMACIÓN: Coordenadas polares verifican el teorema"
    else explicacion in
  let explicacion := append explicacion "" in
  let explicacion := append explicacion "💡 CONCLUSIÓN: Los sectores polares demuestran la versatilidad" in
  let explicacion := append explicacion "del teorema en diferentes sistemas coordenados." in
  explicacion.

Definition _explicacion_poligono (lados radio : string)
    (valor_doble valor_linea rotacional : Expr) : list string :=
  let explicacion : list string := [] in
  let explicacion := append explicacion "🎯 EXPLICACIÓN PARA POLÍGONO REGULAR:" in
  let explicacion := append explicacion "" in
  let explicacion := append explicacion "1. 📍 VISUALIZA EL ESCENARIO:" in
  let explicacion := append explicacion ("   • Polígono de " ++ lados ++ " lados, radio = " ++ radio) in
  let explicacion := append explicacion "   • Campo fluye a través de múltiples lados rectos" in
  let explicacion := append explicacion "   • Como una rueda dentada en un flujo vectorial" in
  let explicacion := append explicacion "" in
  let explicacion := append explicacion "2. 🔄 INTERPRETACIÓN FÍSICA:" in
  let explicacion := append explicacion ("   • Rotacional: " ++ str rotacional ++ " (aproximado)") in
  let explicacion := append explicacion "   • Integral doble: Área poligonal × rotacional promedio" in
  let explicacion := append explicacion "   • Integral de línea: Suma compleja por muchos lados" in
  let explicacion := append explicacion "" in
  let explicacion := append explicacion "3. 📊 RESULTADO:" in
  let explicacion := append explicacion ("   • Rotación interna aproximada: " ++ str valor_doble) in
  let explicacion := append explicacion ("   • Circulación externa: " ++ str valor_linea) in
  let explicacion :=
    if expr_eqb valor_doble valor_linea then
      append explicacion "   • ✅ CONFIRMACIÓN: Polígonos aproximan círculos"
    else explicacion in
  let explicacion := append explicacion "" in
  let explicacion := append explicacion "💡 CONCLUSIÓN: Los polígonos muestran cómo formas complejas" in
  let explicacion := append explicacion "también obedecen los principios fundamentales del teorema." in
  explicacion.

(** ** [aplicar_green] *)

(** Lines 900-913 *)
Definition _verificar_green (doble linea : Expr) (pasos info : list string)
  : Green.t Expr :=
  let pasos := append pasos "" in
  let pasos := append pasos "VERIFICACIÓN DEL TEOREMA DE GREEN:" in
  let pasos := append pasos ("Integral doble: " ++ sp_pretty doble) in
  let pasos := append pasos ("Integral de línea: " ++ sp_pretty linea) in
  let pasos :=
    if expr_eqb (simplify (doble - linea)%sp) (Integer 0) then
      append pasos "✅ El teorema se verifica: ∮_C F·dr = ∬_D (∇×F) dA"
    else
      let diferencia := simplify (doble - linea)%sp in
      append pasos ("❌ Diferencia: " ++ sp_pretty diferencia) in
  {| Green.doble := doble; Green.linea := linea; Green.pasos := pasos;
     Green.info := info |}.

(** Lines 451-498: [region == 'disco']. *)
Definition green_disco (x y P Q rotacional_z : Expr)
    (parametros_region : option (gmap string string)) (pasos info : list string)
  : outcome (respuesta (Green.t Expr)) :=
  R_txt ← get parametros_region "R" "1";
  R ← sympify0 R_txt;
  centro_x_txt ← get parametros_region "centro_x" "0";
  centro_x ← sympify0 centro_x_txt;
  centro_y_txt ← get parametros_region "centro_y" "0";
  centro_y ← sympify0 centro_y_txt;
  let pasos := append pasos ("Región: disco de radio R = " ++ str R ++ ", centro (" ++ str centro_x ++ ", " ++ str centro_y ++ ")") in
  let pasos := append pasos "" in
  let pasos := append pasos "CÁLCULO DE LA INTEGRAL DOBLE:" in
  let pasos := append pasos ("∬_D (∇×F) dA = ∬_D " ++ sp_pretty rotacional_z ++ " dA") in
  '(resultado_doble, pasos) ←
    (if is_constant rotacional_z then
      let area_disco := (pi * R ** Integer 2)%sp in
      let resultado_doble := (rotacional_z * area_disco)%sp in
      let pasos := append pasos ("Como ∇×F = " ++ sp_pretty rotacional_z ++ " es constante:") in
      let pasos := append pasos ("∬_D " ++ sp_pretty rotacional_z ++ " dA = " ++ sp_pretty rotacional_z ++ " × Área del disco") in
      let pasos := append pasos ("Área del disco = πR² = π(" ++ str R ++ ")² = " ++ sp_pretty area_disco) in
      let pasos := append pasos ("Resultado = " ++ sp_pretty rotacional_z ++ " × " ++ sp_pretty area_disco ++ " = " ++ sp_pretty resultado_doble) in
      mret (resultado_doble, pasos)
    else
      let r := Symbol "r" positive in
      let theta := Symbol "theta" positive in
      let sustituciones := [(x, (centro_x + r * fn f_cos theta)%sp); (y, (centro_y + r * fn f_sin theta)%sp)] in
      let integrando := simplify (subs rotacional_z sustituciones * r)%sp in
      let pasos := append pasos ("Integrando en coordenadas polares: " ++ sp_pretty (subs rotacional_z sustituciones) ++ " × r = " ++ sp_pretty integrando) in
      resultado_doble ← integrate integrando [(r, Integer 0, R); (theta, Integer 0, (Integer 2 * pi)%sp)];
      let pasos := append pasos ("Integral doble sobre la región D = " ++ sp_pretty resultado_doble) in
      mret (resultado_doble, pasos));
  let pasos := append pasos "" in
  let pasos := append pasos "CÁLCULO DE LA INTEGRAL DE LÍNEA:" in
  let t := Symbol "t" real in
  let x_c := (centro_x + R * fn f_cos t)%sp in
  let y_c := (centro_y + R * fn f_sin t)%sp in
  let dx_dt := diff x_c t in
  let dy_dt := diff y_c t in
  let P_param := subs P [(x, x_c); (y, y_c)] in
  let Q_param := subs Q [(x, x_c); (y, y_c)] in
  let integrando_linea := (P_param * dx_dt + Q_param * dy_dt)%sp in
  int_resultado_linea ← integrate integrando_linea [(t, Integer 0, (Integer 2 * pi)%sp)];
  let resultado_linea := simplify int_resultado_linea in
  let pasos := append pasos ("Integral de línea = " ++ sp_pretty resultado_linea) in
  let pasos := append pasos (nl ++ repetir "=" 60) in
  let pasos := append pasos "📊 INTERPRETACIÓN GRÁFICA Y CONCLUSIONES" in
  let pasos := append pasos (repetir "=" 60) in
  R_val ← get parametros_region "R" "1";
  let pasos := extend pasos (_explicacion_disco R_val resultado_doble resultado_linea rotacional_z) in
  mret (datos (_verificar_green resultado_doble resultado_linea pasos info)).

(** Lines 501-543: [region == 'corona']. *)
Definition green_corona (x y P Q rotacional_z : Expr)
    (parametros_region : option (gmap string string)) (pasos info : list string)
  : outcome (respuesta (Green.t Expr)) :=
  R_int_txt ← get parametros_region "R_int" "1";
  R_int ← sympify0 R_int_txt;
  R_ext_txt ← get parametros_region "R_ext" "2";
  R_ext ← sympify0 R_ext_txt;
  centro_x_txt ← get parametros_region "centro_x" "0";
  centro_x ← sympify0 centro_x_txt;
  centro_y_txt ← get parametros_region "centro_y" "0";
  centro_y ← sympify0 centro_y_txt;
  let pasos := append pasos ("Región: corona circular R_int=" ++ str R_int ++ ", R_ext=" ++ str R_ext ++ ", centro (" ++ str centro_x ++ ", " ++ str centro_y ++ ")") in
  let r := Symbol "r" positive in
  let theta := Symbol "theta" positive in
  let sustituciones := [(x, (centro_x + r * fn f_cos theta)%sp); (y, (centro_y + r * fn f_sin theta)%sp)] in
  let integrando := (subs rotacional_z sustituciones * r)%sp in
  resultado_doble ← integrate integrando [(r, R_int, R_ext); (theta, Integer 0, (Integer 2 * pi)%sp)];
  let pasos := append pasos ("Integral doble = " ++ sp_pretty resultado_doble) in
  let t := Symbol "t" real in
  let x_ext := (centro_x + R_ext * fn f_cos t)%sp in
  let y_ext := (centro_y + R_ext * fn f_sin t)%sp in
  let dx_ext := diff x_ext t in
  let dy_ext := diff y_ext t in
  linea_ext ← integrate (subs P [(x, x_ext); (y, y_ext)] * dx_ext + subs Q [(x, x_ext); (y, y_ext)] * dy_ext)%sp [(t, Integer 0, (Integer 2 * pi)%sp)];
  let x_int := (centro_x + R_int * fn f_cos t)%sp in
  let y_int := (centro_y + R_int * fn f_sin t)%sp in
  let dx_int := diff x_int t in
  let dy_int := diff y_int t in
  linea_int ← integrate (subs P [(x, x_int); (y, y_int)] * dx_int + subs Q [(x, x_int); (y, y_int)] * dy_int)%sp [(t, (Integer 2 * pi)%sp, Integer 0)];
  let resultado_linea := simplify (linea_ext + linea_int)%sp in
  let pasos := append pasos ("Integral de línea = " ++ sp_pretty resultado_linea) in
  let pasos := append pasos (nl ++ repetir "=" 60) in
  let pasos := append pasos "📊 INTERPRETACIÓN GRÁFICA Y CONCLUSIONES" in
  let pasos := append pasos (repetir "=" 60) in
  R_int_val ← get parametros_region "R_int" "1";
  R_ext_val ← get parametros_region "R_ext" "2";
  let pasos := extend pasos (_explicacion_corona R_int_val R_ext_val resultado_doble resultado_linea rotacional_z) in
  mret (datos (_verificar_green resultado_doble resultado_linea pasos info)).

(** Lines 546-580: [region == 'rectangulo']. *)
Definition green_rectangulo (x y P Q rotacional_z : Expr)
    (parametros_region : option (gmap string string)) (pasos info : list string)
  : outcome (respuesta (Green.t Expr)) :=
  a_txt ← get parametros_region "a" "1";
  a ← sympify0 a_txt;
  b_txt ← get parametros_region "b" "1";
  b ← sympify0 b_txt;
  x0_txt ← get parametros_region "x0" "0";
  x0 ← sympify0 x0_txt;
  y0_txt ← get parametros_region "y0" "0";
  y0 ← sympify0 y0_txt;
  let pasos := append pasos ("Región: rectángulo " ++ str a ++ "×" ++ str b ++ ", esquina inferior (" ++ str x0 ++ ", " ++ str y0 ++ ")") in
  resultado_doble ← integrate rotacional_z [(x, x0, (x0 + a)%sp); (y, y0, (y0 + b)%sp)];
  let pasos := append pasos ("Integral doble = " ++ sp_pretty resultado_doble) in
  let t := Symbol "t" real in
  int1 ← integrate (subs P [(x, t); (y, y0)]) [(t, x0, (x0 + a)%sp)];
  int2 ← integrate (subs Q [(x, (x0 + a)%sp); (y, t)]) [(t, y0, (y0 + b)%sp)];
  int3 ← integrate (subs P [(x, t); (y, (y0 + b)%sp)]) [(t, (x0 + a)%sp, x0)];
  int4 ← integrate (subs Q [(x, x0); (y, t)]) [(t, (y0 + b)%sp, y0)];
  let resultado_linea := simplify (int1 + int2 + int3 + int4)%sp in
  let pasos := append pasos ("Integral de línea = " ++ sp_pretty resultado_linea) in
  let pasos := append pasos (nl ++ repetir "=" 60) in
  let pasos := append pasos "📊 INTERPRETACIÓN GRÁFICA Y CONCLUSIONES" in
  let pasos := append pasos (repetir "=" 60) in
  a_val ← get parametros_region "a" "1";
  b_val ← get parametros_region "b" "1";
  let pasos := extend pasos (_explicacion_rectangulo a_val b_val resultado_doble resultado_linea rotacional_z) in
  mret (datos (_verificar_green resultado_doble resultado_linea pasos info)).

(** Lines 583-616: [region == 'elipse']. *)
Definition green_elipse (x y P Q rotacional_z : Expr)
    (parametros_region : option (gmap string string)) (pasos info : list string)
  : outcome (respuesta (Green.t Expr)) :=
  a_txt ← get parametros_region "a" "2";
  a ← sympify0 a_txt;
  b_txt ← get parametros_region "b" "1";
  b ← sympify0 b_txt;
  centro_x_txt ← get parametros_region "centro_x" "0";
  centro_x ← sympify0 centro_x_txt;
  centro_y_txt ← get parametros_region "centro_y" "0";
  centro_y ← sympify0 centro_y_txt;
  let pasos := append pasos ("Región: elipse (x-" ++ str centro_x ++ ")²/" ++ str a ++ "² + (y-" ++ str centro_y ++ ")²/" ++ str b ++ "² = 1") in
  let r := Symbol "r" positive in
  let theta := Symbol "theta" positive in
  let sustituciones := [(x, (centro_x + a * r * fn f_cos theta)%sp); (y, (centro_y + b * r * fn f_sin theta)%sp)] in
  let jacobiano := (a * b * r)%sp in
  let integrando := (subs rotacional_z sustituciones * jacobiano)%sp in
  resultado_doble ← integrate integrando [(r, Integer 0, Integer 1); (theta, Integer 0, (Integer 2 * pi)%sp)];
  let pasos := append pasos ("Integral doble = " ++ sp_pretty resultado_doble) in
  let t := Symbol "t" real in
  let x_elipse := (centro_x + a * fn f_cos t)%sp in
  let y_elipse := (centro_y + b * fn f_sin t)%sp in
  let dx_dt := diff x_elipse t in
  let dy_dt := diff y_elipse t in
  let integrando_linea := (subs P [(x, x_elipse); (y, y_elipse)] * dx_dt + subs Q [(x, x_elipse); (y, y_elipse)] * dy_dt)%sp in
  int_resultado_linea ← integrate integrando_linea [(t, Integer 0, (Integer 2 * pi)%sp)];
  let resultado_linea := simplify int_resultado_linea in
  let pasos := append pasos ("Integral de línea = " ++ sp_pretty resultado_linea) in
  let pasos := append pasos (nl ++ repetir "=" 60) in
  let pasos := append pasos "📊 INTERPRETACIÓN GRÁFICA Y CONCLUSIONES" in
  let pasos := append pasos (repetir "=" 60) in
  a_val ← get parametros_region "a" "2";
  b_val ← get parametros_region "b" "1";
  let pasos := extend pasos (_explicacion_elipse a_val b_val resultado_doble resultado_linea rotacional_z) in
  mret (datos (_verificar_green resultado_doble resultado_linea pasos info)).

(** Lines 619-654: [region == 'triangulo']. *)
Definition green_triangulo (x y P Q rotacional_z : Expr)
    (parametros_region : option (gmap string string)) (pasos info : list string)
  : outcome (respuesta (Green.t Expr)) :=
  base_txt ← get parametros_region "base" "2";
  base ← sympify0 base_txt;
  altura_txt ← get parametros_region "altura" "3";
  altura ← sympify0 altura_txt;
  x0_txt ← get parametros_region "x0" "0";
  x0 ← sympify0 x0_txt;
  y0_txt ← get parametros_region "y0" "0";
  y0 ← sympify0 y0_txt;
  let pasos := append pasos ("Región: triángulo base=" ++ str base ++ ", altura=" ++ str altura ++ ", vértice (" ++ str x0 ++ ", " ++ str y0 ++ ")") in
  resultado_doble ← integrate rotacional_z [(x, x0, (x0 + base)%sp); (y, y0, (y0 + altura * (Integer 1 - (x - x0) / base))%sp)];
  let pasos := append pasos ("Integral doble = " ++ sp_pretty resultado_doble) in
  let t := Symbol "t" real in
  int1 ← integrate (subs P [(x, t); (y, y0)]) [(t, x0, (x0 + base)%sp)];
  let x_hip := (x0 + base * (Integer 1 - t))%sp in
  let y_hip := (y0 + altura * t)%sp in
  let dx_hip := diff x_hip t in
  let dy_hip := diff y_hip t in
  int2 ← integrate (subs P [(x, x_hip); (y, y_hip)] * dx_hip + subs Q [(x, x_hip); (y, y_hip)] * dy_hip)%sp [(t, Integer 0, Integer 1)];
  int3 ← integrate (subs Q [(x, x0); (y, t)]) [(t, (y0 + altura)%sp, y0)];
  let resultado_linea := simplify (int1 + int2 + int3)%sp in
  let pasos := append pasos ("Integral de línea = " ++ sp_pretty resultado_linea) in
  let pasos := append pasos (nl ++ repetir "=" 60) in
  let pasos := append pasos "📊 INTERPRETACIÓN GRÁFICA Y CONCLUSIONES" in
  let pasos := append pasos (repetir "=" 60) in
  base_val ← get parametros_region "base" "2";
  altura_val ← get parametros_region "altura" "3";
  let pasos := extend pasos (_explicacion_triangulo base_val altura_val resultado_doble resultado_linea rotacional_z) in
  mret (datos (_verificar_green resultado_doble resultado_linea pasos info)).

(** Lines 657-709: [region == 'semicirculo']. *)
Definition green_semicirculo (x y P Q rotacional_z : Expr)
    (parametros_region : option (gmap string string)) (pasos info : list string)
  : outcome (respuesta (Green.t Expr)) :=
  R_txt ← get parametros_region "R" "2";
  R ← sympify0 R_txt;
  tipo ← get parametros_region "tipo" "superior";
  centro_x_txt ← get parametros_region "centro_x" "0";
  centro_x ← sympify0 centro_x_txt;
  centro_y_txt ← get parametros_region "centro_y" "0";
  centro_y ← sympify0 centro_y_txt;
  let pasos := append pasos ("Región: semicírculo " ++ tipo ++ ", R=" ++ str R ++ ", centro (" ++ str centro_x ++ ", " ++ str centro_y ++ ")") in
  let r := Symbol "r" positive in
  let theta := Symbol "theta" positive in
  let sustituciones := [(x, (centro_x + r * fn f_cos theta)%sp); (y, (centro_y + r * fn f_sin theta)%sp)] in
  let integrando := (subs rotacional_z sustituciones * r)%sp in
  resultado_doble ←
    (if String.eqb tipo "superior" then
      resultado_doble ← integrate integrando [(r, Integer 0, R); (theta, Integer 0, pi)];
      mret resultado_doble
    else
      resultado_doble ← integrate integrando [(r, Integer 0, R); (theta, pi, (Integer 2 * pi)%sp)];
      mret resultado_doble);
  let pasos := append pasos ("Integral doble = " ++ sp_pretty resultado_doble) in
  let t := Symbol "t" real in
  let '(theta_min, theta_max) :=
    if String.eqb tipo "superior" then
      let theta_min := (Integer 0) in
      let theta_max := pi in
      (theta_min, theta_max)
    else
      let theta_min := pi in
      let theta_max := (Integer 2 * pi)%sp in
      (theta_min, theta_max) in
  let x_arco := (centro_x + R * fn f_cos t)%sp in
  let y_arco := (centro_y + R * fn f_sin t)%sp in
  let dx_arco := diff x_arco t in
  let dy_arco := diff y_arco t in
  linea_arco ← integrate (subs P [(x, x_arco); (y, y_arco)] * dx_arco + subs Q [(x, x_arco); (y, y_arco)] * dy_arco)%sp [(t, theta_min, theta_max)];
  linea_diam ←
    (if String.eqb tipo "superior" then
      let x_diam := t in
      let y_diam := centro_y in
      linea_diam ← integrate (subs P [(x, x_diam); (y, y_diam)]) [(t, (centro_x + R)%sp, (centro_x - R)%sp)];
      mret linea_diam
    else
      let x_diam := t in
      let y_diam := centro_y in
      linea_diam ← integrate (subs P [(x, x_diam); (y, y_diam)]) [(t, (centro_x - R)%sp, (centro_x + R)%sp)];
      mret linea_diam);
  let resultado_linea := simplify (linea_arco + linea_diam)%sp in
  let pasos := append pasos ("Integral de línea = " ++ sp_pretty resultado_linea) in
  let pasos := append pasos (nl ++ repetir "=" 60) in
  let pasos := append pasos "📊 INTERPRETACIÓN GRÁFICA Y CONCLUSIONES" in
  let pasos := append pasos (repetir "=" 60) in
  R_val ← get parametros_region "R" "2";
  tipo_val ← get parametros_region "tipo" "superior";
  let pasos := extend pasos (_explicacion_semicirculo R_val tipo_val resultado_doble resultado_linea rotacional_z) in
  mret (datos (_verificar_green resultado_doble resultado_linea pasos info)).

(** Lines 733-743: the body of the [try] around the double integral. *)
Definition entre_curvas_integral_doble (x y rotacional_z f1 f2 x_min x_max : Expr)
    (f1_str f2_str : string) (pasos : list string)
  : outcome (Expr * list string) :=
  integral_respecto_y ← integrate rotacional_z [(y, f1, f2)];
  let pasos := append pasos ("Paso 1 - Integral respecto a y: ∫_{" ++ f1_str ++ "}^{" ++ f2_str ++ "} " ++ sp_pretty rotacional_z ++ " dy") in
  let pasos := append pasos (" = " ++ sp_pretty integral_respecto_y) in
  resultado_doble ← integrate integral_respecto_y [(x, x_min, x_max)];
  let pasos := append pasos ("Paso 2 - Integral respecto a x: ∫_{" ++ str x_min ++ "}^{" ++ str x_max ++ "} " ++ sp_pretty integral_respecto_y ++ " dx") in
  let pasos := append pasos (" = " ++ sp_pretty resultado_doble) in
  let pasos := append pasos ("Integral doble FINAL = " ++ sp_pretty resultado_doble) in
  mret (resultado_doble, pasos).

(** Lines 756-797: the body of the [try] around the line integral. *)
Definition entre_curvas_integral_linea (x y P Q f1 f2 x_min x_max : Expr)
    (t resultado_linea : Expr) (pasos : list string)
  : outcome (Expr * list string) :=
  let x1 := t in
  let y1 := subs f1 [(x, t)] in
  let dx1 := Integer 1 in
  let dy1 := subs (diff f1 x) [(x, t)] in
  let integrando1 := (subs P [(x, x1); (y, y1)] * dx1 + subs Q [(x, x1); (y, y1)] * dy1)%sp in
  int1 ← integrate integrando1 [(t, x_min, x_max)];
  let pasos := append pasos ("Segmento 1 (curva inferior): " ++ sp_pretty int1) in
  let resultado_linea := (resultado_linea + int1)%sp in
  let y2 := t in
  let x2 := x_max in
  let dx2 := Integer 0 in
  let dy2 := Integer 1 in
  let integrando2 := (subs P [(x, x2); (y, y2)] * dx2 + subs Q [(x, x2); (y, y2)] * dy2)%sp in
  int2 ← integrate integrando2 [(t, subs f1 [(x, x_max)], subs f2 [(x, x_max)])];
  let pasos := append pasos ("Segmento 2 (lado derecho): " ++ sp_pretty int2) in
  let resultado_linea := (resultado_linea + int2)%sp in
  let x3 := t in
  let y3 := subs f2 [(x, t)] in
  let dx3 := Integer 1 in
  let dy3 := subs (diff f2 x) [(x, t)] in
  let integrando3 := (subs P [(x, x3); (y, y3)] * dx3 + subs Q [(x, x3); (y, y3)] * dy3)%sp in
  int3 ← integrate integrando3 [(t, x_max, x_min)];
  let pasos := append pasos ("Segmento 3 (curva superior, inverso): " ++ sp_pretty int3) in
  let resultado_linea := (resultado_linea + int3)%sp in
  let y4 := t in
  let x4 := x_min in
  let dx4 := Integer 0 in
  let dy4 := Integer 1 in
  let integrando4 := (subs P [(x, x4); (y, y4)] * dx4 + subs Q [(x, x4); (y, y4)] * dy4)%sp in
  int4 ← integrate integrando4 [(t, subs f2 [(x, x_min)], subs f1 [(x, x_min)])];
  let pasos := append pasos ("Segmento 4 (lado izquierdo, inverso): " ++ sp_pretty int4) in
  let resultado_linea := (resultado_linea + int4)%sp in
  let resultado_linea := simplify resultado_linea in
  let pasos := append pasos ("Integral de línea TOTAL = " ++ sp_pretty resultado_linea) in
  mret (resultado_linea, pasos).

(** Lines 712-813: [region == 'entre_curvas']. *)
Definition green_entre_curvas (x y P Q rotacional_z : Expr)
    (parametros_region : option (gmap string string)) (pasos info : list string)
  : outcome (respuesta (Green.t Expr)) :=
  f1_str ← get parametros_region "f1" "x**2";
  f2_str ← get parametros_region "f2" "4";
  x_min_txt ← get parametros_region "x_min" "0";
  x_min ← sympify0 x_min_txt;
  x_max_txt ← get parametros_region "x_max" "2";
  x_max ← sympify0 x_max_txt;
  let locales : gmap string (local Expr) :=
    {[ "x" := LExpr x; "y" := LExpr y; "sin" := LFunc f_sin; "cos" := LFunc f_cos;
       "pi" := LExpr pi; "exp" := LFunc f_exp; "log" := LFunc f_log ]} in
  match (f1 ← sympify f1_str locales; f2 ← sympify f2_str locales; mret (f1, f2)) with
  | Raise e => mret (error ("Error analizando las curvas: " ++ exn_str e))
  | Ok (f1, f2) =>
  let pasos := append pasos ("Región: entre y=" ++ f1_str ++ " y y=" ++ f2_str ++ ", x∈[" ++ str x_min ++ "," ++ str x_max ++ "]") in
  let pasos := append pasos "" in
  let pasos := append pasos "CÁLCULO DETALLADO DE LA INTEGRAL DOBLE:" in
  let pasos := append pasos ("∬_D (∇×F) dA = ∬_D " ++ sp_pretty rotacional_z ++ " dA") in
  let pasos := append pasos (" = ∫_{" ++ str x_min ++ "}^{" ++ str x_max ++ "} ∫_{" ++ f1_str ++ "}^{" ++ f2_str ++ "} " ++ sp_pretty rotacional_z ++ " dy dx") in
  match entre_curvas_integral_doble x y rotacional_z f1 f2 x_min x_max
          f1_str f2_str pasos with
  | Raise e => mret (error ("Error en integral doble: " ++ exn_str e))
  | Ok (resultado_doble, pasos) =>
  let pasos := append pasos "" in
  let pasos := append pasos "CÁLCULO DE LA INTEGRAL DE LÍNEA (4 segmentos):" in
  let t := Symbol "t" real in
  let resultado_linea := Integer 0 in
  match entre_curvas_integral_linea x y P Q f1 f2 x_min x_max
          t resultado_linea pasos with
  | Raise e => mret (error ("Error en integral de línea: " ++ exn_str e))
  | Ok (resultado_linea, pasos) =>
  let pasos := append pasos (nl ++ repetir "=" 60) in
  let pasos := append pasos "📊 INTERPRETACIÓN GRÁFICA Y CONCLUSIONES" in
  let pasos := append pasos (repetir "=" 60) in
  f1_val ← get parametros_region "f1" "x";
  f2_val ← get parametros_region "f2" "2*x+1";
  x_min_val ← get parametros_region "x_min" "0";
  x_max_val ← get parametros_region "x_max" "2";
  let pasos := extend pasos (_explicacion_entre_curvas f1_val f2_val x_min_val x_max_val resultado_doble resultado_linea rotacional_z) in
  mret (datos (_verificar_green resultado_doble resultado_linea pasos info))
  end end end.

(** Lines 816-857: [region == 'sector_polar']. *)
Definition green_sector_polar (x y P Q rotacional_z : Expr)
    (parametros_region : option (gmap string string)) (pasos info : list string)
  : outcome (respuesta (Green.t Expr)) :=
  R_txt ← get parametros_region "R" "2";
  R ← sympify0 R_txt;
  theta_min_txt ← get parametros_region "theta_min" "0";
  theta_min ← sympify0 theta_min_txt;
  theta_max_txt ← get parametros_region "theta_max" "pi/2";
  theta_max ← sympify0 theta_max_txt;
  let pasos := append pasos ("Región: sector polar R=" ++ str R ++ ", θ∈[" ++ str theta_min ++ "," ++ str theta_max ++ "]") in
  let r := Symbol "r" positive in
  let theta := Symbol "theta" positive in
  let sustituciones := [(x, (r * fn f_cos theta)%sp); (y, (r * fn f_sin theta)%sp)] in
  let integrando := (subs rotacional_z sustituciones * r)%sp in
  resultado_doble ← integrate integrando [(r, Integer 0, R); (theta, theta_min, theta_max)];
  let pasos := append pasos ("Integral doble = " ++ sp_pretty resultado_doble) in
  let t := Symbol "t" real in
  let x_arco := (R * fn f_cos t)%sp in
  let y_arco := (R * fn f_sin t)%sp in
  let dx_arco := diff x_arco t in
  let dy_arco := diff y_arco t in
  linea_arco ← integrate (subs P [(x, x_arco); (y, y_arco)] * dx_arco + subs Q [(x, x_arco); (y, y_arco)] * dy_arco)%sp [(t, theta_min, theta_max)];
  let x_rad1 := (t * fn f_cos theta_min)%sp in
  let y_rad1 := (t * fn f_sin theta_min)%sp in
  linea_rad1 ← integrate (subs P [(x, x_rad1); (y, y_rad1)] * fn f_cos theta_min + subs Q [(x, x_rad1); (y, y_rad1)] * fn f_sin theta_min)%sp [(t, R, Integer 0)];
  let x_rad2 := (t * fn f_cos theta_max)%sp in
  let y_rad2 := (t * fn f_sin theta_max)%sp in
  linea_rad2 ← integrate (subs P [(x, x_rad2); (y, y_rad2)] * fn f_cos theta_max + subs Q [(x, x_rad2); (y, y_rad2)] * fn f_sin theta_max)%sp [(t, Integer 0, R)];
  let resultado_linea := simplify (linea_arco + linea_rad1 + linea_rad2)%sp in
  let pasos := append pasos ("Integral de línea = " ++ sp_pretty resultado_linea) in
  let pasos := append pasos (nl ++ repetir "=" 60) in
  let pasos := append pasos "📊 INTERPRETACIÓN GRÁFICA Y CONCLUSIONES" in
  let pasos := append pasos (repetir "=" 60) in
  R_val ← get parametros_region "R" "2";
  theta_min_val ← get parametros_region "theta_min" "0";
  theta_max_val ← get parametros_region "theta_max" "pi/2";
  let pasos := extend pasos (_explicacion_sector_polar R_val theta_min_val theta_max_val resultado_doble resultado_linea rotacional_z) in
  mret (datos (_verificar_green resultado_doble resultado_linea pasos info)).

(** Lines 860-895: [region == 'poligono']. *)
Definition green_poligono (x y P Q rotacional_z : Expr)
    (parametros_region : option (gmap string string)) (pasos info : list string)
  : outcome (respuesta (Green.t Expr)) :=
  lados_txt ← get parametros_region "lados" "5";
  lados ← int lados_txt;
  radio_txt ← get parametros_region "radio" "2";
  radio ← sympify0 radio_txt;
  centro_x_txt ← get parametros_region "centro_x" "0";
  centro_x ← sympify0 centro_x_txt;
  centro_y_txt ← get parametros_region "centro_y" "0";
  centro_y ← sympify0 centro_y_txt;
  let pasos := append pasos ("Región: polígono regular de " ++ str_int lados ++ " lados, R=" ++ str radio ++ ", centro (" ++ str centro_x ++ ", " ++ str centro_y ++ ")") in
  let area_poligono := (Integer lados * (Integer 2 * radio * fn f_sin (pi / Integer lados)%sp) ** Integer 2 / (Integer 4 * fn f_tan (pi / Integer lados)%sp))%sp in
  let '(resultado_doble, pasos) :=
    if is_constant rotacional_z then
      let resultado_doble := (rotacional_z * area_poligono)%sp in
      let pasos := append pasos ("Como ∇×F es constante, integral doble = " ++ sp_pretty rotacional_z ++ " × " ++ sp_pretty area_poligono ++ " = " ++ sp_pretty resultado_doble) in
      (resultado_doble, pasos)
    else
      let pasos := append pasos "⚠️  Rotacional no constante - usando valor medio aproximado" in
      let rotacional_medio := subs rotacional_z [(x, centro_x); (y, centro_y)] in
      let resultado_doble := (rotacional_medio * area_poligono)%sp in
      let pasos := append pasos ("Aproximación: ∇×F ≈ " ++ sp_pretty rotacional_medio ++ " en el centro") in
      let pasos := append pasos ("Integral doble ≈ " ++ sp_pretty rotacional_medio ++ " × " ++ sp_pretty area_poligono ++ " = " ++ sp_pretty resultado_doble) in
      (resultado_doble, pasos) in
  let pasos := append pasos "Nota: Para polígonos, se muestra solo la integral doble" in
  let pasos := append pasos (nl ++ repetir "=" 60) in
  let pasos := append pasos "📊 INTERPRETACIÓN GRÁFICA Y CONCLUSIONES" in
  let pasos := append pasos (repetir "=" 60) in
  lados_val ← get parametros_region "lados" "5";
  radio_val ← get parametros_region "radio" "2";
  let pasos := extend pasos (_explicacion_poligono lados_val radio_val resultado_doble resultado_doble rotacional_z) in
  mret (datos {| Green.doble := resultado_doble; Green.linea := resultado_doble; Green.pasos := pasos; Green.info := info |}).

(** Lines 400-898 *)
Definition aplicar_green (P_str Q_str region : string)
    (parametros_region : option (gmap string string))
  : outcome (respuesta (Green.t Expr)) :=
  let x := Symbol "x" real in
  let y := Symbol "y" real in
  let locales : gmap string (local Expr) :=
    {[ "x" := LExpr x; "y" := LExpr y; "sin" := LFunc f_sin; "cos" := LFunc f_cos;
       "pi" := LExpr pi ]} in
  match (P ← sympify P_str locales; Q ← sympify Q_str locales; mret (P, Q)) with
  | Raise e => mret (error ("Error analizando P o Q: " ++ exn_str e))
  | Ok (P, Q) =>
    let pasos : list string := [] in
    let info : list string := [] in
    let info := append info "TEOREMA DE GREEN" in
    let info := append info "Fórmula: ∮_C (P dx + Q dy) = ∬_D (∂Q/∂x - ∂P/∂y) dA" in
    let info := append info "Donde:" in
    let info := append info "  - P(x,y): componente x del campo vectorial" in
    let info := append info "  - Q(x,y): componente y del campo vectorial" in
    let info := append info "  - C: curva cerrada que bordea la región D" in
    let info := append info "  - D: región en el plano xy" in
    let info := append info "  - ∂Q/∂x: derivada parcial de Q respecto a x" in
    let info := append info "  - ∂P/∂y: derivada parcial de P respecto a y" in
    let pasos := append pasos ("Campo vectorial F = (P, Q) = (" ++ sp_pretty P ++ ", " ++ sp_pretty Q ++ ")") in
    let pasos := append pasos "" in
    let pasos := append pasos "CÁLCULO DE LAS DERIVADAS PARCIALES:" in
    let pasos := append pasos ("P(x,y) = " ++ sp_pretty P) in
    let pasos := append pasos ("Q(x,y) = " ++ sp_pretty Q) in
    let dQdx := diff Q x in
    let pasos := append pasos ("∂Q/∂x = ∂(" ++ sp_pretty Q ++ ")/∂x = " ++ sp_pretty dQdx) in
    let dPdy := diff P y in
    let pasos := append pasos ("∂P/∂y = ∂(" ++ sp_pretty P ++ ")/∂y = " ++ sp_pretty dPdy) in
    let rotacional_z := simplify (dQdx - dPdy)%sp in
    let pasos := append pasos ("∇×F = ∂Q/∂x - ∂P/∂y = " ++ sp_pretty dQdx ++ " - (" ++ sp_pretty dPdy ++ ") = " ++ sp_pretty rotacional_z) in
    let pasos := append pasos "" in
    if String.eqb region "disco" then
      green_disco x y P Q rotacional_z parametros_region pasos info
    else if String.eqb region "corona" then
      green_corona x y P Q rotacional_z parametros_region pasos info
    else if String.eqb region "rectangulo" then
      green_rectangulo x y P Q rotacional_z parametros_region pasos info
    else if String.eqb region "elipse" then
      green_elipse x y P Q rotacional_z parametros_region pasos info
    else if String.eqb region "triangulo" then
      green_triangulo x y P Q rotacional_z parametros_region pasos info
    else if String.eqb region "semicirculo" then
      green_semicirculo x y P Q rotacional_z parametros_region pasos info
    else if String.eqb region "entre_curvas" then
      green_entre_curvas x y P Q rotacional_z parametros_region pasos info
    else if String.eqb region "sector_polar" then
      green_sector_polar x y P Q rotacional_z parametros_region pasos info
    else if String.eqb region "poligono" then
      green_poligono x y P Q rotacional_z parametros_region pasos info
    else
      mret (error "Región no soportada para el Teorema de Green.")
  end.

(** ** [aplicar_divergencia] *)

(** Lines 960-1017: [region == 'esfera']. *)
Definition divergencia_esfera (x y z Fx Fy Fz divF : Expr)
    (parametros_region : option (gmap string string)) (pasos info : list string)
  : outcome (respuesta (Divergencia.t Expr)) :=
  R_txt ← get parametros_region "R" "1";
  R ← sympify0 R_txt;
  let pasos := append pasos ("Región: esfera de radio R=" ++ str R ++ ". Usamos coordenadas esféricas.") in
  let pasos := append pasos "" in
  let pasos := append pasos "CÁLCULO DE LA INTEGRAL TRIPLE:" in
  '(res_vol, pasos) ←
    (if is_constant divF then
      let volumen_esfera := (Float (4 / 3)%float * pi * R ** Integer 3)%sp in
      let res_vol := (divF * volumen_esfera)%sp in
      let pasos := append pasos ("Como ∇·F = " ++ sp_pretty divF ++ " es constante:") in
      let pasos := append pasos ("∭_V (∇·F) dV = " ++ sp_pretty divF ++ " × Volumen de la esfera") in
      let pasos := append pasos ("Volumen de la esfera = (4/3)πR³ = (4/3)π(" ++ str R ++ ")³ = " ++ sp_pretty volumen_esfera) in
      let pasos := append pasos ("Resultado = " ++ sp_pretty divF ++ " × " ++ sp_pretty volumen_esfera ++ " = " ++ sp_pretty res_vol) in
      mret (res_vol, pasos)
    else
      let pasos := append pasos "Transformación a coordenadas esféricas:" in
      let pasos := append pasos "x = ρ·sin(φ)·cos(θ), y = ρ·sin(φ)·sin(θ), z = ρ·cos(φ)" in
      let pasos := append pasos "Jacobiano: ρ²·sin(φ)" in
      let rho := Symbol "rho" positive in
      let phi := Symbol "phi" positive in
      let theta := Symbol "theta" positive in
      let sustituciones := [(x, (rho * fn f_sin phi * fn f_cos theta)%sp); (y, (rho * fn f_sin phi * fn f_sin theta)%sp); (z, (rho * fn f_cos phi)%sp)] in
      let integrando := simplify (subs divF sustituciones * rho ** Integer 2 * fn f_sin phi)%sp in
      let pasos := append pasos ("Integrando en coordenadas esféricas: " ++ sp_pretty (subs divF sustituciones) ++ " × ρ²·sin(φ) = " ++ sp_pretty integrando) in
      let pasos := append pasos "" in
      let pasos := append pasos "Límites de integración:" in
      let pasos := append pasos ("ρ: 0 a " ++ str R) in
      let pasos := append pasos "φ: 0 a π" in
      let pasos := append pasos "θ: 0 a 2π" in
      let pasos := append pasos "" in
      let pasos := append pasos ("∭_V (∇·F) dV = ∫₀^" ++ str R ++ " ∫₀^π ∫₀²π [" ++ sp_pretty integrando ++ "] dθ dφ dρ") in
      integral_theta ← integrate integrando [(theta, Integer 0, (Integer 2 * pi)%sp)];
      let pasos := append pasos ("Integral respecto a θ: ∫₀²π " ++ sp_pretty integrando ++ " dθ = " ++ sp_pretty integral_theta) in
      integral_phi ← integrate integral_theta [(phi, Integer 0, pi)];
      let pasos := append pasos ("Integral respecto a φ: ∫₀^π " ++ sp_pretty integral_theta ++ " dφ = " ++ sp_pretty integral_phi) in
      res_vol ← integrate integral_phi [(rho, Integer 0, R)];
      let pasos := append pasos ("Integral respecto a ρ: ∫₀^" ++ str R ++ " " ++ sp_pretty integral_phi ++ " dρ = " ++ sp_pretty res_vol) in
      mret (res_vol, pasos));
  let pasos := append pasos "" in
  let pasos := append pasos "INTERPRETACIÓN FÍSICA:" in
  let pasos := append pasos ("- El campo F = (" ++ sp_pretty Fx ++ ", " ++ sp_pretty Fy ++ ", " ++ sp_pretty Fz ++ ")") in
  let pasos := append pasos ("- La divergencia ∇·F = " ++ sp_pretty divF ++ " indica las fuentes/sumideros del campo") in
  let pasos := append pasos ("- El flujo neto a través de la superficie esférica es " ++ sp_pretty res_vol) in
  let pasos := append pasos "- Esto representa la 'cantidad de campo' que sale de la esfera" in
  mret (datos {| Divergencia.divergencia := divF; Divergencia.volumen := res_vol; Divergencia.pasos := pasos; Divergencia.info := info |}).

(** Lines 1020-1065: [region == 'cilindro']. *)
Definition divergencia_cilindro (x y z Fx Fy Fz divF : Expr)
    (parametros_region : option (gmap string string)) (pasos info : list string)
  : outcome (respuesta (Divergencia.t Expr)) :=
  a_txt ← get parametros_region "a" "1";
  a ← sympify0 a_txt;
  h_txt ← get parametros_region "h" "1";
  h ← sympify0 h_txt;
  let pasos := append pasos ("Región: cilindro de radio a=" ++ str a ++ " y altura h=" ++ str h ++ ". Usamos coordenadas cilíndricas.") in
  '(res_vol, pasos) ←
    (if is_constant divF then
      let volumen_cilindro := (pi * a ** Integer 2 * h)%sp in
      let res_vol := (divF * volumen_cilindro)%sp in
      let pasos := append pasos ("Como ∇·F = " ++ sp_pretty divF ++ " es constante:") in
      let pasos := append pasos ("∭_V (∇·F) dV = " ++ sp_pretty divF ++ " × Volumen del cilindro") in
      let pasos := append pasos ("Volumen del cilindro = πa²h = π(" ++ str a ++ ")²(" ++ str h ++ ") = " ++ sp_pretty volumen_cilindro) in
      let pasos := append pasos ("Resultado = " ++ sp_pretty divF ++ " × " ++ sp_pretty volumen_cilindro ++ " = " ++ sp_pretty res_vol) in
      mret (res_vol, pasos)
    else
      let pasos := append pasos "Transformación a coordenadas cilíndricas:" in
      let pasos := append pasos "x = r·cos(θ), y = r·sin(θ), z = z" in
      let pasos := append pasos "Jacobiano: r" in
      let r := Symbol "r" real in
      let theta := Symbol "theta" real in
      let zs := Symbol "zs" real in
      let sustituciones := [(x, (r * fn f_cos theta)%sp); (y, (r * fn f_sin theta)%sp); (z, zs)] in
      let integrando := simplify (subs divF sustituciones * r)%sp in
      let pasos := append pasos ("Integrando en coordenadas cilíndricas: " ++ sp_pretty (subs divF sustituciones) ++ " × r = " ++ sp_pretty integrando) in
      let pasos := append pasos "" in
      let pasos := append pasos "Límites de integración:" in
      let pasos := append pasos ("r: 0 a " ++ str a) in
      let pasos := append pasos "θ: 0 a 2π" in
      let pasos := append pasos ("z: 0 a " ++ str h) in
      let pasos := append pasos "" in
      let pasos := append pasos ("∭_V (∇·F) dV = ∫₀^" ++ str a ++ " ∫₀²π ∫₀^" ++ str h ++ " [" ++ sp_pretty integrando ++ "] dz dθ dr") in
      integral_z ← integrate integrando [(zs, Integer 0, h)];
      let pasos := append pasos ("Integral respecto a z: ∫₀^" ++ str h ++ " " ++ sp_pretty integrando ++ " dz = " ++ sp_pretty integral_z) in
      integral_theta ← integrate integral_z [(theta, Integer 0, (Integer 2 * pi)%sp)];
      let pasos := append pasos ("Integral respecto a θ: ∫₀²π " ++ sp_pretty integral_z ++ " dθ = " ++ sp_pretty integral_theta) in
      res_vol ← integrate integral_theta [(r, Integer 0, a)];
      let pasos := append pasos ("Integral respecto a r: ∫₀^" ++ str a ++ " " ++ sp_pretty integral_theta ++ " dr = " ++ sp_pretty res_vol) in
      mret (res_vol, pasos));
  mret (datos {| Divergencia.divergencia := divF; Divergencia.volumen := res_vol; Divergencia.pasos := pasos; Divergencia.info := info |}).

(** Lines 1068-1093: [region == 'cubo']. *)
Definition divergencia_cubo (x y z Fx Fy Fz divF : Expr)
    (parametros_region : option (gmap string string)) (pasos info : list string)
  : outcome (respuesta (Divergencia.t Expr)) :=
  a_txt ← get parametros_region "a" "1";
  a ← sympify0 a_txt;
  b_txt ← get parametros_region "b" "1";
  b ← sympify0 b_txt;
  c_txt ← get parametros_region "c" "1";
  c ← sympify0 c_txt;
  let pasos := append pasos ("Región: cubo de dimensiones " ++ str a ++ "×" ++ str b ++ "×" ++ str c ++ ". Usamos coordenadas cartesianas.") in
  let pasos := append pasos "" in
  let pasos := append pasos "CÁLCULO DE LA INTEGRAL TRIPLE:" in
  let pasos := append pasos "Límites de integración:" in
  let pasos := append pasos ("x: -" ++ str a ++ "/2 a " ++ str a ++ "/2") in
  let pasos := append pasos ("y: -" ++ str b ++ "/2 a " ++ str b ++ "/2") in
  let pasos := append pasos ("z: -" ++ str c ++ "/2 a " ++ str c ++ "/2") in
  let pasos := append pasos "" in
  let pasos := append pasos ("∭_V (∇·F) dV = ∫_[−" ++ str a ++ "/2," ++ str a ++ "/2] ∫_[−" ++ str b ++ "/2," ++ str b ++ "/2] ∫_[−" ++ str c ++ "/2," ++ str c ++ "/2] [" ++ sp_pretty divF ++ "] dz dy dx") in
  integral_z ← integrate divF [(z, (- c / Integer 2)%sp, (c / Integer 2)%sp)];
  let pasos := append pasos ("Integral respecto a z: ∫_[−" ++ str c ++ "/2," ++ str c ++ "/2] " ++ sp_pretty divF ++ " dz = " ++ sp_pretty integral_z) in
  integral_y ← integrate integral_z [(y, (- b / Integer 2)%sp, (b / Integer 2)%sp)];
  let pasos := append pasos ("Integral respecto a y: ∫_[−" ++ str b ++ "/2," ++ str b ++ "/2] " ++ sp_pretty integral_z ++ " dy = " ++ sp_pretty integral_y) in
  res_vol ← integrate integral_y [(x, (- a / Integer 2)%sp, (a / Integer 2)%sp)];
  let pasos := append pasos ("Integral respecto a x: ∫_[−" ++ str a ++ "/2," ++ str a ++ "/2] " ++ sp_pretty integral_y ++ " dx = " ++ sp_pretty res_vol) in
  mret (datos {| Divergencia.divergencia := divF; Divergencia.volumen := res_vol; Divergencia.pasos := pasos; Divergencia.info := info |}).

(** Lines 1096-1136: [region == 'elipsoide']. *)
Definition divergencia_elipsoide (x y z Fx Fy Fz divF : Expr)
    (parametros_region : option (gmap string string)) (pasos info : list string)
  : outcome (respuesta (Divergencia.t Expr)) :=
  a_txt ← get parametros_region "a" "1";
  a ← sympify0 a_txt;
  b_txt ← get parametros_region "b" "1";
  b ← sympify0 b_txt;
  c_txt ← get parametros_region "c" "1";
  c ← sympify0 c_txt;
  let pasos := append pasos ("Región: elipsoide de semiejes a=" ++ str a ++ ", b=" ++ str b ++ ", c=" ++ str c ++ ". Usamos coordenadas elipsoidales.") in
  let pasos := append pasos "" in
  let pasos := append pasos "CÁLCULO DE LA INTEGRAL TRIPLE:" in
  let pasos := append pasos "Transformación a coordenadas elipsoidales:" in
  let pasos := append pasos "x = a·ρ·sin(φ)·cos(θ), y = b·ρ·sin(φ)·sin(θ), z = c·ρ·cos(φ)" in
  let pasos := append pasos "Jacobiano: a·b·c·ρ²·sin(φ)" in
  let rho := Symbol "rho" positive in
  let phi := Symbol "phi" positive in
  let theta := Symbol "theta" positive in
  let sustituciones := [(x, (a * rho * fn f_sin phi * fn f_cos theta)%sp); (y, (b * rho * fn f_sin phi * fn f_sin theta)%sp); (z, (c * rho * fn f_cos phi)%sp)] in
  let jacobiano := (a * b * c * rho ** Integer 2 * fn f_sin phi)%sp in
  let integrando := simplify (subs divF sustituciones * jacobiano)%sp in
  let pasos := append pasos ("Integrando en coordenadas elipsoidales: " ++ sp_pretty (subs divF sustituciones) ++ " × " ++ sp_pretty jacobiano ++ " = " ++ sp_pretty integrando) in
  let pasos := append pasos "" in
  let pasos := append pasos "Límites de integración:" in
  let pasos := append pasos "ρ: 0 a 1" in
  let pasos := append pasos "φ: 0 a π" in
  let pasos := append pasos "θ: 0 a 2π" in
  let pasos := append pasos "" in
  let pasos := append pasos ("∭_V (∇·F) dV = ∫₀¹ ∫₀^π ∫₀²π [" ++ sp_pretty integrando ++ "] dθ dφ dρ") in
  integral_theta ← integrate integrando [(theta, Integer 0, (Integer 2 * pi)%sp)];
  let pasos := append pasos ("Integral respecto a θ: ∫₀²π " ++ sp_pretty integrando ++ " dθ = " ++ sp_pretty integral_theta) in
  integral_phi ← integrate integral_theta [(phi, Integer 0, pi)];
  let pasos := append pasos ("Integral respecto a φ: ∫₀^π " ++ sp_pretty integral_theta ++ " dφ = " ++ sp_pretty integral_phi) in
  res_vol ← integrate integral_phi [(rho, Integer 0, Integer 1)];
  let pasos := append pasos ("Integral respecto a ρ: ∫₀¹ " ++ sp_pretty integral_phi ++ " dρ = " ++ sp_pretty res_vol) in
  mret (datos {| Divergencia.divergencia := divF; Divergencia.volumen := res_vol; Divergencia.pasos := pasos; Divergencia.info := info |}).

(** Lines 1139-1174: [region == 'cono']. *)
Definition divergencia_cono (x y z Fx Fy Fz divF : Expr)
    (parametros_region : option (gmap string string)) (pasos info : list string)
  : outcome (respuesta (Divergencia.t Expr)) :=
  R_txt ← get parametros_region "R" "1";
  R ← sympify0 R_txt;
  h_txt ← get parametros_region "h" "1";
  h ← sympify0 h_txt;
  let pasos := append pasos ("Región: cono de radio R=" ++ str R ++ " y altura h=" ++ str h ++ ". Usamos coordenadas cilíndricas.") in
  let pasos := append pasos "" in
  let pasos := append pasos "CÁLCULO DE LA INTEGRAL TRIPLE:" in
  let pasos := append pasos "Transformación a coordenadas cilíndricas:" in
  let pasos := append pasos "x = r·cos(θ), y = r·sin(θ), z = z" in
  let pasos := append pasos "Jacobiano: r" in
  let pasos := append pasos "Radio variable: r = R(1 - z/h)" in
  let r := Symbol "r" real in
  let theta := Symbol "theta" real in
  let zs := Symbol "zs" real in
  let sustituciones := [(x, (r * fn f_cos theta)%sp); (y, (r * fn f_sin theta)%sp); (z, zs)] in
  let integrando := simplify (subs divF sustituciones * r)%sp in
  let pasos := append pasos ("Integrando en coordenadas cilíndricas: " ++ sp_pretty (subs divF sustituciones) ++ " × r = " ++ sp_pretty integrando) in
  let pasos := append pasos "" in
  let pasos := append pasos "Límites de integración:" in
  let pasos := append pasos ("r: 0 a " ++ str R ++ "*(1 - z/" ++ str h ++ ")") in
  let pasos := append pasos "θ: 0 a 2π" in
  let pasos := append pasos ("z: 0 a " ++ str h) in
  let pasos := append pasos "" in
  let pasos := append pasos ("∭_V (∇·F) dV = ∫₀^" ++ str h ++ " ∫₀²π ∫₀^{" ++ str R ++ "*(1 - z/" ++ str h ++ ")} [" ++ sp_pretty integrando ++ "] dr dθ dz") in
  integral_r ← integrate integrando [(r, Integer 0, (R * (Integer 1 - zs / h))%sp)];
  let pasos := append pasos ("Integral respecto a r: ∫₀^{" ++ str R ++ "*(1 - z/" ++ str h ++ ")} " ++ sp_pretty integrando ++ " dr = " ++ sp_pretty integral_r) in
  integral_theta ← integrate integral_r [(theta, Integer 0, (Integer 2 * pi)%sp)];
  let pasos := append pasos ("Integral respecto a θ: ∫₀²π " ++ sp_pretty integral_r ++ " dθ = " ++ sp_pretty integral_theta) in
  res_vol ← integrate integral_theta [(zs, Integer 0, h)];
  let pasos := append pasos ("Integral respecto a z: ∫₀^" ++ str h ++ " " ++ sp_pretty integral_theta ++ " dz = " ++ sp_pretty res_vol) in
  mret (datos {| Divergencia.divergencia := divF; Divergencia.volumen := res_vol; Divergencia.pasos := pasos; Divergencia.info := info |}).

(** Lines 1177-1212: [region == 'entre_superficies']. *)
Definition divergencia_entre_superficies (x y z Fx Fy Fz divF : Expr)
    (parametros_region : option (gmap string string)) (pasos info : list string)
  : outcome (respuesta (Divergencia.t Expr)) :=
  R_int_txt ← get parametros_region "R_int" "1";
  R_int ← sympify0 R_int_txt;
  R_ext_txt ← get parametros_region "R_ext" "2";
  R_ext ← sympify0 R_ext_txt;
  h_txt ← get parametros_region "h" "1";
  h ← sympify0 h_txt;
  let pasos := append pasos ("Región: entre superficies cilíndricas R_int=" ++ str R_int ++ ", R_ext=" ++ str R_ext ++ ", altura h=" ++ str h ++ ".") in
  let pasos := append pasos "" in
  let pasos := append pasos "CÁLCULO DE LA INTEGRAL TRIPLE:" in
  let pasos := append pasos "Transformación a coordenadas cilíndricas:" in
  let pasos := append pasos "x = r·cos(θ), y = r·sin(θ), z = z" in
  let pasos := append pasos "Jacobiano: r" in
  let r := Symbol "r" real in
  let theta := Symbol "theta" real in
  let zs := Symbol "zs" real in
  let sustituciones := [(x, (r * fn f_cos theta)%sp); (y, (r * fn f_sin theta)%sp); (z, zs)] in
  let integrando := simplify (subs divF sustituciones * r)%sp in
  let pasos := append pasos ("Integrando en coordenadas cilíndricas: " ++ sp_pretty (subs divF sustituciones) ++ " × r = " ++ sp_pretty integrando) in
  let pasos := append pasos "" in
  let pasos := append pasos "Límites de integración:" in
  let pasos := append pasos ("r: " ++ str R_int ++ " a " ++ str R_ext) in
  let pasos := append pasos "θ: 0 a 2π" in
  let pasos := append pasos ("z: -" ++ str h ++ "/2 a " ++ str h ++ "/2") in
  let pasos := append pasos "" in
  let pasos := append pasos ("∭_V (∇·F) dV = ∫_{" ++ str R_int ++ "}^{" ++ str R_ext ++ "} ∫₀²π ∫_[−" ++ str h ++ "/2," ++ str h ++ "/2] [" ++ sp_pretty integrando ++ "] dz dθ dr") in
  integral_z ← integrate integrando [(zs, (- h / Integer 2)%sp, (h / Integer 2)%sp)];
  let pasos := append pasos ("Integral respecto a z: ∫_[−" ++ str h ++ "/2," ++ str h ++ "/2] " ++ sp_pretty integrando ++ " dz = " ++ sp_pretty integral_z) in
  integral_theta ← integrate integral_z [(theta, Integer 0, (Integer 2 * pi)%sp)];
  let pasos := append pasos ("Integral respecto a θ: ∫₀²π " ++ sp_pretty integral_z ++ " dθ = " ++ sp_pretty integral_theta) in
  res_vol ← integrate integral_theta [(r, R_int, R_ext)];
  let pasos := append pasos ("Integral respecto a r: ∫_{" ++ str R_int ++ "}^{" ++ str R_ext ++ "} " ++ sp_pretty integral_theta ++ " dr = " ++ sp_pretty res_vol) in
  mret (datos {| Divergencia.divergencia := divF; Divergencia.volumen := res_vol; Divergencia.pasos := pasos; Divergencia.info := info |}).
(** Lines 916-1215 *)
Definition aplicar_divergencia (Fx_str Fy_str Fz_str region : string)
    (parametros_region : option (gmap string string))
  : outcome (respuesta (Divergencia.t Expr)) :=
  let x := Symbol "x" real in
  let y := Symbol "y" real in
  let z := Symbol "z" real in
  let locales : gmap string (local Expr) :=
    {[ "x" := LExpr x; "y" := LExpr y; "z" := LExpr z; "sin" := LFunc f_sin;
       "cos" := LFunc f_cos; "pi" := LExpr pi ]} in
  match (Fx ← sympify Fx_str locales; Fy ← sympify Fy_str locales;
         Fz ← sympify Fz_str locales; mret (Fx, Fy, Fz)) with
  | Raise e =>
      mret (error ("Error analizando las componentes del campo: " ++ exn_str e))
  | Ok (Fx, Fy, Fz) =>
    let pasos : list string := [] in
    let info : list string := [] in
    let info := append info "TEOREMA DE LA DIVERGENCIA (TEOREMA DE GAUSS)" in
    let info := append info "Fórmula: ∬_S F·dS = ∭_V (∇·F) dV" in
    let info := append info "Donde:" in
    let info := append info "  - F = (Fx, Fy, Fz): campo vectorial" in
    let info := append info "  - ∇·F: divergencia del campo F" in
    let info := append info "  - S: superficie cerrada que encierra el volumen V" in
    let info := append info "  - V: volumen encerrado por la superficie S" in
    let info := append info "  - dS: elemento diferencial de superficie" in
    let info := append info "  - dV: elemento diferencial de volumen" in
    let pasos := append pasos ("Campo vectorial F = (" ++ sp_pretty Fx ++ ", " ++ sp_pretty Fy ++ ", " ++ sp_pretty Fz ++ ")") in
    let pasos := append pasos "" in
    let pasos := append pasos "CÁLCULO DETALLADO DE LA DIVERGENCIA:" in
    let pasos := append pasos "∇·F = ∂Fx/∂x + ∂Fy/∂y + ∂Fz/∂z" in
    let pasos := append pasos "" in
    let dFx_dx := diff Fx x in
    let dFy_dy := diff Fy y in
    let dFz_dz := diff Fz z in
    let pasos := append pasos ("∂Fx/∂x = ∂(" ++ sp_pretty Fx ++ ")/∂x = " ++ sp_pretty dFx_dx) in
    let pasos := append pasos ("∂Fy/∂y = ∂(" ++ sp_pretty Fy ++ ")/∂y = " ++ sp_pretty dFy_dy) in
    let pasos := append pasos ("∂Fz/∂z = ∂(" ++ sp_pretty Fz ++ ")/∂z = " ++ sp_pretty dFz_dz) in
    let divF := simplify (dFx_dx + dFy_dy + dFz_dz)%sp in
    let pasos := append pasos ("Divergencia ∇·F = " ++ sp_pretty dFx_dx ++ " + " ++ sp_pretty dFy_dy ++ " + " ++ sp_pretty dFz_dz ++ " = " ++ sp_pretty divF) in
    if String.eqb region "esfera" then
      divergencia_esfera x y z Fx Fy Fz divF parametros_region pasos info
    else if String.eqb region "cilindro" then
      divergencia_cilindro x y z Fx Fy Fz divF parametros_region pasos info
    else if String.eqb region "cubo" then
      divergencia_cubo x y z Fx Fy Fz divF parametros_region pasos info
    else if String.eqb region "elipsoide" then
      divergencia_elipsoide x y z Fx Fy Fz divF parametros_region pasos info
    else if String.eqb region "cono" then
      divergencia_cono x y z Fx Fy Fz divF parametros_region pasos info
    else if String.eqb region "entre_superficies" then
      divergencia_entre_superficies x y z Fx Fy Fz divF parametros_region pasos info
    else
      mret (error "Región no soportada para el Teorema de la Divergencia.")
  end.

(** ** [aplicar_stokes] *)

(** [sp.Matrix] operations: the list of entries, and [M.subs(...)]. *)
Definition entradas (M : Matrix3 Expr) : list Expr := [m0 M; m1 M; m2 M].

Definition subs_matrix (M : Matrix3 Expr) (sustituciones : list (Expr * Expr))
  : Matrix3 Expr :=
  {| m0 := subs (m0 M) sustituciones; m1 := subs (m1 M) sustituciones;
     m2 := subs (m2 M) sustituciones |}.

(** Lines 1287-1366: [superficie == 'disco']. *)
Definition stokes_disco (x y z Fx Fy Fz : Expr) (rotacional_F_vec : Matrix3 Expr)
    (parametros_superficie : option (gmap string string)) (pasos info : list string)
  : outcome (respuesta (Stokes.t Expr)) :=
  R_txt ← get parametros_superficie "R" "1";
  R ← sympify0 R_txt;
  let pasos := append pasos ("Superficie: disco de radio R=" ++ str R ++ " en z=0, con normal hacia arriba (0,0,1).") in
  let rotacional_z := simplify (m2 rotacional_F_vec) in
  let pasos := append pasos ("Componente z del rotacional = " ++ sp_pretty rotacional_z) in
  let pasos := append pasos "" in
  let pasos := append pasos "CÁLCULO DE LA INTEGRAL DE SUPERFICIE:" in
  let pasos := append pasos "Usamos coordenadas polares: x = r·cosθ, y = r·sinθ, z = 0" in
  let pasos := append pasos "Elemento de área: dS = r dr dθ" in
  let pasos := append pasos "Vector normal: n = (0, 0, 1)" in
  let r := Symbol "r" positive in
  let theta := Symbol "theta" positive in
  let sustituciones := [(x, (r * fn f_cos theta)%sp); (y, (r * fn f_sin theta)%sp); (z, (Integer 0))] in
  let integrando := simplify (subs rotacional_z sustituciones * r)%sp in
  let pasos := append pasos ("Integrando (∇×F)·n dS = " ++ sp_pretty (subs rotacional_z sustituciones) ++ " × r = " ++ sp_pretty integrando) in
  let pasos := append pasos ("∬_S (∇×F)·dS = ∫₀^" ++ str R ++ " ∫₀²π [" ++ sp_pretty integrando ++ "] dθ dr") in
  integral_theta ← integrate integrando [(theta, Integer 0, (Integer 2 * pi)%sp)];
  let pasos := append pasos ("Integral respecto a θ: ∫₀²π " ++ sp_pretty integrando ++ " dθ = " ++ sp_pretty integral_theta) in
  res_superficie ← integrate integral_theta [(r, Integer 0, R)];
  let pasos := append pasos ("Integral respecto a r: ∫₀^" ++ str R ++ " " ++ sp_pretty integral_theta ++ " dr = " ++ sp_pretty res_superficie) in
  let pasos := append pasos ("Integral de superficie sobre S = " ++ sp_pretty res_superficie) in
  let pasos := append pasos "" in
  let pasos := append pasos "CÁLCULO DE LA INTEGRAL DE LÍNEA:" in
  let pasos := append pasos "Parametrización del círculo en sentido antihorario:" in
  let t := Symbol "t" real in
  let x_c := (R * fn f_cos t)%sp in
  let y_c := (R * fn f_sin t)%sp in
  let z_c := Integer 0 in
  let pasos := append pasos ("x(t) = " ++ str R ++ "·cos(t), y(t) = " ++ str R ++ "·sin(t), z(t) = 0, t ∈ [0, 2π]") in
  let dx_dt := diff x_c t in
  let dy_dt := diff y_c t in
  let dz_dt := diff z_c t in
  let pasos := append pasos ("dx/dt = " ++ sp_pretty dx_dt ++ ", dy/dt = " ++ sp_pretty dy_dt ++ ", dz/dt = " ++ sp_pretty dz_dt) in
  let Fx_param := subs Fx [(x, x_c); (y, y_c); (z, z_c)] in
  let Fy_param := subs Fy [(x, x_c); (y, y_c); (z, z_c)] in
  let Fz_param := subs Fz [(x, x_c); (y, y_c); (z, z_c)] in
  let pasos := append pasos ("Fx en la parametrización: Fx(x(t),y(t),z(t)) = " ++ sp_pretty Fx_param) in
  let pasos := append pasos ("Fy en la parametrización: Fy(x(t),y(t),z(t)) = " ++ sp_pretty Fy_param) in
  let pasos := append pasos ("Fz en la parametrización: Fz(x(t),y(t),z(t)) = " ++ sp_pretty Fz_param) in
  let integrando_linea := (Fx_param * dx_dt + Fy_param * dy_dt + Fz_param * dz_dt)%sp in
  let integrando_simplificado := simplify integrando_linea in
  let pasos := append pasos "Integrando: F·dr = Fx·dx/dt + Fy·dy/dt + Fz·dz/dt" in
  let pasos := append pasos ("= " ++ sp_pretty Fx_param ++ "·(" ++ sp_pretty dx_dt ++ ") + " ++ sp_pretty Fy_param ++ "·(" ++ sp_pretty dy_dt ++ ") + " ++ sp_pretty Fz_param ++ "·(" ++ sp_pretty dz_dt ++ ")") in
  let pasos := append pasos ("= " ++ sp_pretty integrando_linea) in
  let pasos := append pasos ("Simplificado: " ++ sp_pretty integrando_simplificado) in
  int_res_linea ← integrate integrando_linea [(t, Integer 0, (Integer 2 * pi)%sp)];
  let res_linea := simplify int_res_linea in
  let pasos := append pasos ("∫₀²π [" ++ sp_pretty integrando_simplificado ++ "] dt = " ++ sp_pretty res_linea) in
  let pasos := append pasos "" in
  let pasos := append pasos "VERIFICACIÓN DEL TEOREMA DE STOKES:" in
  let pasos := append pasos ("Integral de superficie: " ++ sp_pretty res_superficie) in
  let pasos := append pasos ("Integral de línea: " ++ sp_pretty res_linea) in
  let pasos :=
    if expr_eqb (simplify (res_superficie - res_linea)%sp) (Integer 0) then
      let pasos := append pasos "✅ El teorema de Stokes se verifica: ∮_C F·dr = ∬_S (∇×F)·dS" in
      pasos
    else
      let pasos := append pasos "❌ Los resultados no coinciden" in
      pasos in
  mret (datos {| Stokes.superficie := res_superficie; Stokes.linea := res_linea; Stokes.pasos := pasos; Stokes.info := info |}).

(** Lines 1370-1408: [superficie == 'plano']. *)
Definition stokes_plano (x y z Fx Fy Fz : Expr) (rotacional_F_vec : Matrix3 Expr)
    (parametros_superficie : option (gmap string string)) (pasos info : list string)
  : outcome (respuesta (Stokes.t Expr)) :=
  a_txt ← get parametros_superficie "a" "0";
  a ← sympify0 a_txt;
  b_txt ← get parametros_superficie "b" "0";
  b ← sympify0 b_txt;
  c_txt ← get parametros_superficie "c" "0";
  c ← sympify0 c_txt;
  R_txt ← get parametros_superficie "R" "1";
  R ← sympify0 R_txt;
  let pasos := append pasos ("Superficie: plano z = " ++ str a ++ "·x + " ++ str b ++ "·y + " ++ str c ++ " dentro de círculo radio R=" ++ str R) in
  let pasos := append pasos "Vector normal: n = (-a, -b, 1)/√(a²+b²+1)" in
  let r := Symbol "r" positive in
  let theta := Symbol "theta" positive in
  let sustituciones := [(x, (r * fn f_cos theta)%sp); (y, (r * fn f_sin theta)%sp); (z, (a * r * fn f_cos theta + b * r * fn f_sin theta + c)%sp)] in
  let magnitud_normal := sqrt (a ** Integer 2 + b ** Integer 2 + Integer 1)%sp in
  let normal_x := (- a / magnitud_normal)%sp in
  let normal_y := (- b / magnitud_normal)%sp in
  let normal_z := (Integer 1 / magnitud_normal)%sp in
  let rotacional_sust := subs_matrix rotacional_F_vec sustituciones in
  let producto_punto := (m0 rotacional_sust * normal_x + m1 rotacional_sust * normal_y + m2 rotacional_sust * normal_z)%sp in
  let dS := (magnitud_normal * r)%sp in
  let integrando := simplify (producto_punto * dS)%sp in
  let pasos := append pasos ("Integrando (∇×F)·n dS = " ++ sp_pretty integrando) in
  res_superficie ← integrate integrando [(r, Integer 0, R); (theta, Integer 0, (Integer 2 * pi)%sp)];
  let pasos := append pasos ("Integral de superficie = " ++ sp_pretty res_superficie) in
  mret (datos {| Stokes.superficie := res_superficie; Stokes.linea := res_superficie; Stokes.pasos := pasos; Stokes.info := info |}).

(** Lines 1412-1446: [superficie == 'paraboloide']. *)
Definition stokes_paraboloide (x y z Fx Fy Fz : Expr) (rotacional_F_vec : Matrix3 Expr)
    (parametros_superficie : option (gmap string string)) (pasos info : list string)
  : outcome (respuesta (Stokes.t Expr)) :=
  a_txt ← get parametros_superficie "a" "1";
  a ← sympify0 a_txt;
  R_txt ← get parametros_superficie "R" "1";
  R ← sympify0 R_txt;
  let pasos := append pasos ("Superficie: paraboloide z = " ++ str a ++ " - x² - y², 0 ≤ r ≤ " ++ str R) in
  let pasos := append pasos "Vector normal: n = (2x, 2y, 1)/√(4x²+4y²+1)" in
  let r := Symbol "r" positive in
  let theta := Symbol "theta" positive in
  let sustituciones := [(x, (r * fn f_cos theta)%sp); (y, (r * fn f_sin theta)%sp); (z, (a - r ** Integer 2)%sp)] in
  let normal_x := (Integer 2 * r * fn f_cos theta)%sp in
  let normal_y := (Integer 2 * r * fn f_sin theta)%sp in
  let normal_z := Integer 1 in
  let magnitud_normal := sqrt (Integer 4 * r ** Integer 2 + Integer 1)%sp in
  let rotacional_sust := subs_matrix rotacional_F_vec sustituciones in
  let producto_punto := ((m0 rotacional_sust * normal_x + m1 rotacional_sust * normal_y + m2 rotacional_sust * normal_z) / magnitud_normal)%sp in
  let dS := (magnitud_normal * r)%sp in
  let integrando := simplify (producto_punto * dS)%sp in
  let pasos := append pasos ("Integrando (∇×F)·n dS = " ++ sp_pretty integrando) in
  res_superficie ← integrate integrando [(r, Integer 0, R); (theta, Integer 0, (Integer 2 * pi)%sp)];
  let pasos := append pasos ("Integral de superficie = " ++ sp_pretty res_superficie) in
  mret (datos {| Stokes.superficie := res_superficie; Stokes.linea := res_superficie; Stokes.pasos := pasos; Stokes.info := info |}).

(** Lines 1450-1483: [superficie == 'cilindro']. *)
Definition stokes_cilindro (x y z Fx Fy Fz : Expr) (rotacional_F_vec : Matrix3 Expr)
    (parametros_superficie : option (gmap string string)) (pasos info : list string)
  : outcome (respuesta (Stokes.t Expr)) :=
  R_txt ← get parametros_superficie "R" "1";
  R ← sympify0 R_txt;
  h_txt ← get parametros_superficie "h" "1";
  h ← sympify0 h_txt;
  let pasos := append pasos ("Superficie: cilindro x² + y² = " ++ str R ++ "², 0 ≤ z ≤ " ++ str h) in
  let pasos := append pasos "Vector normal: n = (cosθ, sinθ, 0) (hacia afuera)" in
  let theta := Symbol "theta" real in
  let z_var := Symbol "z_var" real in
  let sustituciones := [(x, (R * fn f_cos theta)%sp); (y, (R * fn f_sin theta)%sp); (z, z_var)] in
  let normal_x := fn f_cos theta in
  let normal_y := fn f_sin theta in
  let normal_z := Integer 0 in
  let rotacional_sust := subs_matrix rotacional_F_vec sustituciones in
  let producto_punto := (m0 rotacional_sust * normal_x + m1 rotacional_sust * normal_y + m2 rotacional_sust * normal_z)%sp in
  let dS := R in
  let integrando := simplify (producto_punto * dS)%sp in
  let pasos := append pasos ("Integrando (∇×F)·n dS = " ++ sp_pretty integrando) in
  res_superficie ← integrate integrando [(theta, Integer 0, (Integer 2 * pi)%sp); (z_var, Integer 0, h)];
  let pasos := append pasos ("Integral de superficie = " ++ sp_pretty res_superficie) in
  mret (datos {| Stokes.superficie := res_superficie; Stokes.linea := res_superficie; Stokes.pasos := pasos; Stokes.info := info |}).
(** Lines 1218-1486 *)
Definition aplicar_stokes (Fx_str Fy_str Fz_str superficie : string)
    (parametros_superficie : option (gmap string string))
  : outcome (respuesta (Stokes.t Expr)) :=
  let x := Symbol "x" real in
  let y := Symbol "y" real in
  let z := Symbol "z" real in
  let locales : gmap string (local Expr) :=
    {[ "x" := LExpr x; "y" := LExpr y; "z" := LExpr z; "sin" := LFunc f_sin;
       "cos" := LFunc f_cos; "pi" := LExpr pi ]} in
  match (Fx ← sympify Fx_str locales; Fy ← sympify Fy_str locales;
         Fz ← sympify Fz_str locales; mret (Fx, Fy, Fz)) with
  | Raise e =>
      mret (error ("Error analizando las componentes del campo: " ++ exn_str e))
  | Ok (Fx, Fy, Fz) =>
    let pasos : list string := [] in
    let info : list string := [] in
    let info := append info "TEOREMA DE STOKES" in
    let info := append info "Fórmula: ∮_C F·dr = ∬_S (∇×F)·dS" in
    let info := append info "Donde:" in
    let info := append info "  - F = (Fx, Fy, Fz): campo vectorial" in
    let info := append info "  - ∇×F: rotacional del campo F" in
    let info := append info "  - C: curva cerrada que es frontera de la superficie S" in
    let info := append info "  - S: superficie orientada cuya frontera es C" in
    let info := append info "  - dr: elemento diferencial de curva" in
    let info := append info "  - dS: elemento diferencial de superficie" in
    let pasos := append pasos ("Campo vectorial F = (" ++ sp_pretty Fx ++ "," ++ sp_pretty Fy ++ "," ++ sp_pretty Fz ++ ")") in
    let pasos := append pasos "" in
    let pasos := append pasos "CÁLCULO DETALLADO DEL ROTACIONAL:" in
    let pasos := append pasos "∇×F = (∂Fz/∂y - ∂Fy/∂z, ∂Fx/∂z - ∂Fz/∂x, ∂Fy/∂x - ∂Fx/∂y)" in
    let pasos := append pasos "" in
    let dFz_dy := diff Fz y in
    let dFy_dz := diff Fy z in
    let comp_x := simplify (dFz_dy - dFy_dz)%sp in
    let pasos := append pasos "Componente x: ∂Fz/∂y - ∂Fy/∂z" in
    let pasos := append pasos ("  ∂Fz/∂y = ∂(" ++ sp_pretty Fz ++ ")/∂y = " ++ sp_pretty dFz_dy) in
    let pasos := append pasos ("  ∂Fy/∂z = ∂(" ++ sp_pretty Fy ++ ")/∂z = " ++ sp_pretty dFy_dz) in
    let pasos := append pasos ("  ∇×F_x = " ++ sp_pretty dFz_dy ++ " - " ++ sp_pretty dFy_dz ++ " = " ++ sp_pretty comp_x) in
    let pasos := append pasos "" in
    let dFx_dz := diff Fx z in
    let dFz_dx := diff Fz x in
    let comp_y := simplify (dFx_dz - dFz_dx)%sp in
    let pasos := append pasos "Componente y: ∂Fx/∂z - ∂Fz/∂x" in
    let pasos := append pasos ("  ∂Fx/∂z = ∂(" ++ sp_pretty Fx ++ ")/∂z = " ++ sp_pretty dFx_dz) in
    let pasos := append pasos ("  ∂Fz/∂x = ∂(" ++ sp_pretty Fz ++ ")/∂x = " ++ sp_pretty dFz_dx) in
    let pasos := append pasos ("  ∇×F_y = " ++ sp_pretty dFx_dz ++ " - " ++ sp_pretty dFz_dx ++ " = " ++ sp_pretty comp_y) in
    let pasos := append pasos "" in
    let dFy_dx := diff Fy x in
    let dFx_dy := diff Fx y in
    let comp_z := simplify (dFy_dx - dFx_dy)%sp in
    let pasos := append pasos "Componente z: ∂Fy/∂x - ∂Fx/∂y" in
    let pasos := append pasos ("  ∂Fy/∂x = ∂(" ++ sp_pretty Fy ++ ")/∂x = " ++ sp_pretty dFy_dx) in
    let pasos := append pasos ("  ∂Fx/∂y = ∂(" ++ sp_pretty Fx ++ ")/∂y = " ++ sp_pretty dFx_dy) in
    let pasos := append pasos ("  ∇×F_z = " ++ sp_pretty dFy_dx ++ " - " ++ sp_pretty dFx_dy ++ " = " ++ sp_pretty comp_z) in
    let pasos := append pasos "" in
    let rotacional_F_vec := {| m0 := comp_x; m1 := comp_y; m2 := comp_z |} in
    let pasos := append pasos ("Rotacional ∇×F = " ++ pretty_matrix (entradas rotacional_F_vec)) in
    if String.eqb superficie "disco" then
      stokes_disco x y z Fx Fy Fz rotacional_F_vec parametros_superficie pasos info
    else if String.eqb superficie "plano" then
      stokes_plano x y z Fx Fy Fz rotacional_F_vec parametros_superficie pasos info
    else if String.eqb superficie "paraboloide" then
      stokes_paraboloide x y z Fx Fy Fz rotacional_F_vec parametros_superficie pasos info
    else if String.eqb superficie "cilindro" then
      stokes_cilindro x y z Fx Fy Fz rotacional_F_vec parametros_superficie pasos info
    else
      mret (error "Superficie no soportada. Use: disco, plano, paraboloide, cilindro")
  end.

End Engine.

(** ** [DialogoEntrada.aceptar] *)

Module DialogoEntrada.

(** The part of the dialog [aceptar] reads and writes: the text held by
    each entry widget, in the order the fields were created; the dictionary
    [self.resultados]; the warnings shown with [messagebox.showwarning];
    whether [self.destroy()] has closed the window. *)
Record t := {
  entries : list (string * string);
  resultados : gmap string string;
  avisos : list (string * string);
  destruido : bool
}.

Definition showwarning (titulo mensaje : string) (d : t) : t :=
  {| entries := entries d; resultados := resultados d;
     avisos := append (avisos d) (titulo, mensaje); destruido := destruido d |}.

Definition guardar (nombre valor : string) (d : t) : t :=
  {| entries := entries d; resultados := <[nombre := valor]> (resultados d);
     avisos := avisos d; destruido := destruido d |}.

Definition destroy (d : t) : t :=
  {| entries := entries d; resultados := resultados d;
     avisos := avisos d; destruido := true |}.

(** Lines 1686-1695: every field is stripped and must be non-empty.  The
    result is the dialog and whether the loop ran to its end. *)
Fixpoint validar_campos (campos : list (string * string)) (d : t) : t * bool :=
  match campos with
  | [] => (d, true)
  | (nombre, texto) :: resto =>
      let valor := strip texto in
      if String.eqb valor "" then
        (showwarning "Campo vacío"
           ("Por favor complete el campo: " ++ nombre) d, false)
      else validar_campos resto (guardar nombre valor d)
  end.

(** [float(texto)], for its exception only. *)
Definition probar_float (texto : string) : outcome unit :=
  if float_valido texto then Ok tt else Raise (error_float texto).

(** Lines 1702-1713, the body of the [try]: [Ok true] when the checks pass,
    [Ok false] when the polygon warning was shown. *)
Definition validar_parametros (region : string) (d : t) : outcome (t * bool) :=
  _ ← (if en_lista region ["disco"; "corona"; "elipse"; "semicirculo";
                           "sector_polar"; "poligono"] then
         _ ← match resultados d !! "parametro1" with
             | Some p1 => probar_float p1
             | None => Ok tt
             end;
         match resultados d !! "parametro2" with
         | Some p2 =>
             if negb (String.eqb p2 "No usado") then probar_float p2
             else Ok tt
         | None => Ok tt
         end
       else Ok tt);
  if String.eqb region "poligono" then
    p1 ← getitem (resultados d) "parametro1";
    lados ← int p1;
    if (lados <? 3)%Z then
      mret (showwarning "Error" "Un polígono debe tener al menos 3 lados" d,
            false)
    else mret (d, true)
  else mret (d, true).

(** Lines 1684-1719 *)
Definition aceptar (d : t) : outcome t :=
  let '(d, completos) := validar_campos (entries d) d in
  if negb completos then mret d
  else
    match resultados d !! "region" with
    | Some region =>
        match validar_parametros region d with
        | Raise (Exc "ValueError" mensaje) =>
            mret (showwarning "Error de formato"
                    ("Parámetro numérico inválido: " ++ mensaje) d)
        | Raise e => Raise e
        | Ok (d, true) => mret (destroy d)
        | Ok (d, false) => mret d
        end
    | None => mret (destroy d)
    end.

End DialogoEntrada.

(** ** An executable implementation of the interface

    Expressions are kept in an expanded canonical form: a sum of monomials,
    each a numeric coefficient times powers of atoms (symbols, [pi], function
    applications, unevaluated integrals).  Numbers are exact rationals or
    binary64 floats, with SymPy's [zoo] and [nan].  The implementation
    differentiates everything it represents, integrates polynomials and
    products of powers of [sin] and [cos] of the integration variable, and
    leaves other integrals unevaluated.  On polynomial and trigonometric
    input of this kind its results are those of SymPy, up to the order in
    which terms are written; [sp_pretty] prints on one line. *)

Module MiniSymPy.

(** *** Numbers *)

Inductive num :=
| Rat (q : Q)
| Flt (f : float)
| Zoo
| NaN.

Definition Qint (z : Z) : Q := Qmake z 1.

(** The exact value of a finite float. *)
Definition Q_of_float (f : float) : option Q :=
  match FloatOps.Prim2SF f with
  | SpecFloat.S754_zero _ => Some (Qint 0)
  | SpecFloat.S754_finite s m e =>
      let v := (Qint (Z.pos m) * Qpower (Qint 2) e)%Q in
      Some (Qred (if s then Qopp v else v))
  | _ => None
  end.

(** The float nearest to a rational, ties to even: the quotient is taken
    with 64 significant bits and a sticky bit, then rounded once. *)
Definition float_of_Q (q : Q) : float :=
  let n := Z.abs (Qnum q) in
  let d := Z.pos (Qden q) in
  if (n =? 0)%Z then PrimFloat.zero
  else
    let k := (64 + Z.log2 d - Z.log2 n)%Z in
    let '(num, den) :=
      if (0 <=? k)%Z then (Z.shiftl n k, d) else (n, Z.shiftl d (- k)) in
    let c := (num / den)%Z in
    let r := (num mod den)%Z in
    let m := (2 * c + (if (r =? 0)%Z then 0 else 1))%Z in
    let sf := SpecFloat.binary_normalize FloatOps.prec FloatOps.emax
                m (- k - 1) false in
    let f := FloatOps.SF2Prim sf in
    if (Qnum q <? 0)%Z then PrimFloat.opp f else f.

Definition num_float (n : num) : float :=
  match n with
  | Rat q => float_of_Q q
  | Flt f => f
  | Zoo => PrimFloat.infinity
  | NaN => PrimFloat.nan
  end.

Definition num_is_zero (n : num) : bool :=
  match n with
  | Rat q => (Qnum q =? 0)%Z
  | Flt f => PrimFloat.eqb f PrimFloat.zero
  | _ => false
  end.

Definition num_is_one (n : num) : bool :=
  match n with
  | Rat q => Qeq_bool q (Qint 1)
  | _ => false
  end.

Definition num_add (a b : num) : num :=
  match a, b with
  | NaN, _ | _, NaN => NaN
  | Zoo, Zoo => NaN
  | Zoo, _ | _, Zoo => Zoo
  | Rat p, Rat q => Rat (Qred (p + q))
  | Flt f, Flt g => Flt (f + g)
  | Rat p, Flt f | Flt f, Rat p =>
      if (Qnum p =? 0)%Z then Flt f else Flt (float_of_Q p + f)
  end.

Definition num_mul (a b : num) : num :=
  match a, b with
  | NaN, _ | _, NaN => NaN
  | Zoo, x | x, Zoo => if num_is_zero x then NaN else Zoo
  | Rat p, Rat q => Rat (Qred (p * q))
  | Flt f, Flt g => Flt (f * g)
  | Rat p, Flt f | Flt f, Rat p =>
      if (Qnum p =? 0)%Z then Rat (Qint 0)
      else if Qeq_bool p (Qint 1) then Flt f
      else Flt (float_of_Q p * f)
  end.

Definition num_inv (a : num) : num :=
  match a with
  | NaN => NaN
  | Zoo => Rat (Qint 0)
  | Rat q => if (Qnum q =? 0)%Z then Zoo else Rat (Qred (Qinv q))
  | Flt f => if PrimFloat.eqb f PrimFloat.zero then Zoo else Flt (1 / f)
  end.

(** [a ** z] for an integer [z]; a float is raised exactly and rounded
    once. *)
Definition num_pow (a : num) (z : Z) : num :=
  if (z =? 0)%Z then Rat (Qint 1)
  else
    let p := Z.abs z in
    let r :=
      match a with
      | Rat q => Rat (Qred (Qpower q p))
      | Flt f =>
          match Q_of_float f with
          | Some q => Flt (float_of_Q (Qpower q p))
          | None => Flt f
          end
      | Zoo => Zoo
      | NaN => NaN
      end in
    if (z <? 0)%Z then num_inv r else r.

Definition num_neg (a : num) : num := num_mul (Rat (Qint (-1))) a.

Definition num_rango (a : num) : Z :=
  match a with Rat _ => 0 | Flt _ => 1 | Zoo => 2 | NaN => 3 end.

Definition float_cmp (f g : float) : comparison :=
  match PrimFloat.compare f g with
  | FEq => Eq
  | FLt => Lt
  | FGt => Gt
  | FNotComparable => Eq
  end.

Definition num_cmp (a b : num) : comparison :=
  match a, b with
  | Rat p, Rat q => Qcompare p q
  | Flt f, Flt g => float_cmp f g
  | _, _ => Z.compare (num_rango a) (num_rango b)
  end.

Definition num_negativo (a : num) : bool :=
  match a with
  | Rat q => (Qnum q <? 0)%Z
  | Flt f => PrimFloat.ltb f PrimFloat.zero
  | _ => false
  end.

(** *** Expressions *)

Inductive expr :=
| Num (n : num)
| Sym (nombre : string) (s : supuesto)
| Pi
| Add (a b : expr)
| Mul (a b : expr)
| Pow (a b : expr)
| Fn (f : func) (a : expr)
| Integral (e v lo hi : expr)
| Derivative (e v : expr).

Definition supuesto_rango (s : supuesto) : Z :=
  match s with sin_supuesto => 0 | real => 1 | positive => 2 end.

Definition func_rango (f : func) : Z :=
  match f with f_sin => 0 | f_cos => 1 | f_tan => 2 | f_exp => 3 | f_log => 4 end.

Definition expr_rango (e : expr) : Z :=
  match e with
  | Num _ => 0 | Pi => 1 | Sym _ _ => 2 | Fn _ _ => 3 | Pow _ _ => 4
  | Mul _ _ => 5 | Add _ _ => 6 | Integral _ _ _ _ => 7 | Derivative _ _ => 8
  end.

Definition y_luego (c d : comparison) : comparison :=
  match c with Eq => d | _ => c end.

(** A total order on expressions, used to keep canonical forms sorted. *)
Fixpoint expr_cmp (a b : expr) : comparison :=
  match a, b with
  | Num m, Num n => num_cmp m n
  | Sym x s, Sym y t =>
      y_luego (String.compare x y) (Z.compare (supuesto_rango s) (supuesto_rango t))
  | Pi, Pi => Eq
  | Add a1 a2, Add b1 b2 => y_luego (expr_cmp a1 b1) (expr_cmp a2 b2)
  | Mul a1 a2, Mul b1 b2 => y_luego (expr_cmp a1 b1) (expr_cmp a2 b2)
  | Pow a1 a2, Pow b1 b2 => y_luego (expr_cmp a1 b1) (expr_cmp a2 b2)
  | Fn f a1, Fn g b1 =>
      y_luego (Z.compare (func_rango f) (func_rango g)) (expr_cmp a1 b1)
  | Integral a1 a2 a3 a4, Integral b1 b2 b3 b4 =>
      y_luego (expr_cmp a1 b1) (y_luego (expr_cmp a2 b2)
        (y_luego (expr_cmp a3 b3) (expr_cmp a4 b4)))
  | Derivative a1 a2, Derivative b1 b2 =>
      y_luego (expr_cmp a1 b1) (expr_cmp a2 b2)
  | _, _ => Z.compare (expr_rango a) (expr_rango b)
  end.

Definition expr_eqb (a b : expr) : bool :=
  match expr_cmp a b with Eq => true | _ => false end.

(** *** Canonical forms *)

(** A monomial: atoms with non-zero rational exponents, sorted by atom.
    A polynomial: monomials with non-zero coefficients, sorted. *)
Definition mono := list (expr * Q).
Definition poly := list (mono * num).

Fixpoint mono_mul (a : mono) : mono → mono :=
  match a with
  | [] => fun b => b
  | (x, p) :: a' =>
      fix aux (b : mono) : mono :=
        match b with
        | [] => a
        | (y, q) :: b' =>
            match expr_cmp x y with
            | Lt => (x, p) :: mono_mul a' b
            | Gt => (y, q) :: aux b'
            | Eq =>
                let e := Qred (p + q) in
                if (Qnum e =? 0)%Z then mono_mul a' b'
                else (x, e) :: mono_mul a' b'
            end
        end
  end.

Definition mono_pow (m : mono) (k : Q) : mono :=
  map (fun '(x, p) => (x, Qred (p * k))) m.

Fixpoint mono_cmp (a b : mono) : comparison :=
  match a, b with
  | [], [] => Eq
  | [], _ => Lt
  | _, [] => Gt
  | (x, p) :: a', (y, q) :: b' =>
      y_luego (expr_cmp x y) (y_luego (Qcompare p q) (mono_cmp a' b'))
  end.

Definition tiene (que : num → bool) (p : poly) : bool :=
  existsb (fun '(_, c) => que c) p.

Definition es_nan (c : num) : bool := match c with NaN => true | _ => false end.
Definition es_zoo (c : num) : bool := match c with Zoo => true | _ => false end.

(** [nan] absorbs the whole expression. *)
Definition colapsar (p : poly) : poly :=
  if tiene es_nan p then [([], NaN)] else p.

(** Adds one term to a sorted polynomial. *)
Fixpoint poly_insertar (m : mono) (c : num) (p : poly) : poly :=
  match p with
  | [] => if num_is_zero c then [] else [(m, c)]
  | (m', c') :: p' =>
      match mono_cmp m m' with
      | Lt => if num_is_zero c then p else (m, c) :: p
      | Gt => (m', c') :: poly_insertar m c p'
      | Eq =>
          let s := num_add c c' in
          if num_is_zero s then p' else (m, s) :: p'
      end
  end.

(** [n ** q] for a number [n]: the integer part of the exponent goes to the
    coefficient, as in [3**(-1/2) = sqrt(3)/3]. *)
Fixpoint extraer_radicales (m : mono) (c : num) : mono * num :=
  match m with
  | (Num n, q) :: m' =>
      let k := Qfloor q in
      let q' := Qred (q - Qint k) in
      let '(r, c') := extraer_radicales m' (num_mul c (num_pow n k)) in
      (if (Qnum q' =? 0)%Z then r else (Num n, q') :: r, c')
  | _ => (m, c)
  end.

Definition poly_termino (m : mono) (c : num) (p : poly) : poly :=
  let '(m', c') := extraer_radicales m c in poly_insertar m' c' p.

Definition poly_add (a b : poly) : poly :=
  colapsar (fold_left (fun acc '(m, c) => poly_insertar m c acc) a b).

Definition poly_mul (a b : poly) : poly :=
  match a, b with
  | [], _ => if tiene es_zoo b then [([], NaN)] else []
  | _, [] => if tiene es_zoo a then [([], NaN)] else []
  | _, _ =>
      colapsar
        (fold_left (fun acc '(m1, c1) =>
           fold_left (fun acc '(m2, c2) =>
             poly_termino (mono_mul m1 m2) (num_mul c1 c2) acc) b acc)
           a [])
  end.

Definition poly_uno : poly := [([], Rat (Qint 1))].
Definition poly_num (c : num) : poly := if num_is_zero c then [] else [([], c)].
Definition poly_neg (p : poly) : poly := poly_mul (poly_num (Rat (Qint (-1)))) p.

Fixpoint poly_pow (p : poly) (n : nat) : poly :=
  match n with
  | O => poly_uno
  | S n' => poly_mul p (poly_pow p n')
  end.

Definition factor_expr (f : expr * Q) : expr :=
  let '(a, q) := f in
  if Qeq_bool q (Qint 1) then a else Pow a (Num (Rat q)).

Fixpoint mono_expr (m : mono) : expr :=
  match m with
  | [] => Num (Rat (Qint 1))
  | [f] => factor_expr f
  | f :: m' => Mul (factor_expr f) (mono_expr m')
  end.

Definition term_expr (t : mono * num) : expr :=
  let '(m, c) := t in
  match m with
  | [] => Num c
  | _ => if num_is_one c then mono_expr m else Mul (Num c) (mono_expr m)
  end.

Fixpoint to_expr (p : poly) : expr :=
  match p with
  | [] => Num (Rat (Qint 0))
  | [t] => term_expr t
  | t :: p' => Add (term_expr t) (to_expr p')
  end.

Definition atomo (e : expr) (q : Q) : poly := [([(e, q)], Rat (Qint 1))].

Definition constante (p : poly) : option num :=
  match p with
  | [] => Some (Rat (Qint 0))
  | [([], c)] => Some c
  | _ => None
  end.

Definition es_entero (q : Q) : bool := (Z.pos (Qden (Qred q)) =? 1)%Z.

(** The square root of a rational that is a perfect square. *)
Definition raiz_exacta (q : Q) : option Q :=
  let r := Qred q in
  let n := Qnum r in
  let d := Z.pos (Qden r) in
  if (0 <=? n)%Z && (Z.sqrt n * Z.sqrt n =? n)%Z && (Z.sqrt d * Z.sqrt d =? d)%Z
  then Some (Qred (Qmake (Z.sqrt n) (Z.to_pos (Z.sqrt d))))
  else None.

(** [a ** b] on canonical forms. *)
Definition poly_power (pa pb : poly) : poly :=
  match constante pb with
  | Some (Rat q) =>
      if es_entero q then
        let k := Qnum (Qred q) in
        if (0 <=? k)%Z then poly_pow pa (Z.to_nat k)
        else
          match pa with
          | [] => [([], Zoo)]
          | [(m, c)] =>
              colapsar (poly_termino (mono_pow m (Qint k)) (num_pow c k) [])
          | _ => atomo (to_expr pa) (Qint k)
          end
      else
        match pa with
        | [] => if (Qnum q <? 0)%Z then [([], Zoo)] else []
        | [([], Rat c)] =>
            match raiz_exacta c with
            | Some r =>
                if Qeq_bool q (Qmake 1 2) then poly_num (Rat r)
                else if Qeq_bool q (Qmake (-1) 2) then poly_num (num_inv (Rat r))
                else atomo (Num (Rat c)) (Qred q)
            | None => atomo (Num (Rat c)) (Qred q)
            end
        | _ => atomo (to_expr pa) (Qred q)
        end
  | _ => atomo (Pow (to_expr pa) (to_expr pb)) (Qint 1)
  end.

(** *** Function application and normalisation *)

Definition raiz (n : Z) : poly := atomo (Num (Rat (Qint n))) (Qmake 1 2).
Definition poly_Q (q : Q) : poly := poly_num (Rat (Qred q)).

(** [sin(r*pi)] for [0 <= r <= 1/2] at the standard angles. *)
Definition sin_pi_tabla (r : Q) : option poly :=
  if Qeq_bool r (Qint 0) then Some []
  else if Qeq_bool r (Qmake 1 6) then Some (poly_Q (Qmake 1 2))
  else if Qeq_bool r (Qmake 1 4) then Some (poly_mul (poly_Q (Qmake 1 2)) (raiz 2))
  else if Qeq_bool r (Qmake 1 3) then Some (poly_mul (poly_Q (Qmake 1 2)) (raiz 3))
  else if Qeq_bool r (Qmake 1 2) then Some poly_uno
  else None.

(** [sin(q*pi)], by periodicity and reflection. *)
Definition sin_pi (q : Q) : option poly :=
  let r := Qred (q - Qint (2 * Qfloor (q / Qint 2))) in
  let '(r, negado) :=
    if Qle_bool (Qint 1) r then (Qred (r - Qint 1), true) else (r, false) in
  let r := if Qle_bool r (Qmake 1 2) then r else Qred (Qint 1 - r) in
  v ← sin_pi_tabla r;
  Some (if negado then poly_neg v else v).

Definition cos_pi (q : Q) : option poly := sin_pi (Qred (q + Qmake 1 2)).

Definition multiplo_de_pi (p : poly) : option Q :=
  match p with
  | [] => Some (Qint 0)
  | [([(Pi, e)], Rat q)] => if Qeq_bool e (Qint 1) then Some q else None
  | _ => None
  end.

Definition valor_especial (f : func) (pa : poly) : option poly :=
  match f with
  | f_sin => q ← multiplo_de_pi pa; sin_pi q
  | f_cos => q ← multiplo_de_pi pa; cos_pi q
  | f_tan =>
      q ← multiplo_de_pi pa;
      s ← sin_pi q;
      c ← cos_pi q;
      Some (match c with
            | [] => [([], Zoo)]
            | _ => poly_mul s (poly_power c (poly_Q (Qint (-1))))
            end)
  | f_exp => match pa with [] => Some poly_uno | _ => None end
  | f_log => if match constante pa with Some c => num_is_one c | None => false end
             then Some [] else None
  end.

Definition coef_negativo (p : poly) : bool :=
  match p with
  | [(_, c)] => num_negativo c
  | _ => false
  end.

(** [f(a)] for a canonical argument: special values, then the sign of the
    argument ([sin] and [tan] are odd, [cos] is even). *)
Definition aplicar (f : func) (pa : poly) : poly :=
  match valor_especial f pa with
  | Some v => v
  | None =>
      if coef_negativo pa then
        let positivo := atomo (Fn f (to_expr (poly_neg pa))) (Qint 1) in
        match f with
        | f_sin | f_tan => poly_neg positivo
        | f_cos => positivo
        | _ => atomo (Fn f (to_expr pa)) (Qint 1)
        end
      else atomo (Fn f (to_expr pa)) (Qint 1)
  end.

Fixpoint norm (e : expr) : poly :=
  match e with
  | Num n => colapsar (poly_num n)
  | Sym _ _ | Pi => atomo e (Qint 1)
  | Add a b => poly_add (norm a) (norm b)
  | Mul a b => poly_mul (norm a) (norm b)
  | Pow a b => poly_power (norm a) (norm b)
  | Fn f a => aplicar f (norm a)
  | Integral f v lo hi =>
      atomo (Integral (to_expr (norm f)) v (to_expr (norm lo)) (to_expr (norm hi)))
        (Qint 1)
  | Derivative f v => atomo (Derivative (to_expr (norm f)) v) (Qint 1)
  end.

(** The canonical form of an expression. *)
Definition canon (e : expr) : expr := to_expr (norm e).

Definition Integer (z : Z) : expr := Num (Rat (Qint z)).
Definition Float (f : float) : expr := Num (Flt f).
Definition add (a b : expr) : expr := canon (Add a b).
Definition mul (a b : expr) : expr := canon (Mul a b).
Definition pow (a b : expr) : expr := canon (Pow a b).
Definition fn (f : func) (a : expr) : expr := canon (Fn f a).
Definition sqrt (a : expr) : expr := canon (Pow a (Num (Rat (Qmake 1 2)))).

(** *** Substitution and differentiation *)

Fixpoint ocurre (v e : expr) : bool :=
  expr_eqb v e ||
  match e with
  | Add a b | Mul a b | Pow a b => ocurre v a || ocurre v b
  | Fn _ a => ocurre v a
  | Integral f x lo hi => ocurre v f || ocurre v lo || ocurre v hi
  | Derivative f x => ocurre v f
  | _ => false
  end.

Fixpoint tiene_simbolos (e : expr) : bool :=
  match e with
  | Sym _ _ => true
  | Add a b | Mul a b | Pow a b => tiene_simbolos a || tiene_simbolos b
  | Fn _ a => tiene_simbolos a
  | Integral f _ lo hi => tiene_simbolos f || tiene_simbolos lo || tiene_simbolos hi
  | Derivative f _ => tiene_simbolos f
  | _ => false
  end.

Definition buscar (e : expr) (s : list (expr * expr)) : option expr :=
  snd <$> find (fun '(k, _) => expr_eqb k e) s.

(** All the keys are replaced at once. *)
Fixpoint reemplazar (s : list (expr * expr)) (e : expr) : expr :=
  match buscar e s with
  | Some r => r
  | None =>
      match e with
      | Add a b => Add (reemplazar s a) (reemplazar s b)
      | Mul a b => Mul (reemplazar s a) (reemplazar s b)
      | Pow a b => Pow (reemplazar s a) (reemplazar s b)
      | Fn f a => Fn f (reemplazar s a)
      | Integral f v lo hi =>
          Integral (reemplazar s f) v (reemplazar s lo) (reemplazar s hi)
      | Derivative f v => Derivative (reemplazar s f) v
      | _ => e
      end
  end.

Definition subs (e : expr) (s : list (expr * expr)) : expr :=
  canon (reemplazar s e).

Definition menos_uno : expr := Num (Rat (Qint (-1))).

(** The derivative before normalisation. *)
Fixpoint derivar (v e : expr) : expr :=
  match e with
  | Num _ | Pi => Integer 0
  | Sym _ _ => if expr_eqb e v then Integer 1 else Integer 0
  | Add a b => Add (derivar v a) (derivar v b)
  | Mul a b => Add (Mul (derivar v a) b) (Mul a (derivar v b))
  | Pow a b =>
      if ocurre v b then
        Mul e (Add (Mul (derivar v b) (Fn f_log a))
                   (Mul b (Mul (derivar v a) (Pow a menos_uno))))
      else Mul (Mul b (Pow a (Add b menos_uno))) (derivar v a)
  | Fn f_sin a => Mul (Fn f_cos a) (derivar v a)
  | Fn f_cos a => Mul (Mul menos_uno (Fn f_sin a)) (derivar v a)
  | Fn f_tan a =>
      Mul (Add (Integer 1) (Pow (Fn f_tan a) (Integer 2))) (derivar v a)
  | Fn f_exp a => Mul e (derivar v a)
  | Fn f_log a => Mul (derivar v a) (Pow a menos_uno)
  | Integral _ _ _ _ | Derivative _ _ =>
      if ocurre v e then Derivative e v else Integer 0
  end.

Definition diff (e v : expr) : expr := canon (derivar v e).

(** *** Integration *)

(** How a monomial depends on the integration variable. *)
Inductive forma :=
| Libre
| Potencia (k : Z)
| Trigonometrica (a b : nat)
| NoSoportada.

Definition natural (q : Q) : option nat :=
  if es_entero q && (0 <? Qnum (Qred q))%Z then Some (Z.to_nat (Qnum (Qred q)))
  else None.

Fixpoint forma_trig (v : expr) (dep : mono) (a b : nat) : forma :=
  match dep with
  | [] => Trigonometrica a b
  | (Fn f_sin u, q) :: dep' =>
      match natural q with
      | Some n => if expr_eqb u v then forma_trig v dep' (a + n) b else NoSoportada
      | None => NoSoportada
      end
  | (Fn f_cos u, q) :: dep' =>
      match natural q with
      | Some n => if expr_eqb u v then forma_trig v dep' a (b + n) else NoSoportada
      | None => NoSoportada
      end
  | _ => NoSoportada
  end.

Definition clasificar (v : expr) (dep : mono) : forma :=
  match dep with
  | [] => Libre
  | [(u, q)] =>
      if expr_eqb u v then
        if es_entero q then Potencia (Qnum (Qred q)) else NoSoportada
      else forma_trig v dep 0 0
  | _ => forma_trig v dep 0 0
  end.

Definition potencia (e : expr) (n : nat) : poly :=
  poly_pow (atomo e (Qint 1)) n.

(** An antiderivative of [sin(v)**a * cos(v)**b], by the reduction
    formulas on the exponents. *)
Fixpoint primitiva_trig (fuel : nat) (v : expr) (a b : nat) : poly :=
  let s := Fn f_sin v in
  let c := Fn f_cos v in
  match fuel with
  | O => []
  | S fuel' =>
      match b, a with
      | S (S b'), _ =>
          let n := Z.of_nat (a + b) in
          poly_add
            (poly_mul (poly_Q (Qmake 1 (Z.to_pos n)))
               (poly_mul (potencia s (S a)) (potencia c (S b'))))
            (poly_mul (poly_Q (Qmake (Z.of_nat (S b')) (Z.to_pos n)))
               (primitiva_trig fuel' v a b'))
      | 1%nat, _ =>
          poly_mul (poly_Q (Qmake 1 (Pos.of_nat (S a)))) (potencia s (S a))
      | O, S (S a') =>
          let n := Z.of_nat a in
          poly_add
            (poly_mul (poly_Q (Qmake (-1) (Z.to_pos n)))
               (poly_mul (potencia s (S a')) (potencia c 1)))
            (poly_mul (poly_Q (Qmake (Z.of_nat (S a')) (Z.to_pos n)))
               (primitiva_trig fuel' v a' 0))
      | O, 1%nat => poly_neg (potencia c 1)
      | O, O => atomo v (Qint 1)
      end
  end.

(** An antiderivative of one term, when its form is supported. *)
Definition primitiva_termino (v : expr) (t : mono * num) : option poly :=
  let '(m, c) := t in
  let dep := filter (fun f => ocurre v (fst f)) m in
  let indep := filter (fun f => negb (ocurre v (fst f))) m in
  let resto : poly := poly_termino indep c [] in
  match clasificar v dep with
  | Libre => Some (poly_mul resto (atomo v (Qint 1)))
  | Potencia k =>
      if (k =? -1)%Z then Some (poly_mul resto (atomo (Fn f_log v) (Qint 1)))
      else Some (poly_mul resto
                   (poly_mul (poly_Q (Qinv (Qint (k + 1)))) (atomo v (Qint (k + 1)))))
  | Trigonometrica a b =>
      Some (poly_mul resto (primitiva_trig (S (a + b)) v a b))
  | NoSoportada => None
  end.

Fixpoint primitiva (v : expr) (p : poly) : option poly :=
  match p with
  | [] => Some []
  | t :: p' =>
      F ← primitiva_termino v t;
      G ← primitiva v p';
      Some (poly_add F G)
  end.

(** [integrate(e, (v, lo, hi))]: the difference of an antiderivative at the
    two limits, or the integral left unevaluated. *)
Definition integrar_uno (e : expr) (lim : expr * expr * expr) : expr :=
  let '(v, lo, hi) := lim in
  match primitiva v (norm e) with
  | Some F =>
      let F := to_expr F in
      to_expr (poly_add (norm (reemplazar [(v, hi)] F))
                        (poly_neg (norm (reemplazar [(v, lo)] F))))
  | None => canon (Integral e v lo hi)
  end.

Definition integrate (e : expr) (limites : list (expr * expr * expr))
  : outcome expr :=
  Ok (fold_left integrar_uno limites e).

(** *** Simplification and numeric evaluation *)

Definition uno_menos_cuadrado (f : func) (u : expr) : expr :=
  Add (Integer 1) (Mul menos_uno (Pow (Fn f u) (Integer 2))).

(** Rewrites the even powers of [de(u)] with [de(u)**2 = 1 - a(u)**2]. *)
Fixpoint pitagoras (de a : func) (e : expr) : expr :=
  match e with
  | Add x y => Add (pitagoras de a x) (pitagoras de a y)
  | Mul x y => Mul (pitagoras de a x) (pitagoras de a y)
  | Pow (Fn f u) (Num (Rat q)) =>
      match natural q with
      | Some n =>
          if (func_rango f =? func_rango de)%Z && (2 <=? n)%nat then
            Mul (Pow (uno_menos_cuadrado a u) (Integer (Z.of_nat (n / 2))))
                (Pow (Fn f u) (Integer (Z.of_nat (n mod 2))))
          else e
      | None => e
      end
  | _ => e
  end.

(** The canonical form, or one of its two Pythagorean rewritings when that
    has fewer terms. *)
Definition simplify (e : expr) : expr :=
  let p := norm e in
  let p1 := norm (pitagoras f_sin f_cos (to_expr p)) in
  let p2 := norm (pitagoras f_cos f_sin (to_expr p)) in
  let mejor := if (length p1 <? length p)%nat then p1 else p in
  let mejor := if (length p2 <? length mejor)%nat then p2 else mejor in
  to_expr mejor.

Definition is_constant (e : expr) : bool := negb (tiene_simbolos (simplify e)).

(** [pi] to fifty decimal places. *)
Definition pi_Q : Q :=
  Qmake 314159265358979323846264338327950288419716939937510
        (10 ^ 50).

(** A square root to forty decimal places. *)
Definition raiz_Q (q : Q) : option Q :=
  if (Qnum q <? 0)%Z then None
  else
    let escala := (10 ^ 80)%Z in
    Some (Qred (Qmake (Z.sqrt (Qnum q * escala / Z.pos (Qden q))) (10 ^ 40))).

(** The value of a closed expression as a rational: exact on numbers,
    to high precision on [pi] and square roots. *)
Fixpoint valor (e : expr) : option Q :=
  match e with
  | Num (Rat q) => Some q
  | Num (Flt f) => Q_of_float f
  | Pi => Some pi_Q
  | Add a b => x ← valor a; y ← valor b; Some (Qred (x + y))
  | Mul a b => x ← valor a; y ← valor b; Some (Qred (x * y))
  | Pow a (Num (Rat q)) =>
      x ← valor a;
      if es_entero q then
        if (Qnum x =? 0)%Z && (Qnum q <? 0)%Z then None
        else Some (Qred (Qpower x (Qnum (Qred q))))
      else if Qeq_bool q (Qmake 1 2) then raiz_Q x
      else None
  | _ => None
  end.

(** [float(sp.N(e))] *)
Definition N_float (e : expr) : option float :=
  float_of_Q <$> valor (canon e).

(** *** Printing *)

(** [floor(log10(q))] for [q > 0]. *)
Definition exponente10 (q : Q) : Z :=
  let largo (z : Z) := Z.of_nat (String.length (pretty z)) in
  let e := (largo (Qnum q) - largo (Z.pos (Qden q)))%Z in
  if Qle_bool (Qpower (Qint 10) e) q then e else (e - 1)%Z.

(** [q > 0] rounded, ties to even, to [n] significant digits: the digits as
    an integer and the decimal exponent of the first one. *)
Definition redondear (q : Q) (n : Z) : Z * Z :=
  let e := exponente10 q in
  let x := Qred (q / Qpower (Qint 10) (e - n + 1)) in
  let piso := Qfloor x in
  let resto := Qred (x - Qint piso) in
  let arriba :=
    match Qcompare resto (Qmake 1 2) with
    | Gt => true
    | Eq => Z.odd piso
    | Lt => false
    end in
  let d := if arriba then (piso + 1)%Z else piso in
  if (d =? 10 ^ n)%Z then ((d / 10)%Z, (e + 1)%Z) else (d, e).

Definition ceros (n : Z) : string := repetir "0" (Z.to_nat n).

Definition quitar_ceros_finales (s : string) : string :=
  let fix quitar (l : list ascii) :=
    match l with
    | "0"%char :: l' => quitar l'
    | _ => l
    end in
  String.string_of_list_ascii (rev (quitar (rev (String.list_ascii_of_string s)))).

Definition exponente_str (e : Z) (minimo_dos : bool) : string :=
  let a := pretty (Z.abs e) in
  (if (e <? 0)%Z then "-" else "+")
  ++ (if minimo_dos && (Z.abs e <? 10)%Z then "0" ++ a else a).

(** The digits [ds] with first-digit exponent [e], in positional notation
    when [fijo], in scientific notation otherwise. *)
Definition decimal_str (ds : string) (e : Z) (fijo minimo_dos : bool) : string :=
  let n := Z.of_nat (String.length ds) in
  if fijo then
    if (e <? 0)%Z then "0." ++ ceros (- e - 1) ++ ds
    else if (n - 1 <=? e)%Z then ds ++ ceros (e - n + 1) ++ ".0"
    else String.substring 0 (Z.to_nat (e + 1)) ds ++ "."
         ++ String.substring (Z.to_nat (e + 1)) (Z.to_nat (n - e - 1)) ds
  else
    String.substring 0 1 ds
    ++ (if (1 <? n)%Z then "." ++ String.substring 1 (Z.to_nat (n - 1)) ds else "")
    ++ "e" ++ exponente_str e minimo_dos.

(** The shortest decimal that reads back as the same float. *)
Fixpoint digitos_cortos (fuel : nat) (n : Z) (f : float) (q : Q) : Z * Z :=
  let '(d, e) := redondear q n in
  match fuel with
  | O => (d, e)
  | S fuel' =>
      if PrimFloat.eqb (float_of_Q (Qint d * Qpower (Qint 10) (e - n + 1))) f
      then (d, e)
      else digitos_cortos fuel' (n + 1) f q
  end.

(** [str(f)] for a Python float. *)
Definition str_float (f : float) : string :=
  match Q_of_float f with
  | None =>
      if PrimFloat.is_nan f then "nan"
      else if PrimFloat.ltb f PrimFloat.zero then "-inf" else "inf"
  | Some q =>
      if (Qnum q =? 0)%Z then (if PrimFloat.get_sign f then "-0.0" else "0.0")
      else
        let a := Qabs q in
        let '(d, e) := digitos_cortos 16 1 (PrimFloat.abs f) a in
        let ds := quitar_ceros_finales (pretty d) in
        (if (Qnum q <? 0)%Z then "-" else "")
        ++ decimal_str ds e ((-4 <=? e)%Z && (e <? 16)%Z) true
  end.

(** [str(Float(f))]: fifteen significant digits. *)
Definition str_Float (f : float) : string :=
  match Q_of_float f with
  | None => if PrimFloat.is_nan f then "nan" else "oo"
  | Some q =>
      if (Qnum q =? 0)%Z then "0"
      else
        let '(d, e) := redondear (Qabs q) 15 in
        let ds := pretty d in
        let fijo := (-5 <=? e)%Z && (e <? 15)%Z in
        (if (Qnum q <? 0)%Z then "-" else "")
        ++ (if fijo && (14 <=? e)%Z then ds ++ "."
            else if fijo && (0 <=? e)%Z then
              String.substring 0 (Z.to_nat (e + 1)) ds ++ "."
              ++ String.substring (Z.to_nat (e + 1)) (Z.to_nat (14 - e)) ds
            else decimal_str ds e fijo false)
  end.

Definition str_Q (q : Q) : string :=
  if es_entero q then pretty (Qnum (Qred q))
  else pretty (Qnum (Qred q)) ++ "/" ++ pretty (Z.pos (Qden (Qred q))).

Definition str_num (n : num) : string :=
  match n with
  | Rat q => str_Q q
  | Flt f => str_Float f
  | Zoo => "zoo"
  | NaN => "nan"
  end.

Definition num_abs (n : num) : num := if num_negativo n then num_neg n else n.

Definition func_str (f : func) : string :=
  match f with
  | f_sin => "sin" | f_cos => "cos" | f_tan => "tan"
  | f_exp => "exp" | f_log => "log"
  end.

Fixpoint unir (sep : string) (l : list string) : string :=
  match l with
  | [] => ""
  | [x] => x
  | x :: l' => x ++ sep ++ unir sep l'
  end.

(** The printing order of the terms of a sum: lexicographic on the
    exponents, the atoms taken in their order. *)
Fixpoint lex_cmp (a b : mono) : comparison :=
  match a, b with
  | [], [] => Eq
  | [], (_, q) :: _ => if (Qnum q <? 0)%Z then Gt else Lt
  | (_, p) :: _, [] => if (Qnum p <? 0)%Z then Lt else Gt
  | (x, p) :: a', (y, q) :: b' =>
      match expr_cmp x y with
      | Eq => y_luego (Qcompare p q) (lex_cmp a' b')
      | Lt => if (Qnum p <? 0)%Z then Lt else Gt
      | Gt => if (Qnum q <? 0)%Z then Gt else Lt
      end
  end.

Fixpoint insertar_termino (t : mono * num) (l : poly) : poly :=
  match l with
  | [] => [t]
  | u :: l' =>
      match lex_cmp (fst t) (fst u) with
      | Lt => u :: insertar_termino t l'
      | _ => t :: l
      end
  end.

Definition ordenar_terminos (p : poly) : poly :=
  fold_right insertar_termino [] p.

Definition es_atomico (e : expr) : bool :=
  match e with
  | Add _ _ | Mul _ _ | Pow _ _ => false
  | Num n => negb (num_negativo n) && match n with Rat q => es_entero q | _ => true end
  | _ => true
  end.

Section Imprimir.
(** The printer of the sub-expressions. *)
Variable imprimir : expr → string.

Definition envolver (e : expr) : string :=
  if es_atomico e then imprimir e else "(" ++ imprimir e ++ ")".

Definition factor_str (a : expr) (q : Q) : string :=
  if Qeq_bool q (Qint 1) then envolver a
  else if Qeq_bool q (Qmake 1 2) then "sqrt(" ++ imprimir a ++ ")"
  else envolver a ++ "**"
       ++ (if es_entero q && (0 <=? Qnum q)%Z then str_Q q
           else "(" ++ str_Q q ++ ")").

Definition atomo_str (e : expr) : string :=
  match e with
  | Num n => str_num n
  | Sym nombre _ => nombre
  | Pi => "pi"
  | Fn f a => func_str f ++ "(" ++ imprimir a ++ ")"
  | Integral f v lo hi =>
      "Integral(" ++ imprimir f ++ ", (" ++ imprimir v ++ ", " ++ imprimir lo
      ++ ", " ++ imprimir hi ++ "))"
  | Derivative f v => "Derivative(" ++ imprimir f ++ ", " ++ imprimir v ++ ")"
  | _ => ""
  end.

(** A term without its sign: numerator over denominator. *)
Definition termino_str (m : mono) (c : num) : string :=
  let c := num_abs c in
  let '(cn, cd) :=
    match c with
    | Rat q => (Rat (Qint (Qnum (Qred q))), Z.pos (Qden (Qred q)))
    | _ => (c, 1%Z)
    end in
  let arriba := filter (fun '(_, q) => (0 <? Qnum q)%Z) m in
  let abajo := filter (fun '(_, q) => (Qnum q <? 0)%Z) m in
  let numerador :=
    app (if num_is_one cn && match arriba with [] => false | _ => true end
         then [] else [str_num cn])
        (map (fun '(a, q) => factor_str a q) arriba) in
  let denominador :=
    app (if (cd =? 1)%Z then [] else [pretty cd])
        (map (fun '(a, q) => factor_str a (Qopp q)) abajo) in
  unir "*" numerador
  ++ match denominador with
     | [] => ""
     | [d] => "/" ++ d
     | _ => "/(" ++ unir "*" denominador ++ ")"
     end.

Fixpoint suma_str (primero : bool) (p : poly) : string :=
  match p with
  | [] => if primero then "0" else ""
  | (m, c) :: p' =>
      (if num_negativo c then (if primero then "-" else " - ")
       else (if primero then "" else " + "))
      ++ termino_str m c ++ suma_str false p'
  end.

End Imprimir.

Fixpoint profundidad (e : expr) : nat :=
  match e with
  | Add a b | Mul a b | Pow a b => S (Nat.max (profundidad a) (profundidad b))
  | Fn _ a => S (profundidad a)
  | Integral f v lo hi =>
      S (Nat.max (Nat.max (profundidad f) (profundidad v))
                 (Nat.max (profundidad lo) (profundidad hi)))
  | Derivative f v => S (Nat.max (profundidad f) (profundidad v))
  | _ => 1
  end.

Fixpoint str_fuel (fuel : nat) (e : expr) : string :=
  match fuel with
  | O => "..."
  | S n =>
      match e with
      | Add _ _ | Mul _ _ | Pow _ _ | Num _ =>
          suma_str (str_fuel n) true (ordenar_terminos (norm e))
      | _ => atomo_str (str_fuel n) e
      end
  end.

(** [str(e)] *)
Definition str (e : expr) : string := str_fuel (2 * profundidad e + 2) e.

(** [str(sp.Matrix([...]))] for a column. *)
Definition pretty_matrix (l : list expr) : string :=
  "Matrix([[" ++ unir "], [" (map str l) ++ "]])".

(** *** Parsing *)

Inductive token :=
| TNum (q : Q) (es_float : bool)
| TNombre (s : string)
| TMas | TMenos | TPor | TEntre | TPot | TAbre | TCierra
| TOtro (c : ascii).

Fixpoint tomar (p : ascii → bool) (s : string) : string * string :=
  match s with
  | "" => ("", "")
  | String c s' =>
      if p c then let '(a, r) := tomar p s' in (String c a, r) else ("", s)
  end.

Definition es_letra (c : ascii) : bool :=
  let n := nat_of_ascii c in
  ((65 <=? n) && (n <=? 90) || (97 <=? n) && (n <=? 122) || (n =? 95))%nat.

Definition es_alfanumerico (c : ascii) : bool := es_letra c || es_digito c.

Definition empieza_digito (s : string) : bool :=
  match s with String c _ => es_digito c | _ => false end.

Definition valor_digitos (s : string) : Z := default 0%Z (leer_digitos s 0).

(** A decimal literal at the head of [s]: its value, whether it is a float
    literal, and the rest of the text. *)
Definition leer_numero (s : string) : Q * bool * string :=
  let '(entera, r1) := tomar es_digito s in
  let '(fraccion, r2, con_punto) :=
    match r1 with
    | String "." r => let '(f, r') := tomar es_digito r in (f, r', true)
    | _ => ("", r1, false)
    end in
  let '(exponente, r3, con_exponente) :=
    match r2 with
    | String c r =>
        if Ascii.eqb c "e" || Ascii.eqb c "E" then
          let '(signo, r') :=
            match r with
            | String "-" t => ((-1)%Z, t)
            | String "+" t => (1%Z, t)
            | _ => (1%Z, r)
            end in
          if empieza_digito r' then
            let '(d, r'') := tomar es_digito r' in
            ((signo * valor_digitos d)%Z, r'', true)
          else (0%Z, r2, false)
        else (0%Z, r2, false)
    | _ => (0%Z, r2, false)
    end in
  let mantisa := valor_digitos (entera ++ fraccion) in
  let escala := (exponente - Z.of_nat (String.length fraccion))%Z in
  (Qred (Qint mantisa * Qpower (Qint 10) escala), con_punto || con_exponente, r3).

Fixpoint tokens (fuel : nat) (s : string) : list token :=
  match fuel with
  | O => []
  | S n =>
      match s with
      | "" => []
      | String c s' =>
          if es_espacio c then tokens n s'
          else if es_digito c || (Ascii.eqb c "." && empieza_digito s') then
            let '(q, fl, r) := leer_numero s in TNum q fl :: tokens n r
          else if es_letra c then
            let '(nombre, r) := tomar es_alfanumerico s in
            TNombre nombre :: tokens n r
          else if Ascii.eqb c "*" then
            match s' with
            | String "*" r => TPot :: tokens n r
            | _ => TPor :: tokens n s'
            end
          else if Ascii.eqb c "^" then TPot :: tokens n s'
          else if Ascii.eqb c "+" then TMas :: tokens n s'
          else if Ascii.eqb c "-" then TMenos :: tokens n s'
          else if Ascii.eqb c "/" then TEntre :: tokens n s'
          else if Ascii.eqb c "(" then TAbre :: tokens n s'
          else if Ascii.eqb c ")" then TCierra :: tokens n s'
          else TOtro c :: tokens n s'
      end
  end.

Inductive nivel := NExpr | NTerm | NFactor | NPower | NAtom.

Definition error_sintaxis : exn := Exc "SympifyError" "".
Definition no_modelado (nombre : string) : exn :=
  Exc "NoModelado" ("'" ++ nombre ++ "' is outside the implemented fragment").

Definition funcion_conocida (nombre : string) : option (expr → expr) :=
  if String.eqb nombre "sin" then Some (Fn f_sin)
  else if String.eqb nombre "cos" then Some (Fn f_cos)
  else if String.eqb nombre "tan" then Some (Fn f_tan)
  else if String.eqb nombre "exp" then Some (Fn f_exp)
  else if String.eqb nombre "log" then Some (Fn f_log)
  else if String.eqb nombre "sqrt" then
    Some (fun a => Pow a (Num (Rat (Qmake 1 2))))
  else None.

(** What a name stands for: an expression, a function awaiting its
    argument, or something the fragment does not have. *)
Inductive significado :=
| Valor (e : expr)
| Funcion (f : expr → expr)
| Fuera.

Definition resolver_nombre (tabla : gmap string (local expr)) (nombre : string)
    (llamada : bool) : significado :=
  match tabla !! nombre with
  | Some (LExpr e) => if llamada then Fuera else Valor e
  | Some (LFunc f) => if llamada then Funcion (Fn f) else Fuera
  | None =>
      match funcion_conocida nombre with
      | Some f => if llamada then Funcion f else Fuera
      | None =>
          if llamada then Fuera
          else if String.eqb nombre "pi" then Valor Pi
          else if String.eqb nombre "zoo" then Valor (Num Zoo)
          else if String.eqb nombre "nan" then Valor (Num NaN)
          else if en_lista nombre ["E"; "I"; "oo"; "S"; "N"; "O"; "Q"] then Fuera
          else Valor (Sym nombre sin_supuesto)
      end
  end.

(** Recursive descent on Python's grammar of arithmetic expressions:
    sums of products of signed powers. *)
Fixpoint analizar (tabla : gmap string (local expr)) (fuel : nat) (lv : nivel)
    (acc : option expr) (ts : list token) : outcome (expr * list token) :=
  match fuel with
  | O => Raise error_sintaxis
  | S n =>
      match lv, acc with
      | NExpr, None =>
          '(a, r) ← analizar tabla n NTerm None ts;
          analizar tabla n NExpr (Some a) r
      | NExpr, Some a =>
          match ts with
          | TMas :: r =>
              '(b, r') ← analizar tabla n NTerm None r;
              analizar tabla n NExpr (Some (Add a b)) r'
          | TMenos :: r =>
              '(b, r') ← analizar tabla n NTerm None r;
              analizar tabla n NExpr (Some (Add a (Mul menos_uno b))) r'
          | _ => Ok (a, ts)
          end
      | NTerm, None =>
          '(a, r) ← analizar tabla n NFactor None ts;
          analizar tabla n NTerm (Some a) r
      | NTerm, Some a =>
          match ts with
          | TPor :: r =>
              '(b, r') ← analizar tabla n NFactor None r;
              analizar tabla n NTerm (Some (Mul a b)) r'
          | TEntre :: r =>
              '(b, r') ← analizar tabla n NFactor None r;
              analizar tabla n NTerm (Some (Mul a (Pow b menos_uno))) r'
          | _ => Ok (a, ts)
          end
      | NFactor, _ =>
          match ts with
          | TMenos :: r =>
              '(a, r') ← analizar tabla n NFactor None r;
              Ok (Mul menos_uno a, r')
          | TMas :: r => analizar tabla n NFactor None r
          | _ => analizar tabla n NPower None ts
          end
      | NPower, _ =>
          '(a, r) ← analizar tabla n NAtom None ts;
          match r with
          | TPot :: r' =>
              '(b, r'') ← analizar tabla n NFactor None r';
              Ok (Pow a b, r'')
          | _ => Ok (a, r)
          end
      | NAtom, _ =>
          match ts with
          | TNum q fl :: r =>
              Ok (Num (if fl then Flt (float_of_Q q) else Rat q), r)
          | TNombre nombre :: TAbre :: r =>
              match resolver_nombre tabla nombre true with
              | Funcion f =>
                  '(a, r') ← analizar tabla n NExpr None r;
                  match r' with
                  | TCierra :: r'' => Ok (f a, r'')
                  | _ => Raise error_sintaxis
                  end
              | _ => Raise (no_modelado nombre)
              end
          | TNombre nombre :: r =>
              match resolver_nombre tabla nombre false with
              | Valor e => Ok (e, r)
              | _ => Raise (no_modelado nombre)
              end
          | TAbre :: r =>
              '(a, r') ← analizar tabla n NExpr None r;
              match r' with
              | TCierra :: r'' => Ok (a, r'')
              | _ => Raise error_sintaxis
              end
          | _ => Raise error_sintaxis
          end
      end
  end.

(** [sp.sympify(text, locals=tabla)] *)
Definition sympify (text : string) (tabla : gmap string (local expr))
  : outcome expr :=
  let ts := tokens (S (String.length text)) text in
  match analizar tabla (8 * length ts + 8) NExpr None ts with
  | Ok (e, []) => Ok (canon e)
  | Ok (_, _ :: _) | Raise (Exc "SympifyError" _) =>
      Raise (Exc "SympifyError" ("could not parse '" ++ text ++ "'"))
  | Raise e => Raise e
  end.

#[export] Instance sympy : SymPy :=
  Build_SymPy expr Sym Integer Float Pi add mul pow fn sqrt expr_eqb
    sympify diff integrate simplify subs is_constant str str pretty_matrix
    N_float str_float.

End MiniSymPy.


(** * Properties *)

(** ** Reasoning about code that may raise *)

(** [cumple P m]: if [m] returns a value, the value satisfies [P]. *)
Definition cumple {A} (P : A → Prop) (m : outcome A) : Prop :=
  match m with
  | Ok a => P a
  | Raise _ => True
  end.

Lemma cumple_ret {A} (P : A → Prop) (a : A) : P a → cumple P (mret a).
Proof. intros Ha. exact Ha. Qed.

Lemma cumple_bind {A B} (P : B → Prop) (m : outcome A) (k : A → outcome B) :
  (∀ a, m = Ok a → cumple P (k a)) → cumple P (m ≫= k).
Proof.
  intros Hk. destruct m as [a|e]; [ | exact I ].
  exact (Hk a eq_refl).
Qed.

Lemma cumple_Ok {A} (P : A → Prop) (m : outcome A) (a : A) :
  cumple P m → m = Ok a → P a.
Proof. intros Hm ->. exact Hm. Qed.

Lemma cumple_impl {A} (P Q : A → Prop) (m : outcome A) :
  (∀ a, P a → Q a) → cumple P m → cumple Q m.
Proof. intros HPQ. destruct m; simpl; auto. Qed.

(** What holds of the record an evaluator returns, when it returns one. *)
Definition si_datos {R} (P : R → Prop) (r : respuesta R) : Prop :=
  match r with
  | datos d => P d
  | error _ => True
  end.

Lemma append_no_vacio {A} (l : list A) (x : A) : append l x ≠ [].
Proof. unfold append. destruct l; discriminate. Qed.

Lemma extend_no_vacio {A} (l l' : list A) : l ≠ [] → extend l l' ≠ [].
Proof. unfold extend. destruct l; [ congruence | discriminate ]. Qed.

Lemma last_append {A} (l : list A) (x : A) : last (append l x) = Some x.
Proof. unfold append. apply last_snoc. Qed.

(** One step through a piece of the engine: a bind, a branch, a result. *)
Ltac paso :=
  match goal with
  | |- cumple _ (mret _) => apply cumple_ret
  | |- cumple _ (Ok _) => apply cumple_ret
  | |- cumple _ (Raise _) => exact I
  | |- cumple _ (_ ≫= _) => apply cumple_bind; intros ? ?
  | |- cumple _ (let '(_, _) := ?p in _) => destruct p
  | |- cumple _ (if ?b then _ else _) => destruct b eqn:?
  | |- cumple _ (match ?m with Ok _ => _ | Raise _ => _ end) =>
      destruct m as [[? ?]|?] eqn:?
  end.

Ltac pasos_todos := cbv beta iota zeta; repeat (paso; cbv beta iota zeta).

Lemma cumple_siempre {A} (P : A → Prop) (m : outcome A) :
  (∀ a, P a) → cumple P m.
Proof. intros HP. destruct m; simpl; auto. Qed.

(** A result that holds of whatever an evaluator returns, turned into a
    statement about one returned record. *)
Lemma de_cumple {R} (P : R → Prop) (m : outcome (respuesta R)) (r : R) :
  cumple (si_datos P) m → m = Ok (datos r) → P r.
Proof. intros Hm Hr. exact (cumple_Ok _ _ _ Hm Hr). Qed.

Section Generales.

Context `{SymPy}.

(** *** The triple-integral solver *)

Definition sistemas_reconocidos : list string :=
  ["rectangular"; "rectangulares"; "cilindrica"; "cilindricas";
   "esferica"; "esfericas"].

Lemma en_lista_cons (s v : string) (vs : list string) :
  en_lista s (v :: vs) = String.eqb s v || en_lista s vs.
Proof. reflexivity. Qed.

(** The integrand the integration loop starts from. *)
Definition integrando_efectivo (integrando sistema_coordenadas : string)
  : outcome Expr :=
  p ← preparar_integrando integrando sistema_coordenadas;
  mret (expr_inicial p).

Definition tabla_cilindricas : gmap string (local Expr) :=
  {[ "r" := LExpr (Symbol "r" sin_supuesto);
     "theta" := LExpr (Symbol "theta" sin_supuesto);
     "z" := LExpr (Symbol "z" sin_supuesto); "pi" := LExpr pi ]}.

(** In cylindrical coordinates the loop always starts from the integrand as
    parsed: no branch of the code multiplies it by the Jacobian [r]. *)
Lemma cilindricas_sin_jacobiano (integrando sistema : string) :
  en_lista sistema ["cilindrica"; "cilindricas"] = true →
  integrando_efectivo integrando sistema = sympify integrando tabla_cilindricas.
Proof.
  intros Hs. unfold integrando_efectivo, preparar_integrando.
  assert (Hr : en_lista sistema ["rectangular"; "rectangulares"] = false).
  { rewrite !en_lista_cons in Hs |- *. simpl en_lista in *.
    rewrite !orb_false_r in *.
    apply orb_true_iff in Hs as [Hs|Hs]; apply String.eqb_eq in Hs; subst;
      reflexivity. }
  cbv zeta. rewrite Hr, Hs. fold tabla_cilindricas.
  destruct (sympify integrando tabla_cilindricas); reflexivity.
Qed.

(** C4 (as amended): with a coordinate-system tag outside the six recognised
    spellings, [resolver_integral_triple] raises [ValueError]; it returns no
    record, whatever the integrand, the variables and the limits. *)
Theorem resolver_sistema_no_reconocido (integrando : string)
    (variables : list string) (limites : gmap string (string * string))
    (sistema : string) :
  en_lista sistema sistemas_reconocidos = false →
  resolver_integral_triple integrando variables limites sistema
  = Raise sistema_no_reconocido.
Proof.
  intros Hs. unfold sistemas_reconocidos in Hs.
  rewrite !en_lista_cons in Hs. simpl en_lista in Hs.
  rewrite !orb_false_iff in Hs.
  destruct Hs as (H1 & H2 & H3 & H4 & H5 & H6 & _).
  unfold resolver_integral_triple, preparar_integrando. cbv zeta.
  rewrite !en_lista_cons. simpl en_lista.
  rewrite H1, H2, H3, H4, H5, H6. reflexivity.
Qed.

(** *** Green: the verification step *)

Definition regiones_con_dos_integrales : list string :=
  ["disco"; "corona"; "rectangulo"; "elipse"; "triangulo"; "semicirculo";
   "entre_curvas"; "sector_polar"].

(** The lines the verification appends to the trace. *)
Definition lineas_verificacion (doble linea : Expr) : list string :=
  [""; "VERIFICACIÓN DEL TEOREMA DE GREEN:";
   "Integral doble: " ++ sp_pretty doble;
   "Integral de línea: " ++ sp_pretty linea;
   if expr_eqb (simplify (sub doble linea)) (Integer 0) then
     "✅ El teorema se verifica: ∮_C F·dr = ∬_D (∇×F) dA"
   else "❌ Diferencia: " ++ sp_pretty (simplify (sub doble linea))].

(** The record comes out of [_verificar_green]: both values as they were
    computed, and the trace extended by the verification lines. *)
Definition verificado (r : Green.t Expr) : Prop :=
  ∃ doble linea pasos info,
    r = _verificar_green doble linea pasos info
    ∧ Green.doble r = doble ∧ Green.linea r = linea
    ∧ Green.pasos r = (pasos ++ lineas_verificacion doble linea)%list.

Lemma _verificar_green_pasos (doble linea : Expr) (pasos info : list string) :
  Green.pasos (_verificar_green doble linea pasos info)
  = (pasos ++ lineas_verificacion doble linea)%list.
Proof.
  unfold _verificar_green, lineas_verificacion, append. cbv zeta.
  cbn [Green.pasos].
  destruct (expr_eqb (simplify (sub doble linea)) (Integer 0));
    rewrite <- !app_assoc; reflexivity.
Qed.

Lemma _verificar_green_verificado (doble linea : Expr) (pasos info : list string) :
  verificado (_verificar_green doble linea pasos info).
Proof.
  exists doble, linea, pasos, info.
  split; [ reflexivity | ]. split; [ reflexivity | ]. split; [ reflexivity | ].
  apply _verificar_green_pasos.
Qed.

Ltac fin_verificado :=
  first [ exact I | cbn [si_datos]; apply _verificar_green_verificado ].

Lemma green_disco_verificado x y P Q rot params pasos info :
  cumple (si_datos verificado) (green_disco x y P Q rot params pasos info).
Proof. unfold green_disco. pasos_todos; fin_verificado. Qed.

Lemma green_corona_verificado x y P Q rot params pasos info :
  cumple (si_datos verificado) (green_corona x y P Q rot params pasos info).
Proof. unfold green_corona. pasos_todos; fin_verificado. Qed.

Lemma green_rectangulo_verificado x y P Q rot params pasos info :
  cumple (si_datos verificado) (green_rectangulo x y P Q rot params pasos info).
Proof. unfold green_rectangulo. pasos_todos; fin_verificado. Qed.

Lemma green_elipse_verificado x y P Q rot params pasos info :
  cumple (si_datos verificado) (green_elipse x y P Q rot params pasos info).
Proof. unfold green_elipse. pasos_todos; fin_verificado. Qed.

Lemma green_triangulo_verificado x y P Q rot params pasos info :
  cumple (si_datos verificado) (green_triangulo x y P Q rot params pasos info).
Proof. unfold green_triangulo. pasos_todos; fin_verificado. Qed.

Lemma green_semicirculo_verificado x y P Q rot params pasos info :
  cumple (si_datos verificado) (green_semicirculo x y P Q rot params pasos info).
Proof. unfold green_semicirculo. pasos_todos; fin_verificado. Qed.

Lemma green_entre_curvas_verificado x y P Q rot params pasos info :
  cumple (si_datos verificado) (green_entre_curvas x y P Q rot params pasos info).
Proof. unfold green_entre_curvas. pasos_todos; fin_verificado. Qed.

Lemma green_sector_polar_verificado x y P Q rot params pasos info :
  cumple (si_datos verificado) (green_sector_polar x y P Q rot params pasos info).
Proof. unfold green_sector_polar. pasos_todos; fin_verificado. Qed.

(** A tag known to be one string is not in a list of other strings. *)
Ltac otra_region :=
  match goal with
  | Heq : String.eqb ?s _ = true, Hen : en_lista ?s _ = true |- _ =>
      apply String.eqb_eq in Heq; subst s; vm_compute in Hen; discriminate Hen
  end.

(** In each of the eight regions where both integrals are computed, the
    record returned is the one [_verificar_green] builds. *)
Lemma green_region_verificada (P_str Q_str region : string)
    (params : option (gmap string string)) (r : Green.t Expr) :
  en_lista region regiones_con_dos_integrales = true →
  aplicar_green P_str Q_str region params = Ok (datos r) →
  verificado r.
Proof.
  intros Hreg Hr. apply (de_cumple verificado _ _) in Hr; [ exact Hr | ].
  clear Hr. unfold aplicar_green. pasos_todos; try exact I.
  - apply green_disco_verificado.
  - apply green_corona_verificado.
  - apply green_rectangulo_verificado.
  - apply green_elipse_verificado.
  - apply green_triangulo_verificado.
  - apply green_semicirculo_verificado.
  - apply green_entre_curvas_verificado.
  - apply green_sector_polar_verificado.
  - otra_region.
Qed.

(** C7: [_verificar_green] is a total function of the two values and the
    trace: it raises nothing and returns a record that holds the two values
    as it received them, its trace extended by the two values and then by the
    verified line when [simplify(doble - linea)] is zero, and by the residual
    otherwise.  In each of the eight regions where both integrals are
    computed, the record [aplicar_green] returns is the one
    [_verificar_green] builds. *)
Theorem green_verificacion :
  (∀ (doble linea : Expr) (pasos info : list string),
     Green.doble (_verificar_green doble linea pasos info) = doble
     ∧ Green.linea (_verificar_green doble linea pasos info) = linea
     ∧ Green.info (_verificar_green doble linea pasos info) = info
     ∧ Green.pasos (_verificar_green doble linea pasos info)
       = (pasos ++ lineas_verificacion doble linea)%list)
  ∧ (∀ (P_str Q_str region : string) (params : option (gmap string string))
       (r : Green.t Expr),
       en_lista region regiones_con_dos_integrales = true →
       aplicar_green P_str Q_str region params = Ok (datos r) →
       ∃ doble linea pasos info,
         r = _verificar_green doble linea pasos info).
Proof.
  split.
  - intros doble linea pasos info.
    split; [ reflexivity | ]. split; [ reflexivity | ].
    split; [ reflexivity | ]. apply _verificar_green_pasos.
  - intros P_str Q_str region params r Hreg Hr.
    destruct (green_region_verificada _ _ _ _ _ Hreg Hr)
      as (doble & linea & pasos & info & Hv & _).
    exists doble, linea, pasos, info. exact Hv.
Qed.

(** *** Stokes: the surfaces without a boundary integral *)

Definition superficies_sin_frontera : list string :=
  ["plano"; "paraboloide"; "cilindro"].

(** The boundary slot repeats the surface integral, and the trace stops at
    the surface integral: no line integral, no verification line. *)
Definition superficie_duplicada (r : Stokes.t Expr) : Prop :=
  Stokes.linea r = Stokes.superficie r
  ∧ last (Stokes.pasos r)
    = Some ("Integral de superficie = " ++ sp_pretty (Stokes.superficie r)).

Ltac fin_duplicada :=
  first [ exact I
        | cbn [si_datos]; split; [ reflexivity | cbn [Stokes.pasos Stokes.superficie];
                                   apply last_append ] ].

Lemma stokes_plano_duplica x y z Fx Fy Fz M params pasos info :
  cumple (si_datos superficie_duplicada)
    (stokes_plano x y z Fx Fy Fz M params pasos info).
Proof. unfold stokes_plano. pasos_todos; fin_duplicada. Qed.

Lemma stokes_paraboloide_duplica x y z Fx Fy Fz M params pasos info :
  cumple (si_datos superficie_duplicada)
    (stokes_paraboloide x y z Fx Fy Fz M params pasos info).
Proof. unfold stokes_paraboloide. pasos_todos; fin_duplicada. Qed.

Lemma stokes_cilindro_duplica x y z Fx Fy Fz M params pasos info :
  cumple (si_datos superficie_duplicada)
    (stokes_cilindro x y z Fx Fy Fz M params pasos info).
Proof. unfold stokes_cilindro. pasos_todos; fin_duplicada. Qed.

(** C10: for the surfaces 'plano', 'paraboloide' and 'cilindro', whatever the
    field, the record [aplicar_stokes] returns has its 'linea' slot equal to
    its 'superficie' slot, and its trace ends with the surface integral: the
    boundary integral is not computed and nothing is verified. *)
Theorem stokes_linea_es_superficie (Fx_str Fy_str Fz_str superficie : string)
    (params : option (gmap string string)) (r : Stokes.t Expr) :
  en_lista superficie superficies_sin_frontera = true →
  aplicar_stokes Fx_str Fy_str Fz_str superficie params = Ok (datos r) →
  Stokes.linea r = Stokes.superficie r
  ∧ last (Stokes.pasos r)
    = Some ("Integral de superficie = " ++ sp_pretty (Stokes.superficie r)).
Proof.
  intros Hsup Hr.
  apply (de_cumple superficie_duplicada _ _) in Hr; [ exact Hr | ].
  clear Hr. unfold aplicar_stokes. pasos_todos; try exact I.
  - otra_region.
  - apply stokes_plano_duplica.
  - apply stokes_paraboloide_duplica.
  - apply stokes_cilindro_duplica.
Qed.

(** *** Divergence: what the record holds *)

Definition tabla_xyz : gmap string (local Expr) :=
  {[ "x" := LExpr (Symbol "x" real); "y" := LExpr (Symbol "y" real);
     "z" := LExpr (Symbol "z" real); "sin" := LFunc f_sin;
     "cos" := LFunc f_cos; "pi" := LExpr pi ]}.

(** [simplify(dFx/dx + dFy/dy + dFz/dz)] *)
Definition divergencia_de (Fx Fy Fz : Expr) : Expr :=
  simplify (add (add (diff Fx (Symbol "x" real)) (diff Fy (Symbol "y" real)))
                (diff Fz (Symbol "z" real))).

(** [sp.sympify(parametros_region.get(clave, defecto))] *)
Definition parametro (parametros_region : option (gmap string string))
    (clave defecto : string) : outcome Expr :=
  texto ← get parametros_region clave defecto; sympify0 texto.

(** The integral each branch computes for 'volumen' ([res_vol] in the
    source), the lines of the branch that write the trace left out. *)

(** Lines 967-1007 *)
Definition integral_esfera (x y z divF R : Expr) : outcome Expr :=
  if is_constant divF then
    mret (divF * (Float (4 / 3)%float * pi * R ** Integer 3))%sp
  else
    let rho := Symbol "rho" positive in
    let phi := Symbol "phi" positive in
    let theta := Symbol "theta" positive in
    let sustituciones :=
      [(x, (rho * fn f_sin phi * fn f_cos theta)%sp);
       (y, (rho * fn f_sin phi * fn f_sin theta)%sp);
       (z, (rho * fn f_cos phi)%sp)] in
    let integrando :=
      simplify (subs divF sustituciones * rho ** Integer 2 * fn f_sin phi)%sp in
    integral_theta ←
      integrate integrando [(theta, Integer 0, (Integer 2 * pi)%sp)];
    integral_phi ← integrate integral_theta [(phi, Integer 0, pi)];
    integrate integral_phi [(rho, Integer 0, R)].

(** Lines 1024-1062 *)
Definition integral_cilindro (x y z divF a h : Expr) : outcome Expr :=
  if is_constant divF then mret (divF * (pi * a ** Integer 2 * h))%sp
  else
    let r := Symbol "r" real in
    let theta := Symbol "theta" real in
    let zs := Symbol "zs" real in
    let sustituciones :=
      [(x, (r * fn f_cos theta)%sp); (y, (r * fn f_sin theta)%sp); (z, zs)] in
    let integrando := simplify (subs divF sustituciones * r)%sp in
    integral_z ← integrate integrando [(zs, Integer 0, h)];
    integral_theta ←
      integrate integral_z [(theta, Integer 0, (Integer 2 * pi)%sp)];
    integrate integral_theta [(r, Integer 0, a)].

(** Lines 1084-1090 *)
Definition integral_cubo (x y z divF a b c : Expr) : outcome Expr :=
  integral_z ← integrate divF [(z, div (neg c) (Integer 2), div c (Integer 2))];
  integral_y ←
    integrate integral_z [(y, div (neg b) (Integer 2), div b (Integer 2))];
  integrate integral_y [(x, div (neg a) (Integer 2), div a (Integer 2))].

(** Lines 1106-1133 *)
Definition integral_elipsoide (x y z divF a b c : Expr) : outcome Expr :=
  let rho := Symbol "rho" positive in
  let phi := Symbol "phi" positive in
  let theta := Symbol "theta" positive in
  let sustituciones :=
    [(x, (a * rho * fn f_sin phi * fn f_cos theta)%sp);
     (y, (b * rho * fn f_sin phi * fn f_sin theta)%sp);
     (z, (c * rho * fn f_cos phi)%sp)] in
  let jacobiano := (a * b * c * rho ** Integer 2 * fn f_sin phi)%sp in
  let integrando := simplify (subs divF sustituciones * jacobiano)%sp in
  integral_theta ←
    integrate integrando [(theta, Integer 0, (Integer 2 * pi)%sp)];
  integral_phi ← integrate integral_theta [(phi, Integer 0, pi)];
  integrate integral_phi [(rho, Integer 0, Integer 1)].

(** Lines 1150-1171 *)
Definition integral_cono (x y z divF R h : Expr) : outcome Expr :=
  let r := Symbol "r" real in
  let theta := Symbol "theta" real in
  let zs := Symbol "zs" real in
  let sustituciones :=
    [(x, (r * fn f_cos theta)%sp); (y, (r * fn f_sin theta)%sp); (z, zs)] in
  let integrando := simplify (subs divF sustituciones * r)%sp in
  integral_r ←
    integrate integrando [(r, Integer 0, (R * sub (Integer 1) (div zs h))%sp)];
  integral_theta ←
    integrate integral_r [(theta, Integer 0, (Integer 2 * pi)%sp)];
  integrate integral_theta [(zs, Integer 0, h)].

(** Lines 1188-1209 *)
Definition integral_entre_superficies (x y z divF R_int R_ext h : Expr)
  : outcome Expr :=
  let r := Symbol "r" real in
  let theta := Symbol "theta" real in
  let zs := Symbol "zs" real in
  let sustituciones :=
    [(x, (r * fn f_cos theta)%sp); (y, (r * fn f_sin theta)%sp); (z, zs)] in
  let integrando := simplify (subs divF sustituciones * r)%sp in
  integral_z ←
    integrate integrando [(zs, div (neg h) (Integer 2), div h (Integer 2))];
  integral_theta ←
    integrate integral_z [(theta, Integer 0, (Integer 2 * pi)%sp)];
  integrate integral_theta [(r, R_int, R_ext)].

(** The parameters each branch reads, then its integral. *)
Definition volumen_esfera (x y z divF : Expr)
    (parametros_region : option (gmap string string)) : outcome Expr :=
  R ← parametro parametros_region "R" "1";
  integral_esfera x y z divF R.

Definition volumen_cilindro (x y z divF : Expr)
    (parametros_region : option (gmap string string)) : outcome Expr :=
  a ← parametro parametros_region "a" "1";
  h ← parametro parametros_region "h" "1";
  integral_cilindro x y z divF a h.

Definition volumen_cubo (x y z divF : Expr)
    (parametros_region : option (gmap string string)) : outcome Expr :=
  a ← parametro parametros_region "a" "1";
  b ← parametro parametros_region "b" "1";
  c ← parametro parametros_region "c" "1";
  integral_cubo x y z divF a b c.

Definition volumen_elipsoide (x y z divF : Expr)
    (parametros_region : option (gmap string string)) : outcome Expr :=
  a ← parametro parametros_region "a" "1";
  b ← parametro parametros_region "b" "1";
  c ← parametro parametros_region "c" "1";
  integral_elipsoide x y z divF a b c.

Definition volumen_cono (x y z divF : Expr)
    (parametros_region : option (gmap string string)) : outcome Expr :=
  R ← parametro parametros_region "R" "1";
  h ← parametro parametros_region "h" "1";
  integral_cono x y z divF R h.

Definition volumen_entre_superficies (x y z divF : Expr)
    (parametros_region : option (gmap string string)) : outcome Expr :=
  R_int ← parametro parametros_region "R_int" "1";
  R_ext ← parametro parametros_region "R_ext" "2";
  h ← parametro parametros_region "h" "1";
  integral_entre_superficies x y z divF R_int R_ext h.

(** The one integral [aplicar_divergencia] computes for a region, from the
    divergence of the field; an unsupported region has none. *)
Definition integral_de_volumen (region : string) (divF : Expr)
    (parametros_region : option (gmap string string))
  : outcome (respuesta Expr) :=
  let x := Symbol "x" real in
  let y := Symbol "y" real in
  let z := Symbol "z" real in
  if String.eqb region "esfera" then
    datos <$> volumen_esfera x y z divF parametros_region
  else if String.eqb region "cilindro" then
    datos <$> volumen_cilindro x y z divF parametros_region
  else if String.eqb region "cubo" then
    datos <$> volumen_cubo x y z divF parametros_region
  else if String.eqb region "elipsoide" then
    datos <$> volumen_elipsoide x y z divF parametros_region
  else if String.eqb region "cono" then
    datos <$> volumen_cono x y z divF parametros_region
  else if String.eqb region "entre_superficies" then
    datos <$> volumen_entre_superficies x y z divF parametros_region
  else mret (error "Región no soportada para el Teorema de la Divergencia.").

(** The two result slots of a record: the divergence, and the integral. *)
Definition con_slots (divF : Expr) (integral : outcome Expr)
    (r : Divergencia.t Expr) : Prop :=
  Divergencia.divergencia r = divF
  ∧ integral = Ok (Divergencia.volumen r).

(** The integral of the sphere and of the cylinder, computed under an
    [if]: one case for each way it returns. *)
Ltac abrir_integral H :=
  cbv zeta in H;
  repeat match type of H with
         | (if ?b then _ else _) = _ => destruct b eqn:?
         | (?m ≫= _) = Ok _ =>
             let Hi := fresh "Hi" in
             destruct m eqn:Hi; cbn [mbind outcome_bind] in H;
             [ | discriminate H ]
         | _ = Ok _ => injection H as <- <-
         end.

Ltac fin_slots :=
  first
    [ exact I
    | try match goal with
          | H : (if _ then _ else _) = Ok _ |- _ => abrir_integral H
          end;
      cbn [si_datos]; (split; [ reflexivity | ]);
      cbv beta delta [parametro integral_esfera integral_cilindro
                      integral_cubo integral_elipsoide integral_cono
                      integral_entre_superficies];
      cbv zeta;
      repeat match goal with
             | H : _ = Ok _ |- _ =>
                 rewrite H; cbn [mbind outcome_bind mret outcome_ret]
             | H : is_constant _ = _ |- _ => rewrite H
             end;
      reflexivity ].

Lemma divergencia_esfera_slots x y z Fx Fy Fz divF params pasos info :
  cumple (si_datos (con_slots divF (volumen_esfera x y z divF params)))
    (divergencia_esfera x y z Fx Fy Fz divF params pasos info).
Proof.
  unfold divergencia_esfera, volumen_esfera. pasos_todos; fin_slots.
Qed.

Lemma divergencia_cilindro_slots x y z Fx Fy Fz divF params pasos info :
  cumple (si_datos (con_slots divF (volumen_cilindro x y z divF params)))
    (divergencia_cilindro x y z Fx Fy Fz divF params pasos info).
Proof.
  unfold divergencia_cilindro, volumen_cilindro. pasos_todos; fin_slots.
Qed.

Lemma divergencia_cubo_slots x y z Fx Fy Fz divF params pasos info :
  cumple (si_datos (con_slots divF (volumen_cubo x y z divF params)))
    (divergencia_cubo x y z Fx Fy Fz divF params pasos info).
Proof.
  unfold divergencia_cubo, volumen_cubo. pasos_todos; fin_slots.
Qed.

Lemma divergencia_elipsoide_slots x y z Fx Fy Fz divF params pasos info :
  cumple (si_datos (con_slots divF (volumen_elipsoide x y z divF params)))
    (divergencia_elipsoide x y z Fx Fy Fz divF params pasos info).
Proof.
  unfold divergencia_elipsoide, volumen_elipsoide. pasos_todos; fin_slots.
Qed.

Lemma divergencia_cono_slots x y z Fx Fy Fz divF params pasos info :
  cumple (si_datos (con_slots divF (volumen_cono x y z divF params)))
    (divergencia_cono x y z Fx Fy Fz divF params pasos info).
Proof.
  unfold divergencia_cono, volumen_cono. pasos_todos; fin_slots.
Qed.

Lemma divergencia_entre_superficies_slots x y z Fx Fy Fz divF params pasos
    info :
  cumple
    (si_datos (con_slots divF (volumen_entre_superficies x y z divF params)))
    (divergencia_entre_superficies x y z Fx Fy Fz divF params pasos info).
Proof.
  unfold divergencia_entre_superficies, volumen_entre_superficies.
  pasos_todos; fin_slots.
Qed.

(** The record of a branch, seen from the dispatcher. *)
Lemma slots_de_la_region (region : string) (divF : Expr)
    (params : option (gmap string string)) (integral : outcome Expr)
    (m : outcome (respuesta (Divergencia.t Expr))) :
  integral_de_volumen region divF params = (datos <$> integral) →
  cumple (si_datos (con_slots divF integral)) m →
  cumple (si_datos (λ r,
            Divergencia.divergencia r = divF
            ∧ integral_de_volumen region divF params
              = Ok (datos (Divergencia.volumen r)))) m.
Proof.
  intros Hregion. apply cumple_impl. intros [mensaje|r]; [ exact id | ].
  cbn [si_datos]. intros [Hdiv Hvol]. split; [ exact Hdiv | ].
  rewrite Hregion, Hvol. reflexivity.
Qed.

(** C5 (as amended): for every field and every region, the two result slots
    of the record [aplicar_divergencia] returns hold different quantities:
    'divergencia' the divergence of the parsed field, and 'volumen' the one
    integral the branch of the region computes from that divergence (for a
    constant divergence on the sphere and the cylinder its product with the
    volume of the region, otherwise the iterated integral of the divergence
    times the Jacobian).  Nothing else is integrated, and the record has no
    slot for a boundary integral. *)
Theorem divergencia_slots (Fx_str Fy_str Fz_str region : string)
    (params : option (gmap string string)) (r : Divergencia.t Expr) :
  aplicar_divergencia Fx_str Fy_str Fz_str region params = Ok (datos r) →
  ∃ Fx Fy Fz,
    sympify Fx_str tabla_xyz = Ok Fx ∧ sympify Fy_str tabla_xyz = Ok Fy
    ∧ sympify Fz_str tabla_xyz = Ok Fz
    ∧ Divergencia.divergencia r = divergencia_de Fx Fy Fz
    ∧ integral_de_volumen region (divergencia_de Fx Fy Fz) params
      = Ok (datos (Divergencia.volumen r)).
Proof.
  intros Hr. unfold aplicar_divergencia in Hr. cbv zeta in Hr.
  fold tabla_xyz in Hr.
  destruct (sympify Fx_str tabla_xyz) as [Fx|] eqn:HFx; [ | discriminate Hr ].
  destruct (sympify Fy_str tabla_xyz) as [Fy|] eqn:HFy; [ | discriminate Hr ].
  destruct (sympify Fz_str tabla_xyz) as [Fz|] eqn:HFz; [ | discriminate Hr ].
  exists Fx, Fy, Fz. repeat (split; [ reflexivity | ]).
  cbv beta iota delta [mbind outcome_bind mret outcome_ret] in Hr.
  fold (divergencia_de Fx Fy Fz) in Hr.
  apply (de_cumple
           (λ r, Divergencia.divergencia r = divergencia_de Fx Fy Fz
                 ∧ integral_de_volumen region (divergencia_de Fx Fy Fz) params
                   = Ok (datos (Divergencia.volumen r))) _ _) in Hr;
    [ exact Hr | ].
  clear Hr. pasos_todos; try exact I;
    (eapply slots_de_la_region;
     [ unfold integral_de_volumen; cbv zeta;
       repeat match goal with
              | H : String.eqb region _ = _ |- _ => rewrite H
              end;
       reflexivity | ]).
  - apply divergencia_esfera_slots.
  - apply divergencia_cilindro_slots.
  - apply divergencia_cubo_slots.
  - apply divergencia_elipsoide_slots.
  - apply divergencia_cono_slots.
  - apply divergencia_entre_superficies_slots.
Qed.

(** *** Every evaluator: the trace of a returned record *)

(** A call to one of the four evaluators, with its arguments. *)
Inductive llamada :=
| LlamadaTriple (integrando : string) (variables : list string)
    (limites : gmap string (string * string)) (sistema_coordenadas : string)
| LlamadaGreen (P_str Q_str region : string)
    (parametros_region : option (gmap string string))
| LlamadaDivergencia (Fx_str Fy_str Fz_str region : string)
    (parametros_region : option (gmap string string))
| LlamadaStokes (Fx_str Fy_str Fz_str superficie : string)
    (parametros_superficie : option (gmap string string)).

(** What a call returns. *)
Inductive registro :=
| RTriple (r : Triple.t Expr)
| RGreen (r : respuesta (Green.t Expr))
| RDivergencia (r : respuesta (Divergencia.t Expr))
| RStokes (r : respuesta (Stokes.t Expr)).

Definition ejecutar (c : llamada) : outcome registro :=
  match c with
  | LlamadaTriple i v l s => RTriple <$> resolver_integral_triple i v l s
  | LlamadaGreen P Q region params => RGreen <$> aplicar_green P Q region params
  | LlamadaDivergencia Fx Fy Fz region params =>
      RDivergencia <$> aplicar_divergencia Fx Fy Fz region params
  | LlamadaStokes Fx Fy Fz superficie params =>
      RStokes <$> aplicar_stokes Fx Fy Fz superficie params
  end.

(** The step trace of a returned record; an error dictionary has none. *)
Definition traza (r : registro) : option (list string) :=
  match r with
  | RTriple r => Some (Triple.pasos r)
  | RGreen (datos r) => Some (Green.pasos r)
  | RDivergencia (datos r) => Some (Divergencia.pasos r)
  | RStokes (datos r) => Some (Stokes.pasos r)
  | _ => None
  end.

Lemma app_no_vacio {A} (l l' : list A) : l' ≠ [] → (l ++ l')%list ≠ [].
Proof. intros Hl' Heq. apply app_eq_nil in Heq as [_ Heq]. auto. Qed.

Ltac fin_no_vacio :=
  first
    [ exact I
    | cbn [si_datos Triple.pasos Green.pasos Divergencia.pasos Stokes.pasos];
      first
        [ apply append_no_vacio
        | apply extend_no_vacio; apply append_no_vacio
        | rewrite _verificar_green_pasos; apply app_no_vacio; discriminate
        | match goal with
          | |- context [if ?b then _ else _] =>
              destruct b; apply append_no_vacio
          end
        | match goal with
          | Hm : ?m = Ok (_, ?l) |- ?l ≠ [] =>
              apply (cumple_Ok (λ p, snd p ≠ []) m _) in Hm;
              [ exact Hm
              | pasos_todos; cbn [snd]; apply append_no_vacio ]
          end ] ].

Lemma resolver_traza i v l s :
  cumple (λ r, Triple.pasos r ≠ []) (resolver_integral_triple i v l s).
Proof. unfold resolver_integral_triple. pasos_todos; fin_no_vacio. Qed.

Lemma green_traza P Q region params :
  cumple (si_datos (λ r, Green.pasos r ≠ [])) (aplicar_green P Q region params).
Proof.
  unfold aplicar_green, green_disco, green_corona, green_rectangulo,
    green_elipse, green_triangulo, green_semicirculo, green_entre_curvas,
    green_sector_polar, green_poligono.
  pasos_todos; fin_no_vacio.
Qed.

Lemma divergencia_traza Fx Fy Fz region params :
  cumple (si_datos (λ r, Divergencia.pasos r ≠ []))
    (aplicar_divergencia Fx Fy Fz region params).
Proof.
  unfold aplicar_divergencia, divergencia_esfera, divergencia_cilindro,
    divergencia_cubo, divergencia_elipsoide, divergencia_cono,
    divergencia_entre_superficies.
  pasos_todos; fin_no_vacio.
Qed.

Lemma stokes_traza Fx Fy Fz superficie params :
  cumple (si_datos (λ r, Stokes.pasos r ≠ []))
    (aplicar_stokes Fx Fy Fz superficie params).
Proof.
  unfold aplicar_stokes, stokes_disco, stokes_plano, stokes_paraboloide,
    stokes_cilindro.
  pasos_todos; fin_no_vacio.
Qed.

Lemma fmap_Ok {A B} (f : A → B) (m : outcome A) (b : B) :
  f <$> m = Ok b → ∃ a, m = Ok a ∧ b = f a.
Proof.
  destruct m as [a|e]; intros Hb; [ | discriminate Hb ].
  injection Hb as <-. eauto.
Qed.

(** *** The polygon: where the side count is checked *)

Import DialogoEntrada.

Lemma validar_campos_destruido (campos : list (string * string))
    (d d1 : DialogoEntrada.t) (b : bool) :
  validar_campos campos d = (d1, b) → destruido d1 = destruido d.
Proof.
  revert d. induction campos as [|[nombre texto] campos IH]; intros d Hd.
  - injection Hd as <- _. reflexivity.
  - simpl in Hd. destruct (String.eqb (strip texto) "").
    + injection Hd as <- _. reflexivity.
    + apply IH in Hd. exact Hd.
Qed.





Definition tabla_xy : gmap string (local Expr) :=
  {[ "x" := LExpr (Symbol "x" real); "y" := LExpr (Symbol "y" real);
     "sin" := LFunc f_sin; "cos" := LFunc f_cos; "pi" := LExpr pi ]}.


(** *** The polygon: from the dialog to the evaluator *)

(** [not dialogo.resultados]: the dialog was cancelled ([None]) or stored
    nothing. *)
Definition sin_resultados (resultados : option (gmap string string)) : bool :=
  match resultados with
  | None => true
  | Some m => bool_decide (m = ∅)
  end.

(** Reading a local variable no branch has assigned (the message is the
    one of Python 3.11). *)
Definition sin_asignar (nombre : string) : exn :=
  Exc "UnboundLocalError"
    ("cannot access local variable '" ++ nombre
     ++ "' where it is not associated with a value").

(** Lines 2281-2298 of [abrir_green] *)
Definition parametros_green (region p1 p2 p3 p4 p5 : string)
  : outcome (gmap string string) :=
  if String.eqb region "disco" then
    mret {[ "R" := p1; "centro_x" := p4; "centro_y" := p5 ]}
  else if String.eqb region "corona" then
    mret {[ "R_int" := p1; "R_ext" := p2; "centro_x" := p4; "centro_y" := p5 ]}
  else if String.eqb region "rectangulo" then
    mret {[ "a" := p1; "b" := p2; "x0" := p4; "y0" := p5 ]}
  else if String.eqb region "elipse" then
    mret {[ "a" := p1; "b" := p2; "centro_x" := p4; "centro_y" := p5 ]}
  else if String.eqb region "triangulo" then
    mret {[ "base" := p1; "altura" := p2; "x0" := p4; "y0" := p5 ]}
  else if String.eqb region "semicirculo" then
    mret {[ "R" := p1; "tipo" := "superior"; "centro_x" := p4;
            "centro_y" := p5 ]}
  else if String.eqb region "entre_curvas" then
    mret {[ "f1" := p1; "f2" := p2; "x_min" := p3; "x_max" := p4 ]}
  else if String.eqb region "sector_polar" then
    mret {[ "R" := p1; "theta_min" := p3; "theta_max" := p4 ]}
  else if String.eqb region "poligono" then
    mret {[ "lados" := p1; "radio" := p2; "centro_x" := p4; "centro_y" := p5 ]}
  else Raise (sin_asignar "parametros_region").

(** Lines 2268-2300 of [abrir_green]; [None] is the early [return]. *)
Definition abrir_green (resultados : option (gmap string string))
  : outcome (option (respuesta (Green.t Expr))) :=
  match resultados with
  | Some res =>
      if sin_resultados resultados then mret None
      else
        P ← getitem res "P";
        Q ← getitem res "Q";
        region ← getitem res "region";
        p1 ← getitem res "parametro1";
        p2 ← getitem res "parametro2";
        p3 ← getitem res "parametro3";
        p4 ← getitem res "parametro4";
        p5 ← getitem res "parametro5";
        parametros_region ← parametros_green region p1 p2 p3 p4 p5;
        resultado ← aplicar_green P Q region (Some parametros_region);
        mret (Some resultado)
  | None => mret None
  end.

Lemma con_resultados (res : gmap string string) (k v : string) :
  res !! k = Some v → sin_resultados (Some res) = false.
Proof.
  intros Hk. cbn [sin_resultados]. apply bool_decide_eq_false.
  intros ->. rewrite lookup_empty in Hk. discriminate Hk.
Qed.

(** [abrir_green] looks at nothing but the fields stored in [resultados]:
    with the region 'poligono' it hands the first parameter to the evaluator
    as 'lados', whatever it holds. *)
Lemma abrir_green_poligono (res : gmap string string)
    (P Q p1 p2 p3 p4 p5 : string) :
  res !! "P" = Some P →
  res !! "Q" = Some Q →
  res !! "region" = Some "poligono" →
  res !! "parametro1" = Some p1 →
  res !! "parametro2" = Some p2 →
  res !! "parametro3" = Some p3 →
  res !! "parametro4" = Some p4 →
  res !! "parametro5" = Some p5 →
  abrir_green (Some res)
  = (Some <$> aplicar_green P Q "poligono"
                (Some {[ "lados" := p1; "radio" := p2; "centro_x" := p4;
                         "centro_y" := p5 ]})).
Proof.
  intros HP HQ Hregion Hp1 Hp2 Hp3 Hp4 Hp5.
  unfold abrir_green. rewrite (con_resultados _ _ _ HP). unfold getitem.
  rewrite HP, HQ, Hregion, Hp1, Hp2, Hp3, Hp4, Hp5.
  cbn [mbind outcome_bind]. unfold parametros_green.
  change (String.eqb "poligono" "disco") with false.
  change (String.eqb "poligono" "corona") with false.
  change (String.eqb "poligono" "rectangulo") with false.
  change (String.eqb "poligono" "elipse") with false.
  change (String.eqb "poligono" "triangulo") with false.
  change (String.eqb "poligono" "semicirculo") with false.
  change (String.eqb "poligono" "entre_curvas") with false.
  change (String.eqb "poligono" "sector_polar") with false.
  change (String.eqb "poligono" "poligono") with true.
  cbn [mbind outcome_bind mret outcome_ret].
  destruct (aplicar_green P Q "poligono" _); reflexivity.
Qed.


End Generales.


(** * Runs on the executable implementation

    The theorems of this part evaluate the engine with [MiniSymPy.sympy] in
    the place of SymPy.  What they say about symbolic values is what that
    implementation computes on the polynomial and trigonometric fragment it
    covers; what they say about the control flow of the engine (which branch
    runs, what is multiplied, what is returned or raised) holds for every
    implementation of the interface, by the theorems above. *)

Section Corridas.

#[local] Existing Instance MiniSymPy.sympy.

(** [linea in pasos] *)
Definition aparece (linea : string) (pasos : list string) : bool :=
  existsb (String.eqb linea) pasos.

(** *** The box x∈[0,2], y∈[0,1], z∈[0,3] *)

Definition caja : gmap string (string * string) :=
  {[ "z" := ("0", "3"); "y" := ("0", "1"); "x" := ("0", "2") ]}.

(** The record of that run, line by line. *)
Definition registro_de_la_caja : Triple.t Expr :=
  {| Triple.resultado := Integer 6;
     Triple.pasos :=
       ["=== INTEGRAL TRIPLE - RECTANGULARES (X,Y,Z) ===";
        "Fórmula: ∭ f(x,y,z) dx dy dz";
        nl ++ "Integrando inicial: 1";
        nl ++ "Paso 1: Integrar respecto de z";
        "∫ de 0 a 3 de [1] dz";
        "Resultado parcial = 3";
        nl ++ "Paso 2: Integrar respecto de y";
        "∫ de 0 a 1 de [3] dy";
        "Resultado parcial = 3";
        nl ++ "Paso 3: Integrar respecto de x";
        "∫ de 0 a 2 de [3] dx";
        "Resultado parcial = 6";
        nl ++ "RESULTADO FINAL = 6";
        "Valor numérico aproximado = 6.0"] |}.

Lemma caja_resuelta :
  resolver_integral_triple "1" ["z"; "y"; "x"] caja "rectangular"
  = Ok registro_de_la_caja.
Proof. vm_compute. reflexivity. Qed.

(** C8: the integrand "1" over the box x∈[0,2], y∈[0,1], z∈[0,3], in the
    order z, y, x and in rectangular coordinates: the call returns a record
    whose 'resultado' is the integer 6, and the numeric evaluation of that
    result is the float 6.0, printed in the last line of the trace. *)
Theorem volumen_de_la_caja :
  ∃ r, resolver_integral_triple "1" ["z"; "y"; "x"] caja "rectangular" = Ok r
     ∧ Triple.resultado r = Integer 6
     ∧ N_float (Triple.resultado r) = Some 6%float
     ∧ str_float 6%float = "6.0"
     ∧ last (Triple.pasos r) = Some "Valor numérico aproximado = 6.0"
     ∧ r = registro_de_la_caja.
Proof.
  eexists. split; [ vm_compute; reflexivity | ].
  vm_compute. repeat split; reflexivity.
Qed.

(** *** The unit cylinder, in cylindrical coordinates *)

Definition cilindro_unidad : gmap string (string * string) :=
  {[ "z" := ("0", "1"); "theta" := ("0", "2*pi"); "r" := ("0", "1") ]}.

(** C1, evaluated.  With the integrand "r" the heuristic fires and the loop
    integrates [r]: over the unit cylinder the result is [pi], its volume.
    With the integrand "1" the heuristic does not fire, and the loop still
    integrates the integrand as parsed, [1], not [r]: the trace has no
    multiplication step and the result over the unit cylinder is [2*pi].
    The spherical branch, on the same integrand, does multiply. *)
Theorem cilindricas_integrando_uno :
  jacobiano_incluido_cilindricas "r" = true
  ∧ integrando_efectivo "r" "cilindrica" = Ok (Symbol "r" sin_supuesto)
  ∧ (Triple.resultado
       <$> resolver_integral_triple "r" ["z"; "theta"; "r"] cilindro_unidad
             "cilindrica") = Ok pi
  ∧ jacobiano_incluido_cilindricas "1" = false
  ∧ integrando_efectivo "1" "cilindrica" = Ok (Integer 1)
  ∧ integrando_efectivo "1" "cilindricas" = Ok (Integer 1)
  ∧ expr_eqb (Integer 1) (Symbol "r" sin_supuesto) = false
  ∧ resolver_integral_triple "1" ["z"; "theta"; "r"] cilindro_unidad
      "cilindrica"
    = Ok {| Triple.resultado := (Integer 2 * pi)%sp;
            Triple.pasos :=
              ["=== INTEGRAL TRIPLE - CILÍNDRICAS (R,Θ,Z) ===";
               "Fórmula: ∭ f(r,θ,z)·r dr dθ dz";
               nl ++ "Integrando inicial: 1";
               nl ++ "Paso 1: Integrar respecto de z";
               "∫ de 0 a 1 de [1] dz";
               "Resultado parcial = 1";
               nl ++ "Paso 2: Integrar respecto de theta";
               "∫ de 0 a 2*pi de [1] dtheta";
               "Resultado parcial = 2*pi";
               nl ++ "Paso 3: Integrar respecto de r";
               "∫ de 0 a 1 de [2*pi] dr";
               "Resultado parcial = 2*pi";
               nl ++ "RESULTADO FINAL = 2*pi";
               "Valor numérico aproximado = 6.283185307179586"] |}
  ∧ integrando_efectivo "1" "esferica"
    = Ok (Symbol "rho" sin_supuesto ** Integer 2
          * fn f_sin (Symbol "phi" sin_supuesto))%sp.
Proof. vm_compute. repeat split; reflexivity. Qed.

(** *** The rotation field on a disk centred at the origin *)

Definition disco_origen (R : string) : gmap string string :=
  {[ "R" := R; "centro_x" := "0"; "centro_y" := "0" ]}.

(** The rotational [aplicar_green] computes from the parsed field. *)
Definition rotacional_de (P Q : Expr) : Expr :=
  simplify (sub (diff Q (Symbol "x" real)) (diff P (Symbol "y" real))).

(** What a run on the field (-y, x) and the disk of radius [radio] returns:
    a record whose trace shows the rotational 2, whose two slots hold
    [valor], and whose trace ends with the verified line, the difference of
    the two slots simplifying to zero. *)
Definition verificado_en_el_disco (radio : string) (valor : Expr) : Prop :=
  ∃ r, aplicar_green "-y" "x" "disco" (Some (disco_origen radio))
       = Ok (datos r)
     ∧ aparece "∇×F = ∂Q/∂x - ∂P/∂y = 1 - (-1) = 2" (Green.pasos r) = true
     ∧ Green.doble r = valor
     ∧ Green.linea r = valor
     ∧ expr_eqb (simplify (sub (Green.doble r) (Green.linea r))) (Integer 0)
       = true
     ∧ last (Green.pasos r)
       = Some "✅ El teorema se verifica: ∮_C F·dr = ∬_D (∇×F) dA".

(** C2: for P = -y, Q = x on the disk of radius R centred at (0,0), the
    rotational is 2, the 'doble' and 'linea' slots both hold 2*pi*R**2, and
    the verification marks the theorem as verified; for R = 1 both slots
    hold 2*pi. *)
Theorem green_rotacion_en_el_disco :
  (∃ P Q, sympify "-y" tabla_xy = Ok P ∧ sympify "x" tabla_xy = Ok Q
          ∧ rotacional_de P Q = Integer 2)
  ∧ verificado_en_el_disco "R"
      (Integer 2 * pi * Symbol "R" sin_supuesto ** Integer 2)%sp
  ∧ verificado_en_el_disco "1" (Integer 2 * pi)%sp.
Proof.
  split.
  { do 2 eexists.
    split; [ vm_compute; reflexivity | ].
    split; [ vm_compute; reflexivity | ].
    vm_compute. reflexivity. }
  split; (eexists; split; [ vm_compute; reflexivity | ]);
    vm_compute; repeat split; reflexivity.
Qed.

(** *** The radial field on a sphere *)

Definition esfera_radio (R : string) : gmap string string := {[ "R" := R ]}.

(** What a run on the field (x, y, z) and the sphere of radius [radio]
    returns: a record with divergence 3, computed by the constant-divergence
    shortcut, whose 'volumen' slot holds [valor]; the difference between
    [valor] and [exacto] simplifies to zero. *)
Definition flujo_en_la_esfera (radio : string) (valor exacto : Expr) : Prop :=
  ∃ r, aplicar_divergencia "x" "y" "z" "esfera" (Some (esfera_radio radio))
       = Ok (datos r)
     ∧ Divergencia.divergencia r = Integer 3
     ∧ aparece "Como ∇·F = 3 es constante:" (Divergencia.pasos r) = true
     ∧ Divergencia.volumen r = valor
     ∧ expr_eqb (simplify (sub (Divergencia.volumen r) exacto)) (Integer 0)
       = true.

(** C3: for F = (x, y, z) on the sphere of radius R the divergence is 3 and
    the 'volumen' slot is 3 times (4/3)*pi*R**3.  The code writes 4/3 as a
    Python float, so the coefficient of the product is the binary64 number
    3 * (4/3), which is exactly 4: the slot holds 4.0*pi*R**3, equal to
    4*pi*R**3 (their difference simplifies to 0); for R = 1 it holds
    4.0*pi, equal to 4*pi. *)
Theorem divergencia_radial_en_la_esfera :
  (3 * (4 / 3))%float = 4%float
  ∧ MiniSymPy.Q_of_float 4%float = Some (MiniSymPy.Qint 4)
  ∧ flujo_en_la_esfera "R"
      (Float 4 * pi * Symbol "R" sin_supuesto ** Integer 3)%sp
      (Integer 4 * pi * Symbol "R" sin_supuesto ** Integer 3)%sp
  ∧ flujo_en_la_esfera "1" (Float 4 * pi)%sp (Integer 4 * pi)%sp.
Proof.
  split; [ reflexivity | ]. split; [ vm_compute; reflexivity | ].
  split; (eexists; split; [ vm_compute; reflexivity | ]);
    vm_compute; repeat split; reflexivity.
Qed.

(** *** A coordinate system the solver does not know *)

(** C4, as the claim states it, fails: with the tag "polar" the call raises
    [ValueError]; it returns nothing, so no error value either. *)
Lemma sistema_polar_lanza_ValueError :
  en_lista "polar" sistemas_reconocidos = false
  ∧ resolver_integral_triple "1" ["z"; "y"; "x"] caja "polar"
    = Raise (Exc "ValueError"
        "Sistema de coordenadas no reconocido. Use 'rectangular', 'cilindrica' o 'esferica'.")
  ∧ ¬ ∃ r, resolver_integral_triple "1" ["z"; "y"; "x"] caja "polar" = Ok r.
Proof.
  vm_compute. split; [ reflexivity | ]. split; [ reflexivity | ].
  intros [r Hr]. discriminate Hr.
Qed.

Lemma resolver_sistema_no_reconocido_polar :
  en_lista "polar" sistemas_reconocidos = false
  ∧ resolver_integral_triple "1" ["z"; "y"; "x"] caja "polar"
    = Raise sistema_no_reconocido.
Proof.
  split; [ reflexivity | ].
  apply (resolver_sistema_no_reconocido "1" ["z"; "y"; "x"] caja "polar").
  reflexivity.
Defined.

(** *** The two slots of a divergence record *)

(** The field F = (x, y, z) on a region of the given parameters. *)
Definition slots_de (region : string) (parametros : gmap string string)
    (divergencia volumen : Expr) : Prop :=
  ∃ r, aplicar_divergencia "x" "y" "z" region (Some parametros)
       = Ok (datos r)
     ∧ Divergencia.divergencia r = divergencia
     ∧ Divergencia.volumen r = volumen
     ∧ Divergencia.divergencia r ≠ Divergencia.volumen r.

(** C5, as the claim states it, fails: for F = (x, y, z) on the unit sphere
    the 'divergencia' slot holds 3 and the 'volumen' slot holds 4.0*pi; and
    on each of the other five regions too the two slots differ. *)
Lemma esfera_slots_distintos :
  slots_de "esfera" (esfera_radio "1") (Integer 3) (Float 4 * pi)%sp
  ∧ slots_de "cilindro" {[ "a" := "2"; "h" := "3" ]}
      (Integer 3) (Integer 36 * pi)%sp
  ∧ slots_de "cubo" {[ "a" := "2"; "b" := "2"; "c" := "2" ]}
      (Integer 3) (Integer 24)
  ∧ slots_de "elipsoide" {[ "a" := "1"; "b" := "2"; "c" := "3" ]}
      (Integer 3) (Integer 24 * pi)%sp
  ∧ slots_de "cono" {[ "R" := "1"; "h" := "2" ]}
      (Integer 3) (Integer 2 * pi)%sp
  ∧ slots_de "entre_superficies"
      {[ "R_int" := "1"; "R_ext" := "2"; "h" := "1" ]}
      (Integer 3) (Integer 9 * pi)%sp.
Proof.
  repeat split;
    (eexists; split; [ vm_compute; reflexivity | ];
     vm_compute; split; [ reflexivity | ]; split; [ reflexivity | ];
     intros Hr; discriminate Hr).
Qed.

Lemma divergencia_slots_esfera :
  ∃ r, aplicar_divergencia "x" "y" "z" "esfera" (Some (esfera_radio "1"))
       = Ok (datos r)
     ∧ ∃ Fx Fy Fz,
         sympify "x" tabla_xyz = Ok Fx ∧ sympify "y" tabla_xyz = Ok Fy
         ∧ sympify "z" tabla_xyz = Ok Fz
         ∧ Divergencia.divergencia r = divergencia_de Fx Fy Fz
         ∧ integral_de_volumen "esfera" (divergencia_de Fx Fy Fz)
             (Some (esfera_radio "1"))
           = Ok (datos (Divergencia.volumen r)).
Proof.
  eexists. split; [ vm_compute; reflexivity | ].
  apply (divergencia_slots "x" "y" "z" "esfera" (Some (esfera_radio "1"))).
  vm_compute. reflexivity.
Defined.

(** *** A polygon of two sides *)






(** *** Witnesses of the general theorems *)

Lemma green_verificacion_disco :
  en_lista "disco" regiones_con_dos_integrales = true
  ∧ ∃ r, aplicar_green "-y" "x" "disco" (Some (disco_origen "1"))
         = Ok (datos r)
       ∧ ∃ doble linea pasos info,
           r = _verificar_green doble linea pasos info.
Proof.
  split; [ reflexivity | ].
  eexists. split; [ vm_compute; reflexivity | ].
  destruct (green_verificacion (H := MiniSymPy.sympy)) as [_ Hregion].
  apply (Hregion "-y" "x" "disco" (Some (disco_origen "1")));
    vm_compute; reflexivity.
Defined.

Lemma stokes_plano_duplicado :
  en_lista "plano" superficies_sin_frontera = true
  ∧ ∃ r, aplicar_stokes "-y" "x" "0" "plano" (Some ∅) = Ok (datos r)
       ∧ Stokes.linea r = Stokes.superficie r
       ∧ last (Stokes.pasos r)
         = Some ("Integral de superficie = " ++ sp_pretty (Stokes.superficie r)).
Proof.
  split; [ reflexivity | ].
  eexists. split; [ vm_compute; reflexivity | ].
  apply (stokes_linea_es_superficie "-y" "x" "0" "plano" (Some ∅));
    vm_compute; reflexivity.
Defined.

End Corridas.

(** * The text operations, on texts a user may type *)

(** The no-break space, U+00A0: white space for [strip], not for C. *)
Definition espacio_duro : string := Unicode.codificar_punto 160.

(** [lower] knows the letters of every script: the spherical heuristic
    finds the Jacobian written with capital rho and phi. *)
Lemma lower_mayusculas_griegas :
  lower "Ρ²*sin(Φ)" = "ρ²*sin(φ)"
  ∧ jacobiano_incluido_esfericas "Ρ²*sin(Φ)" = true
  ∧ lower "ΟΔΟΣ ΣΟΦΟΣ" = "οδος σοφος".
Proof. vm_compute. repeat split; reflexivity. Qed.

(** [strip] removes the white space of every script; a text is left as it
    is inside. *)
Lemma strip_espacios_de_unicode :
  strip (espacio_duro ++ " a b" ++ espacio_duro ++ nl) = "a b"
  ∧ strip (Unicode.codificar [8195; 12288; 28; 133]%N) = "".
Proof. vm_compute. split; reflexivity. Qed.

(** [int] reads underscores between digits and the digits of every script,
    and refuses more than 4300 digits. *)
Lemma int_lecturas :
  Py.int "1_000" = Ok 1000%Z
  ∧ Py.int "١٢٣" = Ok 123%Z
  ∧ Py.int ("-7" ++ espacio_duro) = Ok (-7)%Z
  ∧ Py.int "1__0" = Raise (error_int "1__0")
  ∧ Py.int "_1" = Raise (error_int "_1")
  ∧ Py.int "1.0" = Raise (error_int "1.0")
  ∧ raised (Py.int (repetir "1" 4300)) = false
  ∧ Py.int (repetir "1" 4301) = Raise (error_limite 4301).
Proof. vm_compute. repeat split; reflexivity. Qed.

(** [float] reads the same digits, a fraction and an exponent. *)
Lemma float_lecturas :
  float_valido "1_000.5e-3" = true
  ∧ float_valido "١٢٣" = true
  ∧ float_valido (espacio_duro ++ "-Infinity") = true
  ∧ float_valido "1_" = false
  ∧ float_valido "2*pi" = false
  ∧ float_valido "" = false.
Proof. vm_compute. repeat split; reflexivity. Qed.

(** [repr] chooses the quotes by the text, and escapes what it must. *)
Lemma repr_comillas :
  repr "z" = "'z'"
  ∧ repr "a'b" = String comillas ("a'b" ++ String comillas "")
  ∧ repr ("a'b" ++ String comillas "") = "'a" ++ barra ++ "'b" ++ String comillas "'"
  ∧ repr ("a" ++ nl ++ espacio_duro) = "'a" ++ barra ++ "n" ++ barra ++ "xa0'".
Proof. vm_compute. repeat split; reflexivity. Qed.

(** * Further properties of the engine *)

(** The regions and surfaces the evaluators dispatch on. *)
Definition regiones_green : list string :=
  ["disco"; "corona"; "rectangulo"; "elipse"; "triangulo"; "semicirculo";
   "entre_curvas"; "sector_polar"; "poligono"].

Definition regiones_divergencia : list string :=
  ["esfera"; "cilindro"; "cubo"; "elipsoide"; "cono"; "entre_superficies"].

Definition superficies_stokes : list string :=
  ["disco"; "plano"; "paraboloide"; "cilindro"].

(** Membership of a literal in a literal list, evaluated. *)
Ltac evaluar_listas :=
  repeat match goal with
  | |- context [en_lista ?s ?l] =>
      let b := eval vm_compute in (en_lista s l) in
      change (en_lista s l) with b
  end;
  cbv beta iota.

(** Comparisons of two literals, evaluated. *)
Ltac evaluar_eqb :=
  repeat match goal with
  | |- context [String.eqb ?a ?b] =>
      let v := eval vm_compute in (String.eqb a b) in
      match v with
      | true => change (String.eqb a b) with true
      | false => change (String.eqb a b) with false
      end
  end;
  cbv beta iota.

Ltac region_literal Hreg :=
  cbv [regiones_green regiones_divergencia superficies_stokes] in Hreg;
  rewrite !en_lista_cons in Hreg; simpl en_lista in Hreg;
  rewrite ?orb_false_r in Hreg;
  repeat (apply orb_true_iff in Hreg as [Hreg|Hreg]);
  apply String.eqb_eq in Hreg; subst.

Ltac region_ajena Hreg :=
  cbv [regiones_green regiones_divergencia superficies_stokes] in Hreg;
  rewrite !en_lista_cons in Hreg; simpl en_lista in Hreg;
  rewrite ?orb_false_r in Hreg; rewrite !orb_false_iff in Hreg;
  repeat match type of Hreg with
         | _ ∧ _ => let Hr := fresh "Hr" in destruct Hreg as [Hr Hreg]; rewrite ?Hr
         end;
  rewrite ?Hreg.

Section Adicionales.

Context `{SymPy}.

(** *** The triple-integral solver: edge cases *)

Definition tabla_rectangulares : gmap string (local Expr) :=
  {[ "x" := LExpr (Symbol "x" sin_supuesto);
     "y" := LExpr (Symbol "y" sin_supuesto);
     "z" := LExpr (Symbol "z" sin_supuesto) ]}.

Definition tabla_esfericas : gmap string (local Expr) :=
  {[ "rho" := LExpr (Symbol "rho" sin_supuesto);
     "theta" := LExpr (Symbol "theta" sin_supuesto);
     "phi" := LExpr (Symbol "phi" sin_supuesto); "pi" := LExpr pi ]}.

(** The names the integrand and the limits are parsed with. *)
Definition tabla_de (sistema_coordenadas : string) : gmap string (local Expr) :=
  if en_lista sistema_coordenadas ["rectangular"; "rectangulares"] then
    tabla_rectangulares
  else if en_lista sistema_coordenadas ["cilindrica"; "cilindricas"] then
    tabla_cilindricas
  else tabla_esfericas.

(** The Jacobian of spherical coordinates, as the code writes it. *)
Definition jacobiano_esfericas : Expr :=
  (Symbol "rho" sin_supuesto ** Integer 2
   * fn f_sin (Symbol "phi" sin_supuesto))%sp.

Lemma preparar_integrando_tabla (integrando sistema : string)
    (p : integrando_preparado) :
  preparar_integrando integrando sistema = Ok p →
  vars_locales p = tabla_de sistema.
Proof.
  unfold preparar_integrando, tabla_de. cbv zeta.
  destruct (en_lista sistema ["rectangular"; "rectangulares"]).
  { destruct (sympify integrando _); intros Hp; [ | discriminate Hp ].
    injection Hp as <-. reflexivity. }
  destruct (en_lista sistema ["cilindrica"; "cilindricas"]).
  { destruct (sympify integrando _); intros Hp; [ | discriminate Hp ].
    injection Hp as <-. reflexivity. }
  destruct (en_lista sistema ["esferica"; "esfericas"]);
    [ | intros Hp; discriminate Hp ].
  destruct (sympify integrando _); [ | intros Hp; discriminate Hp ].
  cbn [mbind outcome_bind].
  destruct (jacobiano_incluido_esfericas integrando); intros Hp;
    injection Hp as <-; reflexivity.
Qed.

Lemma integrando_efectivo_casos (integrando sistema : string) :
  en_lista sistema sistemas_reconocidos = true →
  integrando_efectivo integrando sistema
  = (expr ← sympify integrando (tabla_de sistema);
     mret (if en_lista sistema ["esferica"; "esfericas"]
              && negb (jacobiano_incluido_esfericas integrando)
           then (expr * jacobiano_esfericas)%sp else expr)).
Proof.
  intros Hs. unfold sistemas_reconocidos in Hs.
  rewrite !en_lista_cons in Hs. simpl en_lista in Hs.
  rewrite !orb_true_iff in Hs.
  unfold integrando_efectivo, preparar_integrando, tabla_de. cbv zeta.
  fold tabla_rectangulares tabla_cilindricas tabla_esfericas.
  fold jacobiano_esfericas.
  destruct Hs as [Hs|[Hs|[Hs|[Hs|[Hs|[Hs|Hs]]]]]];
    [ apply String.eqb_eq in Hs; subst sistema; evaluar_listas .. |
      discriminate Hs ].
  - destruct (sympify integrando tabla_rectangulares); reflexivity.
  - destruct (sympify integrando tabla_rectangulares); reflexivity.
  - destruct (sympify integrando tabla_cilindricas); reflexivity.
  - destruct (sympify integrando tabla_cilindricas); reflexivity.
  - destruct (sympify integrando tabla_esfericas); [ | reflexivity ].
    cbn [mbind outcome_bind andb].
    destruct (jacobiano_incluido_esfericas integrando); reflexivity.
  - destruct (sympify integrando tabla_esfericas); [ | reflexivity ].
    cbn [mbind outcome_bind andb].
    destruct (jacobiano_incluido_esfericas integrando); reflexivity.
Qed.

(** X1: which integrand the integration starts from, system by system: the
    parsed text in rectangular and in cylindrical coordinates; in spherical
    coordinates the parsed text times the Jacobian, unless the text already
    shows the Jacobian to the heuristic.  A text SymPy does not parse raises
    SymPy's exception. *)
Theorem integrando_por_sistema (integrando sistema : string) :
  en_lista sistema sistemas_reconocidos = true →
  integrando_efectivo integrando sistema
  = (expr ← sympify integrando (tabla_de sistema);
     mret (if en_lista sistema ["esferica"; "esfericas"]
              && negb (jacobiano_incluido_esfericas integrando)
           then (expr * jacobiano_esfericas)%sp else expr)).
Proof. exact (integrando_efectivo_casos integrando sistema). Qed.

(** X2: with no variable to integrate over, the solver returns the integrand it
    would have started from, and the limits are not read. *)
Theorem resolver_sin_variables (integrando sistema : string)
    (limites : gmap string (string * string)) (e : Expr) :
  integrando_efectivo integrando sistema = Ok e →
  ∃ r, resolver_integral_triple integrando [] limites sistema = Ok r
     ∧ Triple.resultado r = e
     ∧ last (Triple.pasos r) = Some (paso_valor_numerico e).
Proof.
  unfold integrando_efectivo, resolver_integral_triple.
  destruct (preparar_integrando integrando sistema) as [p|]; intros He;
    [ | discriminate He ].
  injection He as <-. cbn [mbind outcome_bind mret outcome_ret integrar_paso_a_paso].
  eexists. split; [ reflexivity | ]. split; [ reflexivity | ].
  cbn [Triple.pasos]. apply last_append.
Qed.

Lemma limite_ausente (integrando sistema var : string)
    (resto : list string) (limites : gmap string (string * string))
    (e : Expr) :
  integrando_efectivo integrando sistema = Ok e →
  limites !! var = None →
  resolver_integral_triple integrando (var :: resto) limites sistema
  = Raise (Exc "KeyError" (repr var)).
Proof.
  unfold integrando_efectivo, resolver_integral_triple.
  destruct (preparar_integrando integrando sistema) as [p|]; intros He Hvar;
    [ | discriminate He ].
  cbn [mbind outcome_bind integrar_paso_a_paso]. unfold getitem.
  rewrite Hvar. reflexivity.
Qed.

(** X3: a variable of the integration order that has no entry in [limites]
    stops the solver with [KeyError], before anything is integrated. *)
Theorem resolver_limite_ausente (integrando sistema var : string)
    (resto : list string) (limites : gmap string (string * string))
    (e : Expr) :
  integrando_efectivo integrando sistema = Ok e →
  limites !! var = None →
  resolver_integral_triple integrando (var :: resto) limites sistema
  = Raise (Exc "KeyError" (repr var)).
Proof. exact (limite_ausente integrando sistema var resto limites e). Qed.

(** X4: an integrand SymPy refuses makes the solver raise SymPy's exception: the
    solver has no error value to return. *)
Theorem resolver_integrando_invalido (integrando sistema : string)
    (variables : list string) (limites : gmap string (string * string))
    (e : exn) :
  en_lista sistema sistemas_reconocidos = true →
  sympify integrando (tabla_de sistema) = Raise e →
  resolver_integral_triple integrando variables limites sistema = Raise e.
Proof.
  intros Hs He. pose proof (integrando_efectivo_casos integrando _ Hs) as Hi.
  rewrite He in Hi. unfold integrando_efectivo in Hi.
  unfold resolver_integral_triple.
  destruct (preparar_integrando integrando sistema); [ discriminate Hi | ].
  injection Hi as ->. reflexivity.
Qed.

(** Each variable of the order adds three lines to the trace; the first of
    the three numbers the step, counting from [i] in the order given. *)
Lemma integrar_paso_a_paso_pasos (tabla : gmap string (local Expr))
    (limites : gmap string (string * string)) (variables : list string) :
  ∀ (i : Z) (expr : Expr) (pasos : list string) (e : Expr)
    (pasos' : list string),
    integrar_paso_a_paso tabla limites i variables expr pasos
    = Ok (e, pasos') →
    ∃ nuevos,
      pasos' = (pasos ++ nuevos)%list
      ∧ length nuevos = (3 * length variables)%nat
      ∧ ∀ (k : nat) (var : string),
          variables !! k = Some var →
          nuevos !! (3 * k)%nat
          = Some (nl ++ "Paso " ++ str_int (i + Z.of_nat k)
                  ++ ": Integrar respecto de " ++ var).
Proof.
  induction variables as [|var resto IH]; intros i expr pasos e pasos' Hr.
  - injection Hr as _ <-. exists []. rewrite app_nil_r.
    split; [ reflexivity | ]. split; [ reflexivity | ].
    intros k v Hk. discriminate Hk.
  - cbn [integrar_paso_a_paso] in Hr.
    destruct (getitem limites var) as [[a b]|]; [ | discriminate Hr ].
    cbn [mbind outcome_bind] in Hr.
    destruct (sympify a tabla) as [lim_a|]; [ | discriminate Hr ].
    cbn [mbind outcome_bind] in Hr.
    destruct (sympify b tabla) as [lim_b|]; [ | discriminate Hr ].
    cbn [mbind outcome_bind] in Hr.
    destruct (integrate expr _) as [integral|]; [ | discriminate Hr ].
    cbn [mbind outcome_bind] in Hr.
    apply IH in Hr as (nuevos & -> & Hlen & Hk).
    eexists (_ :: _ :: _ :: nuevos). unfold append.
    split; [ rewrite <- !app_assoc; reflexivity | ].
    split; [ cbn [length]; lia | ].
    intros [|k] v Hv.
    + injection Hv as <-. cbn [Nat.mul lookup list_lookup].
      replace (i + Z.of_nat 0)%Z with i by lia. reflexivity.
    + cbn [lookup list_lookup] in Hv. apply Hk in Hv.
      replace (3 * S k)%nat with (S (S (S (3 * k)))) by lia.
      cbn [lookup list_lookup].
      replace (i + Z.of_nat (S k))%Z with (i + 1 + Z.of_nat k)%Z by lia.
      exact Hv.
Qed.

(** X5: in every returned trace the steps come in the order of [variables],
    three lines each, numbered from 1; after them come the two final lines
    and nothing else: the text of the returned result, then its numeric
    value or the note that it has none. *)
Theorem pasos_numerados (integrando sistema : string)
    (variables : list string) (limites : gmap string (string * string))
    (r : Triple.t Expr) :
  resolver_integral_triple integrando variables limites sistema = Ok r →
  ∃ previos nuevos,
    Triple.pasos r
    = (previos ++ nuevos
       ++ [(nl ++ "RESULTADO FINAL = " ++ str (Triple.resultado r))%string;
           paso_valor_numerico (Triple.resultado r)])%list
    ∧ length nuevos = (3 * length variables)%nat
    ∧ ∀ (k : nat) (var : string),
        variables !! k = Some var →
        nuevos !! (3 * k)%nat
        = Some (nl ++ "Paso " ++ str_int (Z.of_nat k + 1)
                ++ ": Integrar respecto de " ++ var).
Proof.
  unfold resolver_integral_triple.
  destruct (preparar_integrando integrando sistema) as [p|];
    [ | intros Hr; discriminate Hr ].
  cbn [mbind outcome_bind].
  destruct (integrar_paso_a_paso _ _ _ _ _ _) as [[e pasos]|] eqn:Hi;
    [ | intros Hr; discriminate Hr ].
  intros Hr. injection Hr as <-.
  apply integrar_paso_a_paso_pasos in Hi as (nuevos & -> & Hlen & Hk).
  exists (pasos_previos p), nuevos.
  split; [ unfold append; cbn [Triple.pasos Triple.resultado];
           rewrite <- !app_assoc; reflexivity | ].
  split; [ exact Hlen | ].
  intros k var Hvar. rewrite (Hk k var Hvar).
  replace (1 + Z.of_nat k)%Z with (Z.of_nat k + 1)%Z by lia. reflexivity.
Qed.

(** X6: the cylindrical heuristic looks at the first characters only: a text
    that begins with r and one of + - * / is taken to contain the Jacobian,
    whatever follows. *)
Theorem cilindricas_jacobiano_por_prefijo (op : ascii) (resto : string) :
  In op ["+"; "-"; "*"; "/"]%char →
  jacobiano_incluido_cilindricas (String "r" (String op resto)) = true.
Proof.
  intros Hop. cbn [In] in Hop.
  assert (Hl : ∃ cola, lower (quitar_espacios (String "r" (String op resto)))
                       = String "r" (String op cola)).
  { destruct Hop as [<-|[<-|[<-|[<-|[]]]]];
      (eexists; unfold lower;
       change (quitar_espacios (String "r" (String ?c resto)))
         with (String "r" (String c (quitar_espacios resto)));
       cbn [Unicode.decodificar Unicode.byte N_of_ascii N.ltb N.compare
            Pos.compare Pos.compare_cont N_of_digits N.add N.mul Pos.add
            Pos.mul Pos.succ];
       reflexivity). }
  destruct Hl as (cola & Hl).
  unfold jacobiano_incluido_cilindricas. cbv zeta. rewrite Hl.
  destruct Hop as [<-|[<-|[<-|[<-|[]]]]];
    destruct cola; vm_compute; reflexivity.
Qed.

(** *** The three evaluators: what they answer when they cannot compute *)

(** [None.get(...)] *)
Definition sin_parametros : exn :=
  Exc "AttributeError" "'NoneType' object has no attribute 'get'".

(** The three components of a field, parsed one after the other. *)
Definition campo_xyz (Fx_str Fy_str Fz_str : string)
  : outcome (Expr * Expr * Expr) :=
  Fx ← sympify Fx_str tabla_xyz; Fy ← sympify Fy_str tabla_xyz;
  Fz ← sympify Fz_str tabla_xyz; mret (Fx, Fy, Fz).

Definition campo_xy (P_str Q_str : string) : outcome (Expr * Expr) :=
  P ← sympify P_str tabla_xy; Q ← sympify Q_str tabla_xy; mret (P, Q).

(** X7: a field text SymPy refuses is answered with an error value that quotes
    SymPy's message, before the region or its parameters are looked at. *)
Theorem campo_invalido_es_un_error :
  (∀ (P_str Q_str region : string) (params : option (gmap string string))
     (e : exn),
     campo_xy P_str Q_str = Raise e →
     aplicar_green P_str Q_str region params
     = Ok (error ("Error analizando P o Q: " ++ exn_str e)))
  ∧ (∀ (Fx_str Fy_str Fz_str region : string)
       (params : option (gmap string string)) (e : exn),
       campo_xyz Fx_str Fy_str Fz_str = Raise e →
       aplicar_divergencia Fx_str Fy_str Fz_str region params
       = Ok (error ("Error analizando las componentes del campo: "
                    ++ exn_str e))
       ∧ aplicar_stokes Fx_str Fy_str Fz_str region params
         = Ok (error ("Error analizando las componentes del campo: "
                      ++ exn_str e))).
Proof.
  split.
  - intros P_str Q_str region params e He.
    unfold aplicar_green. cbv zeta. fold tabla_xy.
    fold (campo_xy P_str Q_str). rewrite He. reflexivity.
  - intros Fx_str Fy_str Fz_str region params e He. split.
    + unfold aplicar_divergencia. cbv zeta. fold tabla_xyz.
      fold (campo_xyz Fx_str Fy_str Fz_str). rewrite He. reflexivity.
    + unfold aplicar_stokes. cbv zeta. fold tabla_xyz.
      fold (campo_xyz Fx_str Fy_str Fz_str). rewrite He. reflexivity.
Qed.

(** X8: a region or surface tag the evaluator does not know is answered with
    an error value, once the field has parsed; the parameters are not
    read. *)
Theorem region_no_soportada :
  (∀ (P_str Q_str region : string) (params : option (gmap string string))
     (PQ : Expr * Expr),
     campo_xy P_str Q_str = Ok PQ →
     en_lista region regiones_green = false →
     aplicar_green P_str Q_str region params
     = Ok (error "Región no soportada para el Teorema de Green."))
  ∧ (∀ (Fx_str Fy_str Fz_str region : string)
       (params : option (gmap string string)) (F : Expr * Expr * Expr),
       campo_xyz Fx_str Fy_str Fz_str = Ok F →
       en_lista region regiones_divergencia = false →
       aplicar_divergencia Fx_str Fy_str Fz_str region params
       = Ok (error "Región no soportada para el Teorema de la Divergencia."))
  ∧ (∀ (Fx_str Fy_str Fz_str superficie : string)
       (params : option (gmap string string)) (F : Expr * Expr * Expr),
       campo_xyz Fx_str Fy_str Fz_str = Ok F →
       en_lista superficie superficies_stokes = false →
       aplicar_stokes Fx_str Fy_str Fz_str superficie params
       = Ok (error "Superficie no soportada. Use: disco, plano, paraboloide, cilindro")).
Proof.
  split; [ | split ].
  - intros P_str Q_str region params [P Q] HF Hreg.
    unfold aplicar_green. cbv zeta. fold tabla_xy.
    fold (campo_xy P_str Q_str). rewrite HF. cbv beta iota.
    region_ajena Hreg. reflexivity.
  - intros Fx_str Fy_str Fz_str region params [[Fx Fy] Fz] HF Hreg.
    unfold aplicar_divergencia. cbv zeta. fold tabla_xyz.
    fold (campo_xyz Fx_str Fy_str Fz_str). rewrite HF. cbv beta iota.
    region_ajena Hreg. reflexivity.
  - intros Fx_str Fy_str Fz_str superficie params [[Fx Fy] Fz] HF Hreg.
    unfold aplicar_stokes. cbv zeta. fold tabla_xyz.
    fold (campo_xyz Fx_str Fy_str Fz_str). rewrite HF. cbv beta iota.
    region_ajena Hreg. reflexivity.
Qed.

(** X9: called without parameters ([parametros_region] left at its default
    [None]), every supported region and surface raises [AttributeError] as
    soon as the field has parsed: the default value of the argument cannot
    be used. *)
Theorem sin_parametros_lanza_AttributeError :
  (∀ (P_str Q_str region : string) (PQ : Expr * Expr),
     campo_xy P_str Q_str = Ok PQ →
     en_lista region regiones_green = true →
     aplicar_green P_str Q_str region None = Raise sin_parametros)
  ∧ (∀ (Fx_str Fy_str Fz_str region : string) (F : Expr * Expr * Expr),
       campo_xyz Fx_str Fy_str Fz_str = Ok F →
       en_lista region regiones_divergencia = true →
       aplicar_divergencia Fx_str Fy_str Fz_str region None
       = Raise sin_parametros)
  ∧ (∀ (Fx_str Fy_str Fz_str superficie : string) (F : Expr * Expr * Expr),
       campo_xyz Fx_str Fy_str Fz_str = Ok F →
       en_lista superficie superficies_stokes = true →
       aplicar_stokes Fx_str Fy_str Fz_str superficie None
       = Raise sin_parametros).
Proof.
  split; [ | split ].
  - intros P_str Q_str region [P Q] HF Hreg.
    unfold aplicar_green. cbv zeta. fold tabla_xy.
    fold (campo_xy P_str Q_str). rewrite HF. cbv beta iota.
    region_literal Hreg; evaluar_eqb; reflexivity.
  - intros Fx_str Fy_str Fz_str region [[Fx Fy] Fz] HF Hreg.
    unfold aplicar_divergencia. cbv zeta. fold tabla_xyz.
    fold (campo_xyz Fx_str Fy_str Fz_str). rewrite HF. cbv beta iota.
    region_literal Hreg; evaluar_eqb; reflexivity.
  - intros Fx_str Fy_str Fz_str superficie [[Fx Fy] Fz] HF Hreg.
    unfold aplicar_stokes. cbv zeta. fold tabla_xyz.
    fold (campo_xyz Fx_str Fy_str Fz_str). rewrite HF. cbv beta iota.
    region_literal Hreg; evaluar_eqb; reflexivity.
Qed.

(** *** Green on a polygon: one integral, written twice *)






(** *** Stokes on a disk: the verification *)

Definition linea_verificacion_stokes (superficie linea : Expr) : string :=
  if expr_eqb (simplify (sub superficie linea)) (Integer 0) then
    "✅ El teorema de Stokes se verifica: ∮_C F·dr = ∬_S (∇×F)·dS"
  else "❌ Los resultados no coinciden".

Definition stokes_verificado (r : Stokes.t Expr) : Prop :=
  ∃ previos,
    Stokes.pasos r
    = (previos
       ++ [""; "VERIFICACIÓN DEL TEOREMA DE STOKES:";
           ("Integral de superficie: " ++ sp_pretty (Stokes.superficie r))%string;
           ("Integral de línea: " ++ sp_pretty (Stokes.linea r))%string;
           linea_verificacion_stokes (Stokes.superficie r) (Stokes.linea r)])%list.

Lemma append_cinco {A} (l : list A) (a b c d e : A) :
  append (append (append (append (append l a) b) c) d) e
  = (l ++ [a; b; c; d; e])%list.
Proof. unfold append. rewrite <- !app_assoc. reflexivity. Qed.

Lemma stokes_disco_verificado x y z Fx Fy Fz M params pasos info :
  cumple (si_datos stokes_verificado)
    (stokes_disco x y z Fx Fy Fz M params pasos info).
Proof.
  unfold stokes_disco. pasos_todos.
  cbn [si_datos]. unfold stokes_verificado, linea_verificacion_stokes.
  cbn [Stokes.pasos Stokes.superficie Stokes.linea].
  destruct (expr_eqb _ _); eexists; apply append_cinco.
Qed.

(** X11: for the surface 'disco' both integrals are computed and compared: a
    returned trace ends with the two values and one verdict, the verified
    line when [simplify(superficie - linea)] is zero and the line 'Los
    resultados no coinciden' otherwise.  Unlike [_verificar_green], the
    residual itself is not printed. *)
Theorem stokes_disco_verificacion (Fx_str Fy_str Fz_str : string)
    (params : option (gmap string string)) (r : Stokes.t Expr) :
  aplicar_stokes Fx_str Fy_str Fz_str "disco" params = Ok (datos r) →
  ∃ previos,
    Stokes.pasos r
    = (previos
       ++ [""; "VERIFICACIÓN DEL TEOREMA DE STOKES:";
           ("Integral de superficie: " ++ sp_pretty (Stokes.superficie r))%string;
           ("Integral de línea: " ++ sp_pretty (Stokes.linea r))%string;
           linea_verificacion_stokes (Stokes.superficie r) (Stokes.linea r)])%list.
Proof.
  intros Hr.
  apply (de_cumple stokes_verificado _ _) in Hr; [ exact Hr | ].
  clear Hr. unfold aplicar_stokes. cbv zeta.
  destruct (_ ≫= _) as [[[Fx Fy] Fz]|]; [ | exact I ].
  evaluar_eqb. apply stokes_disco_verificado.
Qed.

(** *** Divergence on a cylinder: the radius is read under the key 'a' *)

Lemma divergencia_cilindro_lee_a_y_h (Fx_str Fy_str Fz_str : string)
    (m1 m2 : gmap string string) :
  m1 !! "a" = m2 !! "a" →
  m1 !! "h" = m2 !! "h" →
  aplicar_divergencia Fx_str Fy_str Fz_str "cilindro" (Some m1)
  = aplicar_divergencia Fx_str Fy_str Fz_str "cilindro" (Some m2).
Proof.
  intros Ha Hh. unfold aplicar_divergencia. cbv zeta.
  destruct (_ ≫= _) as [[[Fx Fy] Fz]|]; [ | reflexivity ].
  evaluar_eqb. unfold divergencia_cilindro, get.
  rewrite Ha, Hh. reflexivity.
Qed.

(** X12: [aplicar_divergencia] with 'cilindro' reads its parameters under
    the keys 'a' and 'h' only: two dictionaries that agree on these two keys
    get the same answer, whatever they hold under 'R'. *)
Theorem divergencia_cilindro_claves (Fx_str Fy_str Fz_str : string)
    (m1 m2 : gmap string string) :
  m1 !! "a" = m2 !! "a" →
  m1 !! "h" = m2 !! "h" →
  aplicar_divergencia Fx_str Fy_str Fz_str "cilindro" (Some m1)
  = aplicar_divergencia Fx_str Fy_str Fz_str "cilindro" (Some m2).
Proof. exact (divergencia_cilindro_lee_a_y_h Fx_str Fy_str Fz_str m1 m2). Qed.

(** *** Divergence on a sphere: the constant-divergence shortcut *)

Definition volumen_por_atajo (m : gmap string string)
    (r : Divergencia.t Expr) : Prop :=
  is_constant (Divergencia.divergencia r) = true →
  ∃ R, sympify0 (default "1" (m !! "R")) = Ok R
       ∧ Divergencia.volumen r
         = (Divergencia.divergencia r
            * (Float (4 / 3)%float * pi * R ** Integer 3))%sp.

Lemma divergencia_esfera_atajo x y z Fx Fy Fz divF m pasos info :
  cumple (si_datos (volumen_por_atajo m))
    (divergencia_esfera x y z Fx Fy Fz divF (Some m) pasos info).
Proof.
  unfold divergencia_esfera. cbn [get mbind outcome_bind].
  destruct (sympify0 (default "1" (m !! "R"))) as [R|] eqn:HR; [ | exact I ].
  cbn [mbind outcome_bind]. cbv zeta.
  destruct (is_constant divF) eqn:Hc.
  - cbn [mbind outcome_bind mret outcome_ret]. pasos_todos.
    cbn [si_datos]. intros _. exists R. split; [ exact HR | reflexivity ].
  - pasos_todos; try exact I.
    cbn [si_datos]. unfold volumen_por_atajo.
    cbn [Divergencia.divergencia]. rewrite Hc. intros Hf. discriminate Hf.
Qed.

(** X13: for 'esfera', when the divergence of the field is constant the volume
    integral is not integrated: the 'volumen' slot is the divergence times
    (4/3)*pi*R**3, with 4/3 the Python float and R the parameter 'R' (1 when
    the dictionary has none). *)
Theorem esfera_divergencia_constante (Fx_str Fy_str Fz_str : string)
    (m : gmap string string) (r : Divergencia.t Expr) :
  aplicar_divergencia Fx_str Fy_str Fz_str "esfera" (Some m) = Ok (datos r) →
  is_constant (Divergencia.divergencia r) = true →
  ∃ R, sympify0 (default "1" (m !! "R")) = Ok R
       ∧ Divergencia.volumen r
         = (Divergencia.divergencia r
            * (Float (4 / 3)%float * pi * R ** Integer 3))%sp.
Proof.
  intros Hr.
  apply (de_cumple (volumen_por_atajo m) _ _) in Hr; [ exact Hr | ].
  clear Hr. unfold aplicar_divergencia. cbv zeta.
  destruct (_ ≫= _) as [[[Fx Fy] Fz]|]; [ | exact I ].
  evaluar_eqb. apply divergencia_esfera_atajo.
Qed.

(** *** The trace of every evaluator *)

(** X25: whichever of the four evaluators is called and whatever its
    arguments, the step trace of the record it returns is not empty. *)
Theorem traza_no_vacia (c : llamada) (r : registro) (pasos : list string) :
  ejecutar c = Ok r →
  traza r = Some pasos →
  pasos ≠ [].
Proof.
  intros Hr Ht.
  destruct c; simpl in Hr; apply fmap_Ok in Hr as (a & Ha & ->).
  - injection Ht as <-. exact (cumple_Ok _ _ _ (resolver_traza _ _ _ _) Ha).
  - destruct a as [m|d]; [ discriminate Ht | ]. injection Ht as <-.
    exact (de_cumple _ _ _ (green_traza _ _ _ _) Ha).
  - destruct a as [m|d]; [ discriminate Ht | ]. injection Ht as <-.
    exact (de_cumple _ _ _ (divergencia_traza _ _ _ _ _) Ha).
  - destruct a as [m|d]; [ discriminate Ht | ]. injection Ht as <-.
    exact (de_cumple _ _ _ (stokes_traza _ _ _ _ _) Ha).
Qed.

End Adicionales.

(** * Further properties of the dialog *)

Section Dialogo.

Import DialogoEntrada.

(** The fields stored so far: [self.resultados[nombre] = valor], field after
    field. *)
Fixpoint guardados (campos : list (string * string))
    (resultados : gmap string string) : gmap string string :=
  match campos with
  | [] => resultados
  | (nombre, texto) :: resto =>
      guardados resto (<[nombre := strip texto]> resultados)
  end.

Lemma validar_campos_vacio (antes despues : list (string * string))
    (nombre texto : string) :
  Forall (λ campo, strip campo.2 ≠ "") antes →
  strip texto = "" →
  ∀ d, validar_campos (antes ++ (nombre, texto) :: despues) d
       = ({| entries := entries d;
             resultados := guardados antes (resultados d);
             avisos := append (avisos d)
                         ("Campo vacío",
                          "Por favor complete el campo: " ++ nombre);
             destruido := destruido d |}, false).
Proof.
  intros Hantes Htexto.
  induction Hantes as [|[n t] antes Hn Hantes IH]; intros d.
  - cbn [app validar_campos]. rewrite Htexto. reflexivity.
  - cbn [app validar_campos]. cbn [snd] in Hn.
    destruct (String.eqb (strip t) "") eqn:He;
      [ apply String.eqb_eq in He; contradiction | ].
    rewrite IH. reflexivity.
Qed.

(** X14: the first field left empty (or blank) stops [aceptar]: a warning names
    that field, the dialog stays open, and only the fields before it have
    been stored. *)
Theorem aceptar_campo_vacio (d : DialogoEntrada.t)
    (antes despues : list (string * string)) (nombre texto : string) :
  entries d = (antes ++ (nombre, texto) :: despues)%list →
  Forall (λ campo, strip campo.2 ≠ "") antes →
  strip texto = "" →
  ∃ d', aceptar d = Ok d'
      ∧ destruido d' = destruido d
      ∧ avisos d' = append (avisos d)
                      ("Campo vacío", "Por favor complete el campo: " ++ nombre)
      ∧ resultados d' = guardados antes (resultados d).
Proof.
  intros Hd Hantes Htexto. unfold aceptar. rewrite Hd.
  rewrite (validar_campos_vacio _ _ _ _ Hantes Htexto). cbn [negb].
  eexists. split; [ reflexivity | ]. repeat split.
Qed.

Lemma validar_campos_completos (campos : list (string * string)) :
  ∀ d d1, validar_campos campos d = (d1, true) →
          Forall (λ campo, strip campo.2 ≠ "") campos
          ∧ d1 = {| entries := entries d;
                    resultados := guardados campos (resultados d);
                    avisos := avisos d; destruido := destruido d |}.
Proof.
  induction campos as [|[n t] campos IH]; intros d d1 Hd.
  - injection Hd as <-. split; [ constructor | ]. destruct d; reflexivity.
  - cbn [validar_campos] in Hd.
    destruct (String.eqb (strip t) "") eqn:He; [ discriminate Hd | ].
    apply String.eqb_neq in He. apply IH in Hd as [Hcampos ->].
    split; [ constructor; [ exact He | exact Hcampos ] | reflexivity ].
Qed.

Lemma guardados_fuera (campos : list (string * string)) :
  ∀ (m : gmap string string) (n : string),
    n ∉ campos.*1 → guardados campos m !! n = m !! n.
Proof.
  induction campos as [|[n0 t0] campos IH]; intros m n Hn; [ reflexivity | ].
  cbn [guardados].
  rewrite fmap_cons in Hn. cbn [fst] in Hn.
  apply not_elem_of_cons in Hn as [Hne Hn].
  rewrite (IH _ _ Hn). apply lookup_insert_ne. congruence.
Qed.

Lemma guardados_dentro (campos : list (string * string)) :
  ∀ (m : gmap string string) (n t : string),
    NoDup campos.*1 → (n, t) ∈ campos →
    guardados campos m !! n = Some (strip t).
Proof.
  induction campos as [|[n0 t0] campos IH]; intros m n t Hdup Hin.
  - apply elem_of_nil in Hin. destruct Hin.
  - rewrite fmap_cons in Hdup. cbn [fst] in Hdup.
    apply NoDup_cons in Hdup as [Hn0 Hdup].
    cbn [guardados].
    apply elem_of_cons in Hin as [Hin|Hin].
    + injection Hin as -> ->. rewrite (guardados_fuera _ _ _ Hn0).
      apply lookup_insert_eq.
    + apply (IH _ _ _ Hdup Hin).
Qed.

Lemma guardados_clave (campos : list (string * string)) :
  ∀ (m : gmap string string) (n t : string),
    (n, t) ∈ campos → is_Some (guardados campos m !! n).
Proof.
  induction campos as [|[n0 t0] campos IH]; intros m n t Hin.
  - apply elem_of_nil in Hin. destruct Hin.
  - cbn [guardados foldl fst snd]. fold (guardados campos).
    destruct (decide (n ∈ campos.*1)) as [Hn|Hn].
    + apply list_elem_of_fmap in Hn as ([n' t'] & -> & Hn).
      apply (IH _ _ _ Hn).
    + rewrite (guardados_fuera _ _ _ Hn).
      apply elem_of_cons in Hin as [Hin|Hin].
      * injection Hin as -> ->. rewrite lookup_insert_eq. eauto.
      * exfalso. apply Hn. apply list_elem_of_fmap. exists (n, t). auto.
Qed.

Lemma validar_campos_llenos (campos : list (string * string)) :
  Forall (λ campo, strip campo.2 ≠ "") campos →
  ∀ d, validar_campos campos d
       = ({| entries := entries d;
             resultados := guardados campos (resultados d);
             avisos := avisos d; destruido := destruido d |}, true).
Proof.
  induction 1 as [|[n t] campos Ht Hcampos IH]; intros d.
  - destruct d; reflexivity.
  - cbn [validar_campos guardados]. cbn [snd] in Ht.
    apply String.eqb_neq in Ht. rewrite Ht. rewrite IH. reflexivity.
Qed.

(** What the checks of the [try] block can end with: they pass, the polygon
    warning is shown, or [ValueError] is raised. *)
Inductive fin_de_validacion (d : DialogoEntrada.t)
  : outcome (DialogoEntrada.t * bool) → Prop :=
| validos : fin_de_validacion d (Ok (d, true))
| pocos_lados :
    fin_de_validacion d
      (Ok (showwarning "Error" "Un polígono debe tener al menos 3 lados" d,
           false))
| mal_formato (mensaje : string) :
    fin_de_validacion d (Raise (Exc "ValueError" mensaje)).

Lemma probar_float_fin (texto : string) :
  probar_float texto = Ok tt
  ∨ probar_float texto = Raise (Exc "ValueError" (exn_str (error_float texto))).
Proof.
  unfold probar_float. destruct (float_valido texto); [ left | right ];
    reflexivity.
Qed.

(** [int] gives an integer or raises [ValueError]: for a text that is no
    literal, and for one of more than 4300 digits. *)
Lemma int_fin (texto : string) :
  (∃ n, Py.int texto = Ok n)
  ∨ ∃ mensaje, Py.int texto = Raise (Exc "ValueError" mensaje).
Proof.
  unfold Py.int.
  match goal with
  | |- context [let '(_, _) := ?p in _] => destruct p as [signo cuerpo]
  end.
  destruct (startswith cuerpo "_"); [ right; eexists; reflexivity | ].
  destruct (leer_cifras zero cuerpo) as [[cifras resto]|];
    [ | right; eexists; reflexivity ].
  destruct (_ <? _)%nat; [ right; eexists; reflexivity | ].
  destruct cifras; [ right; eexists; reflexivity | ].
  destruct (saltar_espacios resto); [ left | right ]; eexists; reflexivity.
Qed.

Lemma validar_parametros_fin (region : string) (d : DialogoEntrada.t) :
  is_Some (resultados d !! "parametro1") →
  fin_de_validacion d (validar_parametros region d).
Proof.
  intros [p1 Hp1]. unfold validar_parametros. rewrite Hp1.
  assert (Hresto :
    fin_de_validacion d
      (if String.eqb region "poligono" then
         p ← getitem (resultados d) "parametro1";
         lados ← Py.int p;
         if (lados <? 3)%Z then
           mret (showwarning "Error"
                   "Un polígono debe tener al menos 3 lados" d, false)
         else mret (d, true)
       else mret (d, true))).
  { destruct (String.eqb region "poligono"); [ | constructor ].
    unfold getitem. rewrite Hp1. cbn [mbind outcome_bind].
    destruct (int_fin p1) as [[n ->]|[mensaje ->]]; [ | constructor ].
    cbn [mbind outcome_bind]. destruct (n <? 3)%Z; constructor. }
  destruct (en_lista region _); [ | exact Hresto ].
  destruct (probar_float_fin p1) as [-> | ->]; [ | constructor ].
  cbn [mbind outcome_bind].
  destruct (resultados d !! "parametro2") as [p2|]; [ | exact Hresto ].
  destruct (negb _); [ | exact Hresto ].
  destruct (probar_float_fin p2) as [-> | ->]; [ exact Hresto | constructor ].
Qed.

(** X15: on a form that has the field 'parametro1', [aceptar] raises nothing:
    every [ValueError] of the numeric checks is caught and shown as a
    warning. *)
Theorem aceptar_no_lanza (d : DialogoEntrada.t) (texto : string) :
  ("parametro1", texto) ∈ entries d →
  ∃ d', aceptar d = Ok d'.
Proof.
  intros Hp1. unfold aceptar.
  destruct (validar_campos (entries d) d) as [d1 [|]] eqn:Hd;
    [ | eexists; reflexivity ].
  cbn [negb]. apply validar_campos_completos in Hd as [_ ->].
  cbn [resultados].
  destruct (guardados (entries d) (resultados d) !! "region") as [region|];
    [ | eexists; reflexivity ].
  match goal with
  | |- context [validar_parametros region ?d1] =>
      destruct (validar_parametros_fin region d1) as [ | | mensaje ];
        [ apply (guardados_clave _ _ _ _ Hp1) | .. ]
  end; eexists; reflexivity.
Qed.

Definition regiones_numericas : list string :=
  ["disco"; "corona"; "elipse"; "semicirculo"; "sector_polar"; "poligono"].

(** The two halves of the [try] block of [aceptar]. *)
Definition comprobar_numeros (region : string) (d : DialogoEntrada.t)
  : outcome unit :=
  if en_lista region regiones_numericas then
    _ ← match resultados d !! "parametro1" with
        | Some p1 => probar_float p1
        | None => Ok tt
        end;
    match resultados d !! "parametro2" with
    | Some p2 =>
        if negb (String.eqb p2 "No usado") then probar_float p2 else Ok tt
    | None => Ok tt
    end
  else Ok tt.

Definition comprobar_lados (region : string) (d : DialogoEntrada.t)
  : outcome (DialogoEntrada.t * bool) :=
  if String.eqb region "poligono" then
    p1 ← getitem (resultados d) "parametro1";
    lados ← Py.int p1;
    if (lados <? 3)%Z then
      mret (showwarning "Error" "Un polígono debe tener al menos 3 lados" d,
            false)
    else mret (d, true)
  else mret (d, true).

Lemma validar_parametros_partes (region : string) (d : DialogoEntrada.t) :
  validar_parametros region d
  = (_ ← comprobar_numeros region d; comprobar_lados region d).
Proof. reflexivity. Qed.

(** What the dictionary of an accepted form satisfies. *)
Definition numeros_validos (region : string) (m : gmap string string)
  : Prop :=
  en_lista region regiones_numericas = true →
  (∀ p1, m !! "parametro1" = Some p1 → float_valido p1 = true)
  ∧ (∀ p2, m !! "parametro2" = Some p2 → p2 ≠ "No usado" →
           float_valido p2 = true).

Definition lados_validos (region : string) (m : gmap string string) : Prop :=
  region = "poligono" →
  ∃ p1 n, m !! "parametro1" = Some p1 ∧ Py.int p1 = Ok n ∧ (3 ≤ n)%Z.

Lemma comprobar_numeros_casos (region : string) (d : DialogoEntrada.t) :
  match comprobar_numeros region d with
  | Ok _ => numeros_validos region (resultados d)
  | Raise e => ∃ texto, e = error_float texto
  end.
Proof.
  unfold comprobar_numeros, numeros_validos, probar_float.
  destruct (en_lista region regiones_numericas);
    [ | intros Hf; discriminate Hf ].
  destruct (resultados d !! "parametro1") as [p1|].
  - destruct (float_valido p1) eqn:Hf1; [ | eexists; reflexivity ].
    cbn [mbind outcome_bind].
    destruct (resultados d !! "parametro2") as [p2|].
    + destruct (String.eqb p2 "No usado") eqn:Hp2; cbn [negb].
      * apply String.eqb_eq in Hp2. intros _. split.
        -- intros p Hp. injection Hp as <-. exact Hf1.
        -- intros p Hp Hne. injection Hp as <-. contradiction.
      * destruct (float_valido p2) eqn:Hf2; [ | eexists; reflexivity ].
        intros _. split.
        -- intros p Hp. injection Hp as <-. exact Hf1.
        -- intros p Hp _. injection Hp as <-. exact Hf2.
    + intros _. split.
      * intros p Hp. injection Hp as <-. exact Hf1.
      * intros p Hp. discriminate Hp.
  - cbn [mbind outcome_bind].
    destruct (resultados d !! "parametro2") as [p2|].
    + destruct (String.eqb p2 "No usado") eqn:Hp2; cbn [negb].
      * apply String.eqb_eq in Hp2. intros _. split.
        -- intros p Hp. discriminate Hp.
        -- intros p Hp Hne. injection Hp as <-. contradiction.
      * destruct (float_valido p2) eqn:Hf2; [ | eexists; reflexivity ].
        intros _. split.
        -- intros p Hp. discriminate Hp.
        -- intros p Hp _. injection Hp as <-. exact Hf2.
    + intros _. split; intros p Hp; discriminate Hp.
Qed.

Lemma comprobar_lados_casos (region : string) (d : DialogoEntrada.t) :
  match comprobar_lados region d with
  | Ok (d2, true) => d2 = d ∧ lados_validos region (resultados d)
  | Ok (d2, false) =>
      d2 = showwarning "Error" "Un polígono debe tener al menos 3 lados" d
  | Raise e =>
      (∃ mensaje, e = Exc "ValueError" mensaje)
      ∨ e = Exc "KeyError" (repr "parametro1")
  end.
Proof.
  unfold comprobar_lados, lados_validos, getitem.
  destruct (String.eqb region "poligono") eqn:Hregion.
  - destruct (resultados d !! "parametro1") as [p1|];
      [ | right; reflexivity ].
    cbn [mbind outcome_bind].
    destruct (int_fin p1) as [[n Hn]|[mensaje Hn]]; rewrite Hn;
      [ | left; eexists; reflexivity ].
    cbn [mbind outcome_bind]. destruct (n <? 3)%Z eqn:Hlt; [ reflexivity | ].
    split; [ reflexivity | ]. intros _. exists p1, n.
    apply Z.ltb_ge in Hlt. auto.
  - apply String.eqb_neq in Hregion. split; [ reflexivity | ].
    intros Hp. contradiction.
Qed.

(** What [aceptar] has checked when it closes the dialog. *)
Lemma aceptar_cerrado (d d' : DialogoEntrada.t) :
  aceptar d = Ok d' →
  destruido d = false →
  destruido d' = true →
  Forall (λ campo, strip campo.2 ≠ "") (entries d)
  ∧ resultados d' = guardados (entries d) (resultados d)
  ∧ avisos d' = avisos d
  ∧ ∀ region, resultados d' !! "region" = Some region →
      numeros_validos region (resultados d')
      ∧ lados_validos region (resultados d').
Proof.
  unfold aceptar. intros Hd Hantes Hdespues.
  destruct (validar_campos (entries d) d) as [d1 [|]] eqn:Hcampos;
    cbn [negb] in Hd.
  2:{ injection Hd as <-.
      rewrite (validar_campos_destruido _ _ _ _ Hcampos) in Hdespues.
      congruence. }
  apply validar_campos_completos in Hcampos as [Hcampos ->].
  cbn [resultados] in Hd.
  destruct (guardados (entries d) (resultados d) !! "region")
    as [region|] eqn:Hregion.
  2:{ injection Hd as <-. cbn [resultados avisos destroy].
      repeat (split; [ assumption || reflexivity | ]).
      intros region Hr. congruence. }
  rewrite validar_parametros_partes in Hd.
  match type of Hd with
  | context [comprobar_numeros region ?d1] =>
      pose proof (comprobar_numeros_casos region d1) as Hnum;
      pose proof (comprobar_lados_casos region d1) as Hlados;
      destruct (comprobar_numeros region d1) as [[]|e]
  end.
  2:{ destruct Hnum as [texto ->]. cbn in Hd. injection Hd as <-.
      cbn [destruido showwarning] in Hdespues. congruence. }
  cbn [mbind outcome_bind] in Hd.
  match type of Hd with
  | context [comprobar_lados region ?d1] =>
      destruct (comprobar_lados region d1) as [[d2 [|]]|e]
  end.
  - destruct Hlados as [-> Hlados]. injection Hd as <-.
    cbn [resultados avisos destroy] in *.
    repeat (split; [ assumption || reflexivity | ]).
    intros region' Hr. rewrite Hregion in Hr. injection Hr as <-.
    split; assumption.
  - subst d2. injection Hd as <-.
    cbn [destruido showwarning] in Hdespues. congruence.
  - destruct Hlados as [[mensaje ->]| ->].
    + cbn in Hd. injection Hd as <-.
      cbn [destruido showwarning] in Hdespues. congruence.
    + discriminate Hd.
Qed.

(** X16: [aceptar] closes the dialog only when every field holds some text, and
    then [resultados] maps each field name to its text without the
    surrounding white space; no warning has been shown. *)
Theorem aceptar_cierra_guardando (d d' : DialogoEntrada.t) :
  aceptar d = Ok d' →
  destruido d = false →
  destruido d' = true →
  NoDup (entries d).*1 →
  avisos d' = avisos d
  ∧ ∀ nombre texto, (nombre, texto) ∈ entries d →
      strip texto ≠ "" ∧ resultados d' !! nombre = Some (strip texto).
Proof.
  intros Hd Hantes Hdespues Hdup.
  destruct (aceptar_cerrado _ _ Hd Hantes Hdespues)
    as (Hcampos & -> & Havisos & _).
  split; [ exact Havisos | ]. intros nombre texto Hin. split.
  - rewrite Forall_forall in Hcampos. exact (Hcampos _ Hin).
  - apply guardados_dentro; assumption.
Qed.

(** X17: a polygon form that [aceptar] lets through has a first parameter that
    reads as a float and as an integer, and the integer is at least 3. *)
Theorem aceptar_poligono_aceptado (d d' : DialogoEntrada.t) :
  aceptar d = Ok d' →
  destruido d = false →
  destruido d' = true →
  resultados d' !! "region" = Some "poligono" →
  ∃ p1 n, resultados d' !! "parametro1" = Some p1
          ∧ float_valido p1 = true
          ∧ Py.int p1 = Ok n ∧ (3 ≤ n)%Z.
Proof.
  intros Hd Hantes Hdespues Hregion.
  destruct (aceptar_cerrado _ _ Hd Hantes Hdespues) as (_ & _ & _ & Hv).
  destruct (Hv _ Hregion) as [Hnum Hlados].
  destruct (Hlados eq_refl) as (p1 & n & Hp1 & Hn & Hle).
  destruct (Hnum eq_refl) as [Hf1 _].
  exists p1, n. auto.
Qed.

(** X18: for the regions whose parameters must be numbers, a form that [aceptar]
    lets through has a first parameter, and a second one unless it reads
    'No usado', that Python's [float] accepts: a symbolic radius does not
    pass. *)
Theorem aceptar_parametros_numericos (d d' : DialogoEntrada.t)
    (region : string) :
  aceptar d = Ok d' →
  destruido d = false →
  destruido d' = true →
  resultados d' !! "region" = Some region →
  en_lista region regiones_numericas = true →
  (∀ p1, resultados d' !! "parametro1" = Some p1 → float_valido p1 = true)
  ∧ (∀ p2, resultados d' !! "parametro2" = Some p2 → p2 ≠ "No usado" →
           float_valido p2 = true).
Proof.
  intros Hd Hantes Hdespues Hregion Hnumerica.
  destruct (aceptar_cerrado _ _ Hd Hantes Hdespues) as (_ & _ & _ & Hv).
  destruct (Hv _ Hregion) as [Hnum _]. exact (Hnum Hnumerica).
Qed.

(** X19: a first parameter that [float] refuses, in a region whose parameters
    must be numbers: [aceptar] shows the format warning with Python's
    message and leaves the dialog open. *)
Theorem aceptar_formato_invalido (d : DialogoEntrada.t)
    (region p1 : string) :
  Forall (λ campo, strip campo.2 ≠ "") (entries d) →
  guardados (entries d) (resultados d) !! "region" = Some region →
  en_lista region regiones_numericas = true →
  guardados (entries d) (resultados d) !! "parametro1" = Some p1 →
  float_valido p1 = false →
  ∃ d', aceptar d = Ok d'
      ∧ destruido d' = destruido d
      ∧ avisos d'
        = append (avisos d)
            ("Error de formato",
             "Parámetro numérico inválido: " ++ exn_str (error_float p1)).
Proof.
  intros Hcampos Hregion Hnumerica Hp1 Hf1. unfold aceptar.
  rewrite (validar_campos_llenos _ Hcampos).
  cbn [negb resultados]. rewrite Hregion.
  unfold validar_parametros. fold regiones_numericas. rewrite Hnumerica.
  cbn [resultados]. rewrite Hp1. unfold probar_float. rewrite Hf1.
  cbn [mbind outcome_bind]. eexists. split; [ reflexivity | ].
  split; reflexivity.
Qed.

End Dialogo.

(** * From the dialogs to the engine

    The methods of [AplicacionMultivariable] that open a dialog, read its
    dictionary and call the engine.  What is embedded is the part between
    [self.wait_window(dialogo)] and the call of the engine, the call
    included; the widgets built before it and the text and the plots
    produced after it are outside this development. *)

Section Aplicacion.

Context `{SymPy}.

(** [s.split(sep)] for a one-character separator. *)
Fixpoint str_split (sep : ascii) (s : string) : list string :=
  match s with
  | "" => [""]
  | String c s' =>
      if Ascii.eqb c sep then "" :: str_split sep s'
      else match str_split sep s' with
           | t :: ts => String c t :: ts
           | [] => [String c ""]
           end
  end.

(** Lines 2078-2082 of [abrir_dialogo_integral_triple]: the system names
    handed to the solver. *)
Definition mapeo_sistemas : gmap string string :=
  {[ "rectangular" := "rectangular"; "cilindricas" := "cilindricas";
     "esfericas" := "esfericas" ]}.

(** Lines 2133-2138: the loop that collects the limits of the variables
    named in the order, onto the dictionary [limites]. *)
Fixpoint limites_del_dialogo (resultados : gmap string string)
    (variables_orden : list string) (limites : gmap string (string * string))
  : gmap string (string * string) :=
  match variables_orden with
  | [] => limites
  | var :: resto =>
      let min_key := var ++ "_min" in
      let max_key := var ++ "_max" in
      limites_del_dialogo resultados resto
        (match resultados !! min_key, resultados !! max_key with
         | Some a, Some b => <[var := (a, b)]> limites
         | _, _ => limites
         end)
  end.

(** Lines 2126-2141 of [abrir_dialogo_integral_triple]; [None] is the early
    [return]. *)
Definition abrir_dialogo_integral_triple (sistema_coordenadas : string)
    (resultados : option (gmap string string))
  : outcome (option (Triple.t Expr)) :=
  match resultados with
  | Some res =>
      if sin_resultados resultados then mret None
      else
        integrando ← getitem res "integrando";
        orden ← getitem res "orden";
        let variables_orden := strip <$> str_split "," orden in
        let limites := limites_del_dialogo res variables_orden ∅ in
        sistema_para_funcion ← getitem mapeo_sistemas sistema_coordenadas;
        resultado ← resolver_integral_triple integrando variables_orden
                      limites sistema_para_funcion;
        mret (Some resultado)
  | None => mret None
  end.

(** Lines 2367-2378 of [abrir_divergencia] *)
Definition parametros_divergencia (region p1 p2 p3 p4 p5 : string)
  : outcome (gmap string string) :=
  if String.eqb region "esfera" then mret {[ "R" := p1 ]}
  else if String.eqb region "cilindro" then mret {[ "R" := p1; "h" := p2 ]}
  else if String.eqb region "cubo" then
    mret {[ "a" := p1; "b" := p2; "c" := p3 ]}
  else if String.eqb region "elipsoide" then
    mret {[ "a" := p1; "b" := p2; "c" := p3 ]}
  else if String.eqb region "cono" then mret {[ "R" := p1; "h" := p2 ]}
  else if String.eqb region "entre_superficies" then
    mret {[ "R_int" := p4; "R_ext" := p5; "h" := p2 ]}
  else Raise (sin_asignar "parametros_region").

(** Lines 2353-2380 of [abrir_divergencia] *)
Definition abrir_divergencia (resultados : option (gmap string string))
  : outcome (option (respuesta (Divergencia.t Expr))) :=
  match resultados with
  | Some res =>
      if sin_resultados resultados then mret None
      else
        Fx ← getitem res "Fx";
        Fy ← getitem res "Fy";
        Fz ← getitem res "Fz";
        region ← getitem res "region";
        p1 ← getitem res "parametro1";
        p2 ← getitem res "parametro2";
        p3 ← getitem res "parametro3";
        p4 ← getitem res "parametro4";
        p5 ← getitem res "parametro5";
        parametros_region ← parametros_divergencia region p1 p2 p3 p4 p5;
        resultado ← aplicar_divergencia Fx Fy Fz region (Some parametros_region);
        mret (Some resultado)
  | None => mret None
  end.

(** Lines 2477-2484 of [abrir_stokes] *)
Definition parametros_stokes (superficie p1 p2 p3 p4 p5 : string)
  : outcome (gmap string string) :=
  if String.eqb superficie "disco" then mret {[ "R" := p1 ]}
  else if String.eqb superficie "plano" then
    mret {[ "R" := p1; "a" := p2; "b" := p3; "c" := p4 ]}
  else if String.eqb superficie "paraboloide" then
    mret {[ "R" := p1; "a" := p2 ]}
  else if String.eqb superficie "cilindro" then
    mret {[ "R" := p1; "h" := p2 ]}
  else Raise (sin_asignar "parametros_superficie").

(** Lines 2463-2487 of [abrir_stokes] *)
Definition abrir_stokes (resultados : option (gmap string string))
  : outcome (option (respuesta (Stokes.t Expr))) :=
  match resultados with
  | Some res =>
      if sin_resultados resultados then mret None
      else
        Fx ← getitem res "Fx";
        Fy ← getitem res "Fy";
        Fz ← getitem res "Fz";
        superficie ← getitem res "superficie";
        p1 ← getitem res "parametro1";
        p2 ← getitem res "parametro2";
        p3 ← getitem res "parametro3";
        p4 ← getitem res "parametro4";
        p5 ← getitem res "parametro5";
        parametros_superficie ← parametros_stokes superficie p1 p2 p3 p4 p5;
        resultado ← aplicar_stokes Fx Fy Fz superficie
                      (Some parametros_superficie);
        mret (Some resultado)
  | None => mret None
  end.

(** *** The limits handed to the solver *)

Lemma limites_del_dialogo_lookup (resultados : gmap string string)
    (variables_orden : list string) :
  ∀ (limites : gmap string (string * string)) (v : string),
    limites_del_dialogo resultados variables_orden limites !! v
    = match resultados !! (v ++ "_min"), resultados !! (v ++ "_max") with
      | Some a, Some b =>
          if bool_decide (v ∈ variables_orden) then Some (a, b)
          else limites !! v
      | _, _ => limites !! v
      end.
Proof.
  induction variables_orden as [|var resto IH]; intros limites v.
  - cbn [limites_del_dialogo].
    destruct (resultados !! (v ++ "_min")), (resultados !! (v ++ "_max"));
      reflexivity.
  - cbn [limites_del_dialogo]. cbv zeta. rewrite IH.
    destruct (decide (v = var)) as [->|Hne].
    + destruct (resultados !! (var ++ "_min")) as [a|];
        destruct (resultados !! (var ++ "_max")) as [b|]; try reflexivity.
      rewrite lookup_insert_eq.
      rewrite (bool_decide_eq_true_2 (var ∈ var :: resto))
        by (apply elem_of_cons; left; reflexivity).
      destruct (bool_decide (var ∈ resto)); reflexivity.
    + assert (Hin : bool_decide (v ∈ var :: resto) = bool_decide (v ∈ resto)).
      { apply bool_decide_ext. rewrite elem_of_cons. tauto. }
      rewrite Hin.
      assert (Hl : (match resultados !! (var ++ "_min"),
                          resultados !! (var ++ "_max") with
                    | Some a, Some b => <[var := (a, b)]> limites
                    | _, _ => limites
                    end) !! v = limites !! v).
      { destruct (resultados !! (var ++ "_min"));
          destruct (resultados !! (var ++ "_max")); try reflexivity.
        apply lookup_insert_ne. congruence. }
      rewrite Hl. reflexivity.
Qed.

(** X20: the dictionary of limits the solver receives has an entry for a
    variable exactly when the order names it and the form holds both of its
    limit fields; the entry is the pair of the two texts. *)
Theorem limites_del_dialogo_entradas (resultados : gmap string string)
    (variables_orden : list string) (v a b : string) :
  limites_del_dialogo resultados variables_orden ∅ !! v = Some (a, b)
  ↔ v ∈ variables_orden
    ∧ resultados !! (v ++ "_min") = Some a
    ∧ resultados !! (v ++ "_max") = Some b.
Proof.
  rewrite limites_del_dialogo_lookup, lookup_empty.
  destruct (resultados !! (v ++ "_min")) as [a'|];
    destruct (resultados !! (v ++ "_max")) as [b'|];
    try (split; [ intros Hf; discriminate Hf
                | intros (_ & Ha & Hb); discriminate ]).
  destruct (bool_decide (v ∈ variables_orden)) eqn:Hv.
  - apply bool_decide_eq_true in Hv. split.
    + intros Hab. injection Hab as <- <-. auto.
    + intros (_ & Ha & Hb). congruence.
  - apply bool_decide_eq_false in Hv. split.
    + intros Hf. discriminate Hf.
    + intros (Hin & _). contradiction.
Qed.

(** X21: an order whose first name has no limit fields in the form: the call of
    the solver raises [KeyError], which nothing in the method catches. *)
Theorem orden_sin_limites (sistema_coordenadas sistema integrando orden : string)
    (var : string) (resto : list string) (res : gmap string string)
    (e : Expr) :
  res !! "integrando" = Some integrando →
  res !! "orden" = Some orden →
  strip <$> str_split "," orden = var :: resto →
  res !! (var ++ "_min") = None ∨ res !! (var ++ "_max") = None →
  mapeo_sistemas !! sistema_coordenadas = Some sistema →
  integrando_efectivo integrando sistema = Ok e →
  abrir_dialogo_integral_triple sistema_coordenadas (Some res)
  = Raise (Exc "KeyError" (repr var)).
Proof.
  intros Hi Ho Hvars Hlim Hs He. unfold abrir_dialogo_integral_triple.
  rewrite (con_resultados _ _ _ Hi). unfold getitem at 1 2 3.
  rewrite Hi, Ho, Hs. cbn [mbind outcome_bind]. cbv zeta. rewrite Hvars.
  rewrite (limite_ausente _ _ _ _ _ _ He); [ reflexivity | ].
  rewrite limites_del_dialogo_lookup, lookup_empty.
  destruct Hlim as [-> | ->]; [ reflexivity | ].
  destruct (res !! (var ++ "_min")); reflexivity.
Qed.

(** *** The regions of the dialogs and the regions of the engine *)

Ltac tabla_de_regiones region :=
  rewrite !en_lista_cons; simpl en_lista; rewrite ?orb_false_r;
  repeat (destruct (String.eqb region _);
          [ cbn [orb]; split; [ reflexivity | eauto ] | ]);
  cbn [orb]; split; [ intros [m Hm]; discriminate Hm
                    | intros Hf; discriminate Hf ].

(** X22: each method builds a dictionary of parameters for exactly the regions
    (or surfaces) its evaluator supports: a tag for which the dictionary is
    built is never answered with 'no soportada', and a tag the evaluator
    supports never finds the dictionary unassigned. *)
Theorem regiones_de_los_dialogos :
  (∀ region p1 p2 p3 p4 p5,
     (∃ m, parametros_green region p1 p2 p3 p4 p5 = Ok m)
     ↔ en_lista region regiones_green = true)
  ∧ (∀ region p1 p2 p3 p4 p5,
       (∃ m, parametros_divergencia region p1 p2 p3 p4 p5 = Ok m)
       ↔ en_lista region regiones_divergencia = true)
  ∧ (∀ superficie p1 p2 p3 p4 p5,
       (∃ m, parametros_stokes superficie p1 p2 p3 p4 p5 = Ok m)
       ↔ en_lista superficie superficies_stokes = true).
Proof.
  split; [ | split ].
  - intros region p1 p2 p3 p4 p5.
    unfold parametros_green, regiones_green. tabla_de_regiones region.
  - intros region p1 p2 p3 p4 p5.
    unfold parametros_divergencia, regiones_divergencia.
    tabla_de_regiones region.
  - intros superficie p1 p2 p3 p4 p5.
    unfold parametros_stokes, superficies_stokes.
    tabla_de_regiones superficie.
Qed.

(** *** The radius of the cylinder *)

(** X23: [abrir_divergencia] stores the first parameter of a cylinder under 'R'
    and the evaluator reads the radius under 'a': whatever the radius field
    of the form holds, the answer is the same. *)
Theorem radio_del_cilindro_sin_efecto (res : gmap string string)
    (radio radio' : string) :
  res !! "region" = Some "cilindro" →
  abrir_divergencia (Some (<["parametro1" := radio]> res))
  = abrir_divergencia (Some (<["parametro1" := radio']> res)).
Proof.
  intros Hregion. unfold abrir_divergencia.
  rewrite !(con_resultados _ "parametro1" _ (lookup_insert_eq _ _ _)).
  unfold getitem. rewrite !lookup_insert_eq.
  rewrite !lookup_insert_ne by discriminate. rewrite Hregion.
  destruct (res !! "Fx") as [Fx|]; [ | reflexivity ].
  destruct (res !! "Fy") as [Fy|]; [ | reflexivity ].
  destruct (res !! "Fz") as [Fz|]; [ | reflexivity ].
  cbn [mbind outcome_bind].
  destruct (res !! "parametro2") as [p2|]; [ | reflexivity ].
  destruct (res !! "parametro3") as [p3|]; [ | reflexivity ].
  destruct (res !! "parametro4") as [p4|]; [ | reflexivity ].
  destruct (res !! "parametro5") as [p5|]; [ | reflexivity ].
  cbn [mbind outcome_bind]. unfold parametros_divergencia. evaluar_eqb.
  cbn [mbind outcome_bind mret outcome_ret].
  rewrite (divergencia_cilindro_lee_a_y_h Fx Fy Fz
             {[ "R" := radio; "h" := p2 ]} {[ "R" := radio'; "h" := p2 ]});
    reflexivity.
Qed.

(** *** A polygon, from the form to the evaluator *)

(** Lines 2252-2264 of [abrir_green]: the fields of its form. *)
Definition campos_green : list string :=
  ["P"; "Q"; "region"; "parametro1"; "parametro2"; "parametro3";
   "parametro4"; "parametro5"].

(** X24: when [aceptar] closes the form of [abrir_green] with the region
    'poligono', the evaluator is called with that region and with a
    dictionary whose 'lados' reads as an integer that is at least 3.  Only
    the forms [aceptar] itself closes are meant: a form it refused keeps its
    fields in [resultados], and a window closed by other means is not
    covered here. *)
Theorem poligono_aceptado_con_tres_lados (d d' : DialogoEntrada.t) :
  (DialogoEntrada.entries d).*1 = campos_green →
  DialogoEntrada.aceptar d = Ok d' →
  DialogoEntrada.destruido d = false →
  DialogoEntrada.destruido d' = true →
  DialogoEntrada.resultados d' !! "region" = Some "poligono" →
  ∃ P Q p1 n m,
    abrir_green (Some (DialogoEntrada.resultados d'))
    = (Some <$> aplicar_green P Q "poligono" (Some m))
    ∧ m !! "lados" = Some p1 ∧ Py.int p1 = Ok n ∧ (3 ≤ n)%Z.
Proof.
  intros Hnombres Hd Hantes Hdespues Hregion.
  destruct (aceptar_cerrado _ _ Hd Hantes Hdespues)
    as (_ & Hres & _ & Hv).
  assert (Hk : ∀ k, k ∈ campos_green →
                    is_Some (DialogoEntrada.resultados d' !! k)).
  { intros k Hk. rewrite Hres. rewrite <- Hnombres in Hk.
    apply list_elem_of_fmap in Hk as ([k' t] & -> & Hin).
    apply (guardados_clave _ _ _ _ Hin). }
  assert (Hen : ∀ k, bool_decide (k ∈ campos_green) = true →
                     is_Some (DialogoEntrada.resultados d' !! k)).
  { intros k Hb. apply Hk. apply bool_decide_eq_true in Hb. exact Hb. }
  destruct (Hen "P" eq_refl) as [P HP].
  destruct (Hen "Q" eq_refl) as [Q HQ].
  destruct (Hen "parametro2" eq_refl) as [p2 Hp2].
  destruct (Hen "parametro3" eq_refl) as [p3 Hp3].
  destruct (Hen "parametro4" eq_refl) as [p4 Hp4].
  destruct (Hen "parametro5" eq_refl) as [p5 Hp5].
  destruct (Hv _ Hregion) as [_ Hlados].
  destruct (Hlados eq_refl) as (p1 & n & Hp1 & Hn & Hle).
  exists P, Q, p1, n,
    {[ "lados" := p1; "radio" := p2; "centro_x" := p4; "centro_y" := p5 ]}.
  split; [ | split; [ | split ] ];
    [ | | exact Hn | exact Hle ].
  - exact (abrir_green_poligono _ _ _ _ _ _ _ _ HP HQ Hregion Hp1 Hp2 Hp3
             Hp4 Hp5).
  - reflexivity.
Qed.

End Aplicacion.

(** * The further properties, on concrete inputs *)

Section Testigos.

#[local] Existing Instance MiniSymPy.sympy.

Lemma integrando_por_sistema_esfericas :
  en_lista "esferica" sistemas_reconocidos = true
  ∧ integrando_efectivo "1" "esferica" = Ok (Integer 1 * jacobiano_esfericas)%sp.
Proof.
  split; [ reflexivity | ].
  pose proof (integrando_por_sistema "1" "esferica" eq_refl) as Hi.
  vm_compute in Hi |- *. exact Hi.
Defined.

Lemma resolver_sin_variables_uno :
  integrando_efectivo "1" "rectangular" = Ok (Integer 1)
  ∧ ∃ r, resolver_integral_triple "1" [] ∅ "rectangular" = Ok r
       ∧ Triple.resultado r = Integer 1
       ∧ last (Triple.pasos r) = Some (paso_valor_numerico (Integer 1)).
Proof.
  split; [ vm_compute; reflexivity | ].
  apply (resolver_sin_variables "1" "rectangular" ∅ (Integer 1)).
  vm_compute. reflexivity.
Defined.

Lemma resolver_limite_ausente_z :
  integrando_efectivo "1" "rectangular" = Ok (Integer 1)
  ∧ (∅ : gmap string (string * string)) !! "z" = None
  ∧ resolver_integral_triple "1" ["z"] ∅ "rectangular"
    = Raise (Exc "KeyError" "'z'").
Proof.
  split; [ vm_compute; reflexivity | ]. split; [ reflexivity | ].
  apply (resolver_limite_ausente "1" "rectangular" "z" [] ∅ (Integer 1));
    [ vm_compute; reflexivity | reflexivity ].
Defined.

Lemma resolver_integrando_invalido_suma :
  en_lista "rectangular" sistemas_reconocidos = true
  ∧ ∃ e, sympify "1+" (tabla_de "rectangular") = Raise e
       ∧ resolver_integral_triple "1+" ["z"; "y"; "x"] caja "rectangular"
         = Raise e.
Proof.
  split; [ reflexivity | ].
  eexists. split; [ vm_compute; reflexivity | ].
  apply (resolver_integrando_invalido "1+" "rectangular");
    [ reflexivity | vm_compute; reflexivity ].
Defined.

Lemma pasos_numerados_de_la_caja :
  resolver_integral_triple "1" ["z"; "y"; "x"] caja "rectangular"
  = Ok registro_de_la_caja
  ∧ ∃ previos nuevos,
      Triple.pasos registro_de_la_caja
      = (previos ++ nuevos
         ++ [(nl ++ "RESULTADO FINAL = "
              ++ str (Triple.resultado registro_de_la_caja))%string;
             paso_valor_numerico (Triple.resultado registro_de_la_caja)])%list
      ∧ length nuevos = 9%nat
      ∧ ∀ (k : nat) (var : string),
          ["z"; "y"; "x"] !! k = Some var →
          nuevos !! (3 * k)%nat
          = Some (nl ++ "Paso " ++ str_int (Z.of_nat k + 1)
                  ++ ": Integrar respecto de " ++ var).
Proof.
  split; [ exact caja_resuelta | ].
  exact (pasos_numerados _ _ _ _ _ caja_resuelta).
Defined.

Lemma cilindricas_jacobiano_r_mas_uno :
  In "+"%char ["+"; "-"; "*"; "/"]%char
  ∧ jacobiano_incluido_cilindricas "r+1" = true.
Proof.
  split; [ left; reflexivity | ].
  apply (cilindricas_jacobiano_por_prefijo "+" "1"). left. reflexivity.
Defined.

Lemma campo_invalido_en_green :
  ∃ e, campo_xy "1+" "x" = Raise e
     ∧ aplicar_green "1+" "x" "disco" None
       = Ok (error ("Error analizando P o Q: " ++ exn_str e)).
Proof.
  destruct (campo_invalido_es_un_error (H := MiniSymPy.sympy)) as [Hgreen _].
  eexists. split; [ vm_compute; reflexivity | ].
  apply Hgreen. vm_compute. reflexivity.
Defined.

Lemma region_estrella_no_soportada :
  en_lista "estrella" regiones_green = false
  ∧ aplicar_green "-y" "x" "estrella" None
    = Ok (error "Región no soportada para el Teorema de Green.").
Proof.
  destruct (region_no_soportada (H := MiniSymPy.sympy)) as [Hgreen _].
  split; [ reflexivity | ].
  apply (Hgreen "-y" "x" "estrella" None
           (neg (Symbol "y" real), Symbol "x" real));
    [ vm_compute; reflexivity | reflexivity ].
Defined.

Lemma green_sin_parametros :
  en_lista "disco" regiones_green = true
  ∧ aplicar_green "-y" "x" "disco" None = Raise sin_parametros.
Proof.
  destruct (sin_parametros_lanza_AttributeError (H := MiniSymPy.sympy))
    as [Hgreen _].
  split; [ reflexivity | ].
  apply (Hgreen "-y" "x" "disco" (neg (Symbol "y" real), Symbol "x" real));
    [ vm_compute; reflexivity | reflexivity ].
Defined.


Lemma stokes_disco_unidad_verificado :
  ∃ r, aplicar_stokes "-y" "x" "0" "disco" (Some (esfera_radio "1"))
       = Ok (datos r)
     ∧ ∃ previos,
         Stokes.pasos r
         = (previos
            ++ [""; "VERIFICACIÓN DEL TEOREMA DE STOKES:";
                ("Integral de superficie: "
                 ++ sp_pretty (Stokes.superficie r))%string;
                ("Integral de línea: " ++ sp_pretty (Stokes.linea r))%string;
                linea_verificacion_stokes (Stokes.superficie r)
                  (Stokes.linea r)])%list.
Proof.
  eexists. split; [ vm_compute; reflexivity | ].
  apply (stokes_disco_verificacion "-y" "x" "0" (Some (esfera_radio "1"))).
  vm_compute. reflexivity.
Defined.

Lemma divergencia_cilindro_radios_5_y_7 :
  ({[ "R" := "5"; "h" := "2" ]} : gmap string string) !! "a"
  = ({[ "R" := "7"; "h" := "2" ]} : gmap string string) !! "a"
  ∧ ({[ "R" := "5"; "h" := "2" ]} : gmap string string) !! "h"
    = ({[ "R" := "7"; "h" := "2" ]} : gmap string string) !! "h"
  ∧ aplicar_divergencia "x" "y" "z" "cilindro"
      (Some {[ "R" := "5"; "h" := "2" ]})
    = aplicar_divergencia "x" "y" "z" "cilindro"
        (Some {[ "R" := "7"; "h" := "2" ]}).
Proof.
  split; [ reflexivity | ]. split; [ reflexivity | ].
  apply (divergencia_cilindro_claves "x" "y" "z"); reflexivity.
Defined.

Lemma esfera_unidad_por_atajo :
  ∃ r, aplicar_divergencia "x" "y" "z" "esfera" (Some (esfera_radio "1"))
       = Ok (datos r)
     ∧ is_constant (Divergencia.divergencia r) = true
     ∧ ∃ R, sympify0 (default "1" (esfera_radio "1" !! "R")) = Ok R
          ∧ Divergencia.volumen r
            = (Divergencia.divergencia r
               * (Float (4 / 3)%float * pi * R ** Integer 3))%sp.
Proof.
  eexists. split; [ vm_compute; reflexivity | ].
  split; [ vm_compute; reflexivity | ].
  apply (esfera_divergencia_constante "x" "y" "z" (esfera_radio "1"));
    vm_compute; reflexivity.
Defined.

(** The form of [abrir_green], filled in for a pentagon, for a disk whose
    radius is a letter, and with the field Q left blank. *)
Definition formulario_green (region parametro1 : string) (Q : string)
  : DialogoEntrada.t :=
  {| DialogoEntrada.entries :=
       [("P", "-y"); ("Q", Q); ("region", region);
        ("parametro1", parametro1); ("parametro2", "2");
        ("parametro3", "1"); ("parametro4", "0"); ("parametro5", "0")];
     DialogoEntrada.resultados := ∅;
     DialogoEntrada.avisos := [];
     DialogoEntrada.destruido := false |}.

(** A field that holds nothing but a space and a no-break space. *)
Definition en_blanco : string := " " ++ espacio_duro.

Lemma aceptar_campo_Q_en_blanco :
  ∃ d', DialogoEntrada.aceptar (formulario_green "disco" "1" en_blanco)
        = Ok d'
      ∧ DialogoEntrada.destruido d' = false
      ∧ DialogoEntrada.avisos d'
        = [("Campo vacío", "Por favor complete el campo: Q")]
      ∧ DialogoEntrada.resultados d' = guardados [("P", "-y")] ∅.
Proof.
  apply (aceptar_campo_vacio (formulario_green "disco" "1" en_blanco)
           [("P", "-y")]
           [("region", "disco"); ("parametro1", "1"); ("parametro2", "2");
            ("parametro3", "1"); ("parametro4", "0"); ("parametro5", "0")]
           "Q" en_blanco).
  - reflexivity.
  - repeat (apply List.Forall_cons; [ vm_compute; discriminate | ]).
    apply List.Forall_nil.
  - vm_compute. reflexivity.
Defined.

Lemma aceptar_no_lanza_con_letras :
  ∃ d', DialogoEntrada.aceptar (formulario_green "poligono" "tres" "x")
        = Ok d'.
Proof.
  apply (aceptar_no_lanza (formulario_green "poligono" "tres" "x") "tres").
  apply (bool_decide_unpack _). vm_compute. exact I.
Defined.

(** The side count 5, typed between a space and a no-break space. *)
Definition cinco_con_espacios : string := " 5" ++ espacio_duro.

Lemma aceptar_pentagono_guardado :
  strip cinco_con_espacios = "5"
  ∧ ∃ d', DialogoEntrada.aceptar
            (formulario_green "poligono" cinco_con_espacios "x")
          = Ok d'
        ∧ DialogoEntrada.destruido d' = true
        ∧ DialogoEntrada.avisos d' = []
        ∧ ∀ nombre texto,
            (nombre, texto)
            ∈ DialogoEntrada.entries
                (formulario_green "poligono" cinco_con_espacios "x") →
            strip texto ≠ ""
            ∧ DialogoEntrada.resultados d' !! nombre = Some (strip texto).
Proof.
  split; [ vm_compute; reflexivity | ].
  eexists. split; [ vm_compute; reflexivity | ].
  split; [ reflexivity | ].
  apply (aceptar_cierra_guardando
           (formulario_green "poligono" cinco_con_espacios "x"));
    [ vm_compute; reflexivity | reflexivity | reflexivity
    | apply (bool_decide_unpack _); vm_compute; exact I ].
Defined.

Lemma aceptar_pentagono_aceptado :
  Py.int "1_2" = Ok 12%Z
  ∧ ∃ d', DialogoEntrada.aceptar (formulario_green "poligono" "1_2" "x")
          = Ok d'
        ∧ DialogoEntrada.destruido d' = true
        ∧ DialogoEntrada.resultados d' !! "region" = Some "poligono"
        ∧ ∃ p1 n, DialogoEntrada.resultados d' !! "parametro1" = Some p1
                  ∧ float_valido p1 = true
                  ∧ Py.int p1 = Ok n ∧ (3 ≤ n)%Z.
Proof.
  split; [ vm_compute; reflexivity | ].
  eexists. split; [ vm_compute; reflexivity | ].
  split; [ reflexivity | ]. split; [ vm_compute; reflexivity | ].
  apply (aceptar_poligono_aceptado (formulario_green "poligono" "1_2" "x"));
    [ vm_compute; reflexivity | reflexivity | reflexivity
    | vm_compute; reflexivity ].
Defined.

Lemma aceptar_disco_numerico :
  ∃ d', DialogoEntrada.aceptar (formulario_green "disco" "1.5" "x") = Ok d'
      ∧ DialogoEntrada.destruido d' = true
      ∧ (∀ p1, DialogoEntrada.resultados d' !! "parametro1" = Some p1 →
               float_valido p1 = true)
      ∧ (∀ p2, DialogoEntrada.resultados d' !! "parametro2" = Some p2 →
               p2 ≠ "No usado" → float_valido p2 = true).
Proof.
  eexists. split; [ vm_compute; reflexivity | ].
  split; [ reflexivity | ].
  apply (aceptar_parametros_numericos (formulario_green "disco" "1.5" "x")
           _ "disco");
    [ vm_compute; reflexivity | reflexivity | reflexivity
    | vm_compute; reflexivity | reflexivity ].
Defined.

Lemma aceptar_radio_simbolico :
  float_valido "R'" = false
  ∧ repr "R'" = String comillas ("R'" ++ String comillas "")
  ∧ ∃ d', DialogoEntrada.aceptar (formulario_green "disco" "R'" "x") = Ok d'
        ∧ DialogoEntrada.destruido d' = false
        ∧ DialogoEntrada.avisos d'
          = [("Error de formato",
              "Parámetro numérico inválido: could not convert string to float: "
              ++ repr "R'")].
Proof.
  split; [ vm_compute; reflexivity | ].
  split; [ vm_compute; reflexivity | ].
  apply (aceptar_formato_invalido (formulario_green "disco" "R'" "x")
           "disco" "R'");
    [ repeat (apply List.Forall_cons; [ vm_compute; discriminate | ]);
      apply List.Forall_nil
    | vm_compute; reflexivity | reflexivity | vm_compute; reflexivity
    | vm_compute; reflexivity ].
Defined.

(** The dictionary a triple-integral form leaves when the order names a
    variable, w, that has no limit fields. *)
Definition orden_w : string := "w" ++ espacio_duro ++ ", y, x".

Definition resultados_orden_w : gmap string string :=
  {[ "integrando" := "1"; "orden" := orden_w;
     "x_min" := "0"; "x_max" := "2"; "y_min" := "0"; "y_max" := "1";
     "z_min" := "0"; "z_max" := "3" ]}.

Lemma orden_con_w_sin_limites :
  abrir_dialogo_integral_triple "rectangular" (Some resultados_orden_w)
  = Raise (Exc "KeyError" "'w'").
Proof.
  apply (orden_sin_limites "rectangular" "rectangular" "1" orden_w "w"
           ["y"; "x"] resultados_orden_w (Integer 1));
    [ vm_compute; reflexivity | vm_compute; reflexivity
    | vm_compute; reflexivity | left; vm_compute; reflexivity
    | vm_compute; reflexivity | vm_compute; reflexivity ].
Defined.

Lemma radio_del_cilindro_5_o_7 :
  ({[ "Fx" := "x"; "Fy" := "y"; "Fz" := "z"; "region" := "cilindro";
      "parametro2" := "2"; "parametro3" := "1"; "parametro4" := "0.5";
      "parametro5" := "1" ]} : gmap string string) !! "region"
  = Some "cilindro"
  ∧ abrir_divergencia
      (Some (<["parametro1" := "5"]>
               {[ "Fx" := "x"; "Fy" := "y"; "Fz" := "z";
                  "region" := "cilindro"; "parametro2" := "2";
                  "parametro3" := "1"; "parametro4" := "0.5";
                  "parametro5" := "1" ]}))
    = abrir_divergencia
        (Some (<["parametro1" := "7"]>
                 {[ "Fx" := "x"; "Fy" := "y"; "Fz" := "z";
                    "region" := "cilindro"; "parametro2" := "2";
                    "parametro3" := "1"; "parametro4" := "0.5";
                    "parametro5" := "1" ]})).
Proof.
  split; [ vm_compute; reflexivity | ].
  apply (radio_del_cilindro_sin_efecto _ "5" "7"). vm_compute. reflexivity.
Defined.

Lemma pentagono_aceptado_con_tres_lados :
  ∃ d', DialogoEntrada.aceptar (formulario_green "poligono" "5" "x") = Ok d'
      ∧ ∃ P Q p1 n m,
          abrir_green (Some (DialogoEntrada.resultados d'))
          = (Some <$> aplicar_green P Q "poligono" (Some m))
          ∧ m !! "lados" = Some p1 ∧ Py.int p1 = Ok n ∧ (3 ≤ n)%Z.
Proof.
  eexists. split; [ vm_compute; reflexivity | ].
  apply (poligono_aceptado_con_tres_lados
           (formulario_green "poligono" "5" "x"));
    [ reflexivity | vm_compute; reflexivity | reflexivity | reflexivity
    | vm_compute; reflexivity ].
Defined.

Lemma traza_de_la_caja :
  ejecutar (LlamadaTriple "1" ["z"; "y"; "x"] caja "rectangular")
  = Ok (RTriple registro_de_la_caja)
  ∧ traza (RTriple registro_de_la_caja)
    = Some (Triple.pasos registro_de_la_caja)
  ∧ Triple.pasos registro_de_la_caja ≠ [].
Proof.
  assert (He : ejecutar (LlamadaTriple "1" ["z"; "y"; "x"] caja "rectangular")
               = Ok (RTriple registro_de_la_caja)).
  { unfold ejecutar. rewrite caja_resuelta. reflexivity. }
  split; [ exact He | ]. split; [ reflexivity | ].
  exact (traza_no_vacia _ _ _ He eq_refl).
Defined.

End Testigos.
